(** * mcp-oauth-password: authorization-code lifecycle and PKCE verification

    A shallow embedding of the OAuth 2.1 core of the package
    (src/oauth/pkce.ts, storage.ts, clients.ts, authorize.ts, token.ts,
    register.ts and utils/audit-log.ts) together with the properties of the
    design document that concern it.

    Modelling conventions.
    - A JavaScript string is a [string]: the sequence of its UTF-8 bytes
      (strings with unpaired surrogates, which have none, are left out).
    - A byte is a [Z] in [0, 256); a 32-bit word is a [Z] reduced mod 2^32.
    - Milliseconds since the epoch are [Z]; one clock serves [Date.now()]
      and the database's [NOW()].
    - The PostgreSQL pool, the system CSPRNG and the query log form the
      [World] that every asynchronous function threads through. *)

From Stdlib Require Import ZArith List String Ascii Bool Lia.
Import ListNotations.

Local Open Scope string_scope.
Local Open Scope Z_scope.
Local Open Scope list_scope.

(* ===================================================================== *)
(** * Node runtime: Buffer encoding and crypto                            *)
(* ===================================================================== *)

Module Node.

(** The bytes of a string ([Buffer.from(s)]). *)
Definition byte_of_ascii (a : ascii) : Z := Z.of_N (N_of_ascii a).

Fixpoint bytes_of_string (s : string) : list Z :=
  match s with
  | EmptyString => []
  | String a rest => byte_of_ascii a :: bytes_of_string rest
  end.

Definition is_byte (b : Z) : Prop := 0 <= b < 256.

(** ** [buf.toString('base64url')]: RFC 4648 section 5, no padding. *)

Definition b64url_alphabet : string :=
  "ABCDEFGHIJKLMNOPQRSTUVWXYZabcdefghijklmnopqrstuvwxyz0123456789-_".

Definition b64_char (n : Z) : ascii :=
  match String.get (Z.to_nat n) b64url_alphabet with
  | Some c => c
  | None => "A"%char
  end.

(** The values a sextet can take. *)
Definition sextets : list Z := map Z.of_nat (seq 0 64).

(** The four sextets of a group of three bytes. *)
Definition sextet1 (a : Z) : Z := a / 4.
Definition sextet2 (a b : Z) : Z := (a mod 4) * 16 + b / 16.
Definition sextet3 (b c : Z) : Z := (b mod 16) * 4 + c / 64.
Definition sextet4 (c : Z) : Z := c mod 64.

Fixpoint base64url (bs : list Z) : string :=
  match bs with
  | [] => ""
  | [a] =>
      String (b64_char (sextet1 a)) (String (b64_char (sextet2 a 0)) "")
  | [a; b] =>
      String (b64_char (sextet1 a))
        (String (b64_char (sextet2 a b))
           (String (b64_char (sextet3 b 0)) ""))
  | a :: b :: c :: rest =>
      String (b64_char (sextet1 a))
        (String (b64_char (sextet2 a b))
           (String (b64_char (sextet3 b c))
              (String (b64_char (sextet4 c)) (base64url rest))))
  end.

(** ** [createHash('sha256')]: FIPS 180-4. *)

Definition w32 (x : Z) : Z := x mod 4294967296.
Definition add32 (x y : Z) : Z := w32 (x + y).
Definition rotr (n x : Z) : Z :=
  Z.lor (Z.shiftr x n) (w32 (Z.shiftl x (32 - n))).
Definition not32 (x : Z) : Z := Z.lxor x 4294967295.

Definition Ch (x y z : Z) : Z := Z.lxor (Z.land x y) (Z.land (not32 x) z).
Definition Maj (x y z : Z) : Z :=
  Z.lxor (Z.lxor (Z.land x y) (Z.land x z)) (Z.land y z).
Definition Sigma0 (x : Z) : Z := Z.lxor (Z.lxor (rotr 2 x) (rotr 13 x)) (rotr 22 x).
Definition Sigma1 (x : Z) : Z := Z.lxor (Z.lxor (rotr 6 x) (rotr 11 x)) (rotr 25 x).
Definition sigma0 (x : Z) : Z := Z.lxor (Z.lxor (rotr 7 x) (rotr 18 x)) (Z.shiftr x 3).
Definition sigma1 (x : Z) : Z := Z.lxor (Z.lxor (rotr 17 x) (rotr 19 x)) (Z.shiftr x 10).

(** The round constants: the first 32 bits of the fractional parts of the
    cube roots of the first sixty-four primes, in decimal. *)
Definition K256 : list Z :=
  [
    1116352408; 1899447441; 3049323471; 3921009573;
    961987163; 1508970993; 2453635748; 2870763221;
    3624381080; 310598401; 607225278; 1426881987;
    1925078388; 2162078206; 2614888103; 3248222580;
    3835390401; 4022224774; 264347078; 604807628;
    770255983; 1249150122; 1555081692; 1996064986;
    2554220882; 2821834349; 2952996808; 3210313671;
    3336571891; 3584528711; 113926993; 338241895;
    666307205; 773529912; 1294757372; 1396182291;
    1695183700; 1986661051; 2177026350; 2456956037;
    2730485921; 2820302411; 3259730800; 3345764771;
    3516065817; 3600352804; 4094571909; 275423344;
    430227734; 506948616; 659060556; 883997877;
    958139571; 1322822218; 1537002063; 1747873779;
    1955562222; 2024104815; 2227730452; 2361852424;
    2428436474; 2756734187; 3204031479; 3329325298 ]%Z.

(** The eight working variables, also the chaining value. *)
Record HashState : Type := mkHash
  { ha : Z; hb : Z; hc : Z; hd : Z; he : Z; hf : Z; hg : Z; hh : Z }.

Definition H0 : HashState :=
  mkHash 1779033703 3144134277 1013904242 2773480762
         1359893119 2600822924 528734635 1541459225.

(** Padding: 0x80, zero bytes, and the bit length on eight bytes. *)
Definition be_bytes (n : nat) (x : Z) : list Z :=
  map (fun i => (x / 2 ^ (8 * Z.of_nat i)) mod 256) (rev (seq 0 n)).

Definition pad (msg : list Z) : list Z :=
  let len := Z.of_nat (List.length msg) in
  msg ++ [128] ++ repeat 0 (Z.to_nat ((55 - len) mod 64)) ++ be_bytes 8 (8 * len).

Fixpoint words_of_bytes (bs : list Z) : list Z :=
  match bs with
  | a :: b :: c :: d :: rest =>
      (((a * 256 + b) * 256 + c) * 256 + d) :: words_of_bytes rest
  | _ => []
  end.

(** Message schedule: the sixteen block words extended to sixty-four. *)
Fixpoint extend (n : nat) (ws : list Z) : list Z :=
  match n with
  | O => ws
  | S n' =>
      let t := List.length ws in
      let at_ k := nth (t - k) ws 0 in
      extend n' (ws ++ [add32 (add32 (sigma1 (at_ 2%nat)) (at_ 7%nat))
                              (add32 (sigma0 (at_ 15%nat)) (at_ 16%nat))])
  end.

Definition round (s : HashState) (kw : Z * Z) : HashState :=
  let t1 := add32 (add32 (add32 (hh s) (Sigma1 (he s)))
                         (add32 (Ch (he s) (hf s) (hg s)) (fst kw))) (snd kw) in
  let t2 := add32 (Sigma0 (ha s)) (Maj (ha s) (hb s) (hc s)) in
  mkHash (add32 t1 t2) (ha s) (hb s) (hc s) (add32 (hd s) t1) (he s) (hf s) (hg s).

Definition compress (h : HashState) (block : list Z) : HashState :=
  let s := fold_left round (combine K256 (extend 48 block)) h in
  mkHash (add32 (ha h) (ha s)) (add32 (hb h) (hb s)) (add32 (hc h) (hc s))
         (add32 (hd h) (hd s)) (add32 (he h) (he s)) (add32 (hf h) (hf s))
         (add32 (hg h) (hg s)) (add32 (hh h) (hh s)).

Fixpoint blocks (fuel : nat) (ws : list Z) : list (list Z) :=
  match fuel, ws with
  | S fuel', _ :: _ => firstn 16 ws :: blocks fuel' (skipn 16 ws)
  | _, _ => []
  end.

Definition digest_bytes (h : HashState) : list Z :=
  flat_map (be_bytes 4) [ha h; hb h; hc h; hd h; he h; hf h; hg h; hh h].

Definition sha256 (msg : list Z) : list Z :=
  let ws := words_of_bytes (pad msg) in
  digest_bytes (fold_left compress (blocks (List.length ws) ws) H0).

End Node.

(* ===================================================================== *)
(** * JavaScript values                                                    *)
(* ===================================================================== *)

(** What [req.body] and [req.query] can hold.  [JObject] stands for any
    object that is not an array (always truthy, [typeof] "object"). *)
#[warnings="-register-all"]
Inductive JsValue : Type :=
| JUndefined
| JNull
| JBool (b : bool)
| JNumber (n : Z)
| JString (s : string)
| JArray (items : list JsValue)
| JObject.

Definition str_truthy (s : string) : bool := negb (s =? "")%string.

Definition truthy (v : JsValue) : bool :=
  match v with
  | JUndefined | JNull => false
  | JBool b => b
  | JNumber n => negb (n =? 0)
  | JString s => str_truthy s
  | JArray _ | JObject => true
  end.

Definition typeof (v : JsValue) : string :=
  match v with
  | JUndefined => "undefined"
  | JNull | JArray _ | JObject => "object"
  | JBool _ => "boolean"
  | JNumber _ => "number"
  | JString _ => "string"
  end.

(** [v === 'literal'] *)
Definition strict_eq_str (v : JsValue) (lit : string) : bool :=
  match v with
  | JString s => (s =? lit)%string
  | _ => false
  end.

(** [!v || typeof v !== 'string'] *)
Definition missing_or_not_string (v : JsValue) : bool :=
  negb (truthy v) || negb (typeof v =? "string")%string.

(** The string behind a value that the type checker has narrowed to
    [string]. *)
Definition as_string (v : JsValue) : string :=
  match v with
  | JString s => s
  | _ => ""
  end.

(** [typeof v === 'string' ? v : undefined] *)
Definition string_or_undefined (v : JsValue) : option string :=
  match v with
  | JString s => Some s
  | _ => None
  end.

(** Truthiness of an optional string ([undefined] and "" are falsy). *)
Definition opt_truthy (o : option string) : bool :=
  match o with
  | Some s => str_truthy s
  | None => false
  end.

(** [o || dflt] on an optional string. *)
Definition opt_or (o : option string) (dflt : string) : string :=
  if opt_truthy o then match o with Some s => s | None => dflt end else dflt.

Definition js_opt (o : option string) : JsValue :=
  match o with
  | Some s => JString s
  | None => JUndefined
  end.

(** [arr.includes(s)] on an array of strings. *)
Definition includes (arr : list string) (s : string) : bool :=
  existsb (fun x => (x =? s)%string) arr.

(** [s.startsWith(p)] *)
Definition startsWith (s p : string) : bool := String.prefix p s.

(** The one-character string holding a double quote, for messages that
    quote a literal. *)
Definition dquote : string := String (ascii_of_nat 34) EmptyString.

(** [arr.join(sep)] *)
Definition join (sep : string) (arr : list string) : string :=
  String.concat sep arr.

(* ===================================================================== *)
(** * types/index.ts                                                       *)
(* ===================================================================== *)

Module StoredAuthCode.
Record t : Type := mk
  { code : string;
    clientId : string;
    redirectUri : string;
    codeChallenge : string;
    codeChallengeMethod : string;
    scope : option string;
    createdAt : Z;
    expiresAt : Z }.
End StoredAuthCode.

Module RegisteredClient.
Record t : Type := mk
  { client_id : string;
    client_secret : string;
    client_name : option string;
    redirect_uris : list string;
    token_endpoint_auth_method : string;
    grant_types : list string;
    response_types : list string;
    scope : option string;
    createdAt : Z }.
End RegisteredClient.

Module AuthorizationRequest.
Record t : Type := mk
  { client_id : string;
    redirect_uri : string;
    response_type : string;
    code_challenge : string;
    code_challenge_method : string;
    state : option string;
    scope : option string }.
End AuthorizationRequest.

Module ClientRegistrationRequest.
Record t : Type := mk
  { client_name : option string;
    redirect_uris : option (list string);
    token_endpoint_auth_method : option string;
    grant_types : option (list string);
    response_types : option (list string);
    scope : option string }.
End ClientRegistrationRequest.

(** The fields of [OAuthConfig] that the OAuth core reads. *)
Module OAuthConfig.
Record t : Type := mk
  { clientId : string;
    clientSecret : string;
    apiKey : string;
    allowedRedirectPrefixes : option (list string);
    scopes : option (list string) }.
End OAuthConfig.

(** One row of [auth_logs] as [logAuthEvent] inserts it. *)
Module AuthLog.
Record t : Type := mk
  { event : string;
    ip : option string;
    user_agent : option string;
    client_id : option string;
    success : bool;
    error_message : option string }.
End AuthLog.

(* ===================================================================== *)
(** * The world: database, query log, storage faults, CSPRNG              *)
(* ===================================================================== *)

(** The statements the package sends through [pool.query]. *)
Inductive Query : Type :=
| InsertAuthCode (row : StoredAuthCode.t)
| SelectAuthCode (code : string)
| DeleteAuthCode (code : string)
| InsertClient (row : RegisteredClient.t)
| SelectClient (client_id : string)
| InsertAuthLog (row : AuthLog.t).

(** Tables are lists of rows in insertion order: the schema of
    [authorization_codes] and [oauth_clients] is not part of the sources,
    so no uniqueness is built in.  [faults] schedules the outcome of the
    coming queries ([true]: the query rejects without effect); an
    exhausted schedule means a healthy store.  [queries] records every
    statement handed to the pool, oldest first.  [in_flight] holds the
    DELETE statements that were handed to the pool by a caller that did
    not wait for them and that the store has not settled yet, by their
    code, oldest first. *)
Record World : Type := mkWorld
  { authorization_codes : list StoredAuthCode.t;
    oauth_clients : list RegisteredClient.t;
    auth_logs : list AuthLog.t;
    faults : list bool;
    queries : list Query;
    entropy : nat -> Z;
    drawn : nat;
    in_flight : list string }.

Definition set_authorization_codes (t : list StoredAuthCode.t) (w : World) : World :=
  mkWorld t (oauth_clients w) (auth_logs w) (faults w) (queries w) (entropy w) (drawn w)
    (in_flight w).
Definition set_oauth_clients (t : list RegisteredClient.t) (w : World) : World :=
  mkWorld (authorization_codes w) t (auth_logs w) (faults w) (queries w) (entropy w) (drawn w)
    (in_flight w).
Definition set_auth_logs (t : list AuthLog.t) (w : World) : World :=
  mkWorld (authorization_codes w) (oauth_clients w) t (faults w) (queries w) (entropy w) (drawn w)
    (in_flight w).
Definition set_faults (f : list bool) (w : World) : World :=
  mkWorld (authorization_codes w) (oauth_clients w) (auth_logs w) f (queries w) (entropy w)
    (drawn w) (in_flight w).
Definition set_queries (q : list Query) (w : World) : World :=
  mkWorld (authorization_codes w) (oauth_clients w) (auth_logs w) (faults w) q (entropy w)
    (drawn w) (in_flight w).
Definition set_drawn (n : nat) (w : World) : World :=
  mkWorld (authorization_codes w) (oauth_clients w) (auth_logs w) (faults w) (queries w)
    (entropy w) n (in_flight w).
Definition set_in_flight (l : list string) (w : World) : World :=
  mkWorld (authorization_codes w) (oauth_clients w) (auth_logs w) (faults w) (queries w)
    (entropy w) (drawn w) l.

(** ** Promises: state passing with exceptions *)

Inductive Outcome (A : Type) : Type :=
| Return (a : A)
| Throw (message : string).
Arguments Return {A} a.
Arguments Throw {A} message.

Definition M (A : Type) : Type := World -> Outcome A * World.

Definition ret {A} (a : A) : M A := fun w => (Return a, w).
Definition throw {A} (message : string) : M A := fun w => (Throw message, w).
Definition bind {A B} (m : M A) (k : A -> M B) : M B :=
  fun w => match m w with
           | (Return a, w') => k a w'
           | (Throw e, w') => (Throw e, w')
           end.
(** [try { m } catch (error) { handler }] *)
Definition try_catch {A} (m : M A) (handler : string -> M A) : M A :=
  fun w => match m w with
           | (Return a, w') => (Return a, w')
           | (Throw e, w') => handler e w'
           end.

Declare Scope promise_scope.
Delimit Scope promise_scope with promise.
Notation "x <- m ;; k" := (bind m (fun x => k))
  (at level 61, m at next level, right associativity) : promise_scope.
Notation "m ;;; k" := (bind m (fun _ => k))
  (at level 61, right associativity) : promise_scope.
Local Open Scope promise_scope.

(** ** [pool.query]

    The statement is logged, then the fault schedule decides whether it
    rejects; otherwise [run] gives its effect on the tables. *)
Definition after_query (q : Query) (w : World) : World :=
  set_faults (tl (faults w)) (set_queries (queries w ++ [q]) w).

Definition pool_query {A} (q : Query) (run : World -> A * World) : M A :=
  fun w =>
    if hd false (faults w) then (Throw "query failed", after_query q w)
    else let (a, w2) := run (after_query q w) in (Return a, w2).

(** INSERT INTO authorization_codes (...) VALUES (...) *)
Definition sql_insert_auth_code (row : StoredAuthCode.t) (w : World) : unit * World :=
  (tt, set_authorization_codes (authorization_codes w ++ [row]) w).

(** SELECT * FROM authorization_codes WHERE code = $1 AND expires_at > NOW() *)
Definition sql_select_auth_code (now : Z) (code : string) (w : World)
  : list StoredAuthCode.t * World :=
  (filter (fun r => (StoredAuthCode.code r =? code)%string
                    && (now <? StoredAuthCode.expiresAt r))
          (authorization_codes w), w).

(** DELETE FROM authorization_codes WHERE code = $1 *)
Definition sql_delete_auth_code (code : string) (w : World) : unit * World :=
  (tt, set_authorization_codes
         (filter (fun r => negb (StoredAuthCode.code r =? code)%string)
                 (authorization_codes w)) w).

(** INSERT INTO oauth_clients (...) VALUES (...) *)
Definition sql_insert_client (row : RegisteredClient.t) (w : World) : unit * World :=
  (tt, set_oauth_clients (oauth_clients w ++ [row]) w).

(** SELECT * FROM oauth_clients WHERE client_id = $1 *)
Definition sql_select_client (client_id : string) (w : World)
  : list RegisteredClient.t * World :=
  (filter (fun r => (RegisteredClient.client_id r =? client_id)%string)
          (oauth_clients w), w).

(** INSERT INTO auth_logs (...) VALUES (...) *)
Definition sql_insert_auth_log (row : AuthLog.t) (w : World) : unit * World :=
  (tt, set_auth_logs (auth_logs w ++ [row]) w).

(** [crypto.randomBytes(n)] *)
Definition randomBytes (n : nat) : M (list Z) :=
  fun w => (Return (map (fun i => entropy w i mod 256) (seq (drawn w) n)),
            set_drawn (drawn w + n) w).

(* ===================================================================== *)
(** * oauth/pkce.ts                                                        *)
(* ===================================================================== *)

(** The character class [[A-Za-z0-9\-._~]]. *)
Definition unreserved (a : ascii) : bool :=
  let n := Node.byte_of_ascii a in
  ((65 <=? n) && (n <=? 90)) || ((97 <=? n) && (n <=? 122))
  || ((48 <=? n) && (n <=? 57))
  || (n =? 45) || (n =? 46) || (n =? 95) || (n =? 126).

Fixpoint all_chars (p : ascii -> bool) (s : string) : bool :=
  match s with
  | EmptyString => true
  | String a rest => p a && all_chars p rest
  end.

(** [/^[A-Za-z0-9\-._~]+$/.test(s)] *)
Definition validChars_test (s : string) : bool :=
  str_truthy s && all_chars unreserved s.

Definition verifyPKCE (codeVerifier codeChallenge : string) : bool :=
  if negb (str_truthy codeVerifier) || negb (str_truthy codeChallenge) then false
  else
    let hash := Node.sha256 (Node.bytes_of_string codeVerifier) in
    let computed := Node.base64url hash in
    (computed =? codeChallenge)%string.

Definition validateCodeChallenge (codeChallenge : string) : bool :=
  if negb (str_truthy codeChallenge) then false
  else
    let length := Z.of_nat (String.length codeChallenge) in
    if (length <? 43) || (length >? 128) then false
    else validChars_test codeChallenge.

Definition validateCodeVerifier (codeVerifier : string) : bool :=
  if negb (str_truthy codeVerifier) then false
  else
    let length := Z.of_nat (String.length codeVerifier) in
    if (length <? 43) || (length >? 128) then false
    else validChars_test codeVerifier.

(* ===================================================================== *)
(** * oauth/storage.ts                                                     *)
(* ===================================================================== *)

Definition CODE_EXPIRATION_MS : Z := 10 * 60 * 1000.

Definition generateAuthCode : M string :=
  bytes <- randomBytes 32 ;;
  ret (Node.base64url bytes).

(** The row's [created_at] is not among the inserted columns; it is taken
    to default to the insertion time. *)
Definition storeAuthCode (now : Z)
    (clientId redirectUri codeChallenge codeChallengeMethod : string)
    (scope : option string) : M string :=
  code <- generateAuthCode ;;
  let expiresAt := now + CODE_EXPIRATION_MS in
  try_catch
    (pool_query
       (InsertAuthCode (StoredAuthCode.mk code clientId redirectUri codeChallenge
                          codeChallengeMethod scope now expiresAt))
       (sql_insert_auth_code
          (StoredAuthCode.mk code clientId redirectUri codeChallenge
             codeChallengeMethod scope now expiresAt)) ;;;
     ret code)
    (fun _ => throw "Failed to store authorization code").

Definition getAuthCode (now : Z) (code : string) : M (option StoredAuthCode.t) :=
  try_catch
    (rows <- pool_query (SelectAuthCode code) (sql_select_auth_code now code) ;;
     match rows with
     | [] => ret None
     | row :: _ =>
         ret (Some (StoredAuthCode.mk
                      (StoredAuthCode.code row)
                      (StoredAuthCode.clientId row)
                      (StoredAuthCode.redirectUri row)
                      (StoredAuthCode.codeChallenge row)
                      (StoredAuthCode.codeChallengeMethod row)
                      (StoredAuthCode.scope row)
                      (StoredAuthCode.createdAt row)
                      (StoredAuthCode.expiresAt row)))
     end)
    (fun _ => ret None).

Definition deleteAuthCode (code : string) : M unit :=
  try_catch
    (pool_query (DeleteAuthCode code) (sql_delete_auth_code code))
    (fun _ => ret tt).

(** [deleteAuthCode(pool, code);] written as a statement, without
    [await].  The function runs up to its own [await]: the DELETE is
    handed to the pool, and the caller goes on with the promise dropped.
    What is left of the function, a console message either way, runs when
    the store settles the statement. *)
Definition delete_started (code : string) (w : World) : World :=
  set_in_flight (in_flight w ++ [code])
    (set_queries (queries w ++ [DeleteAuthCode code]) w).

Definition deleteAuthCode_unawaited (code : string) : M unit :=
  fun w => (Return tt, delete_started code w).

Fixpoint remove_first (code : string) (l : list string) : list string :=
  match l with
  | [] => []
  | c :: rest => if (c =? code)%string then rest else c :: remove_first code rest
  end.

(** The store settles the oldest DELETE in flight for [code]: the fault
    schedule decides whether it is served or rejected, and a rejection
    ends in the [catch] of [deleteAuthCode].  Without such a statement in
    flight nothing happens. *)
Definition settle (code : string) (w : World) : World :=
  if existsb (String.eqb code) (in_flight w) then
    let w1 := set_faults (tl (faults w))
                (set_in_flight (remove_first code (in_flight w)) w) in
    if hd false (faults w) then w1 else snd (sql_delete_auth_code code w1)
  else w.

(* ===================================================================== *)
(** * oauth/clients.ts                                                     *)
(* ===================================================================== *)

Definition generateClientId : M string :=
  bytes <- randomBytes 16 ;;
  ret ("mcp-client-" ++ Node.base64url bytes)%string.

Definition generateClientSecret : M string :=
  bytes <- randomBytes 32 ;;
  ret (Node.base64url bytes).

Definition registerClient (now : Z)
    (clientName : option string) (redirectUris : list string)
    (tokenEndpointAuthMethod : string) (grantTypes responseTypes : list string)
    (scope : option string) : M RegisteredClient.t :=
  clientId <- generateClientId ;;
  clientSecret <- generateClientSecret ;;
  try_catch
    (pool_query
       (InsertClient (RegisteredClient.mk clientId clientSecret clientName redirectUris
                        tokenEndpointAuthMethod grantTypes responseTypes scope now))
       (sql_insert_client
          (RegisteredClient.mk clientId clientSecret clientName redirectUris
             tokenEndpointAuthMethod grantTypes responseTypes scope now)) ;;;
     ret (RegisteredClient.mk clientId clientSecret clientName redirectUris
            tokenEndpointAuthMethod grantTypes responseTypes scope now))
    (fun _ => throw "Failed to register OAuth client").

Definition getClient (clientId : string) : M (option RegisteredClient.t) :=
  try_catch
    (rows <- pool_query (SelectClient clientId) (sql_select_client clientId) ;;
     match rows with
     | [] => ret None
     | row :: _ =>
         ret (Some (RegisteredClient.mk
                      (RegisteredClient.client_id row)
                      (RegisteredClient.client_secret row)
                      (RegisteredClient.client_name row)
                      (RegisteredClient.redirect_uris row)
                      (RegisteredClient.token_endpoint_auth_method row)
                      (RegisteredClient.grant_types row)
                      (RegisteredClient.response_types row)
                      (RegisteredClient.scope row)
                      (RegisteredClient.createdAt row)))
     end)
    (fun _ => ret None).

Definition validateClient (clientId clientSecret staticClientId staticClientSecret : string)
  : M bool :=
  if (clientId =? staticClientId)%string && (clientSecret =? staticClientSecret)%string
  then ret true
  else
    client <- getClient clientId ;;
    match client with
    | Some c =>
        if (RegisteredClient.client_secret c =? clientSecret)%string
        then ret true else ret false
    | None => ret false
    end.

Definition isValidClientId (clientId staticClientId : string) : M bool :=
  if (clientId =? staticClientId)%string then ret true
  else
    client <- getClient clientId ;;
    ret (match client with Some _ => true | None => false end).

(* ===================================================================== *)
(** * utils/audit-log.ts                                                   *)
(* ===================================================================== *)

(** What the handlers read from the Express request besides its
    parameters. *)
Record Peer : Type := mkPeer
  { ip : option string;
    user_agent : option string }.

Definition logAuthEvent (event : string) (req : Peer) (success : bool)
    (clientId errorMessage : option string) : M unit :=
  try_catch
    (pool_query
       (InsertAuthLog (AuthLog.mk event (ip req) (user_agent req)
                         (if opt_truthy clientId then clientId else None) success
                         (if opt_truthy errorMessage then errorMessage else None)))
       (sql_insert_auth_log
          (AuthLog.mk event (ip req) (user_agent req)
             (if opt_truthy clientId then clientId else None) success
             (if opt_truthy errorMessage then errorMessage else None))))
    (fun _ => ret tt).

(* ===================================================================== *)
(** * Express responses and WHATWG URLs                                    *)
(* ===================================================================== *)

(** A parsed URL.  [base] is the serialisation up to the query; the query
    is kept as decoded name/value pairs, the form in which
    [URLSearchParams] exposes it ([toString] percent-encodes them). *)
Record URL : Type := mkURL
  { protocol : string;
    hostname : string;
    base : string;
    searchParams : list (string * string);
    hash : string }.

Definition searchParams_delete (name : string) (ps : list (string * string))
  : list (string * string) :=
  filter (fun p => negb (fst p =? name)%string) ps.

(** [url.searchParams.set(name, value)]: the first pair called [name]
    takes the value and the others go; without one, the pair is appended. *)
Fixpoint searchParams_set_list (name value : string) (ps : list (string * string))
  : list (string * string) :=
  match ps with
  | [] => [(name, value)]
  | (n, v) :: rest =>
      if (n =? name)%string then (name, value) :: searchParams_delete name rest
      else (n, v) :: searchParams_set_list name value rest
  end.

Definition searchParams_set (name value : string) (u : URL) : URL :=
  mkURL (protocol u) (hostname u) (base u)
        (searchParams_set_list name value (searchParams u)) (hash u).

(** [url.searchParams.getAll(name)] *)
Definition searchParams_getAll (name : string) (u : URL) : list string :=
  map snd (filter (fun p => (fst p =? name)%string) (searchParams u)).

(** What a handler does with [res]. *)
Inductive Response : Type :=
| Json (status : Z) (body : list (string * JsValue))
| Redirect (location : URL)
| Render (view : string) (error : option string) (originalUrl : string).

(** [sendError(res, error, description, status = 400)] *)
Definition sendError (error description : string) (status : Z) : Response :=
  Json status [("error", JString error); ("error_description", JString description)].

(** Fields whose value is [undefined] are left out by [res.json]. *)
Definition json_object (fields : list (string * JsValue)) : list (string * JsValue) :=
  filter (fun kv => match snd kv with JUndefined => false | _ => true end) fields.

Definition json_get (key : string) (body : list (string * JsValue)) : option JsValue :=
  option_map snd (find (fun kv => (fst kv =? key)%string) body).

(* ===================================================================== *)
(** * oauth/token.ts                                                       *)
(* ===================================================================== *)

Module TokenRequest.
(** [req.body] destructured; every field is whatever the body parser
    produced. *)
Record t : Type := mk
  { grant_type : JsValue;
    code : JsValue;
    redirect_uri : JsValue;
    code_verifier : JsValue;
    client_id : JsValue;
    client_secret : JsValue }.
End TokenRequest.

Definition default_scopes : list string :=
  ["mcp:tools:*"; "mcp:resources:*"; "mcp:prompts:*"].

(** [handleToken], "WORKAROUND" block: the client_id of the request, or
    the one recorded with the authorization code. *)
Definition resolveClientId (now : Z) (code : string) (client_id : JsValue)
  : M (Response + string) :=
  if missing_or_not_string client_id then
    tempCode <- getAuthCode now code ;;
    if opt_truthy (option_map StoredAuthCode.clientId tempCode) then
      ret (inr (match tempCode with
                | Some c => StoredAuthCode.clientId c
                | None => ""
                end))
    else ret (inl (sendError "invalid_request" "Missing or invalid client_id" 400))
  else ret (inr (as_string client_id)).

(** [handleToken], from "Get client from database to check auth method"
    to the end of the credential check; [Some] is the error sent. *)
Definition checkClientCredentials (config : OAuthConfig.t)
    (client_id : string) (client_secret : JsValue) : M (option Response) :=
  client <- getClient client_id ;;
  let isStaticClient := (client_id =? OAuthConfig.clientId config)%string in
  let authMethod :=
    match client with
    | Some c => RegisteredClient.token_endpoint_auth_method c
    | None => "client_secret_post"
    end in
  if (authMethod =? "none")%string then
    if (match client with Some _ => false | None => true end) && negb isStaticClient
    then ret (Some (sendError "invalid_client" "Invalid client_id" 400))
    else ret None
  else
    if missing_or_not_string client_secret
    then ret (Some (sendError "invalid_client" "Missing or invalid client_secret" 400))
    else
      isValid <- validateClient client_id (as_string client_secret)
                   (OAuthConfig.clientId config) (OAuthConfig.clientSecret config) ;;
      if negb isValid
      then ret (Some (sendError "invalid_client" "Invalid client_id or client_secret" 400))
      else ret None.

(** [handleToken], from "Retrieve authorization code" to the response.
    Each of the four calls of [deleteAuthCode] is a statement without
    [await]: the DELETE is in flight when the response is written. *)
Definition redeemCode (config : OAuthConfig.t) (now : Z) (req : Peer)
    (code redirect_uri code_verifier client_id : string) : M Response :=
  storedCode <- getAuthCode now code ;;
  match storedCode with
  | None => ret (sendError "invalid_grant" "Invalid or expired authorization code" 400)
  | Some storedCode =>
      if negb (StoredAuthCode.clientId storedCode =? client_id)%string then
        deleteAuthCode_unawaited code ;;;
        ret (sendError "invalid_grant" "client_id mismatch" 400)
      else if negb (StoredAuthCode.redirectUri storedCode =? redirect_uri)%string then
        deleteAuthCode_unawaited code ;;;
        ret (sendError "invalid_grant" "redirect_uri mismatch" 400)
      else
        let pkceValid := verifyPKCE code_verifier (StoredAuthCode.codeChallenge storedCode) in
        if negb pkceValid then
          deleteAuthCode_unawaited code ;;;
          logAuthEvent "token_failure" req false (Some client_id)
                       (Some "PKCE verification failed") ;;;
          ret (sendError "invalid_grant" "PKCE verification failed" 400)
        else
          deleteAuthCode_unawaited code ;;;
          logAuthEvent "token_exchange" req true (Some client_id) None ;;;
          let scopes := match OAuthConfig.scopes config with
                        | Some l => l
                        | None => default_scopes
                        end in
          ret (Json 200
                 (json_object
                    [("access_token", JString (OAuthConfig.apiKey config));
                     ("token_type", JString "Bearer");
                     ("scope", JString (opt_or (StoredAuthCode.scope storedCode)
                                               (join " " scopes)))]))
  end.

(** The parameters of a token request once they are known to be strings,
    with the client_id the request resolved to. *)
Module TokenGrant.
Record t : Type := mk
  { code : string;
    redirect_uri : string;
    code_verifier : string;
    client_id : string }.
End TokenGrant.

(** [handleToken] up to "Validate code_verifier format": the error sent,
    or the parameters with which the code is then retrieved. *)
Definition validateTokenRequest (config : OAuthConfig.t) (now : Z) (body : TokenRequest.t)
  : M (Response + TokenGrant.t) :=
  let grant_type := TokenRequest.grant_type body in
  let code := TokenRequest.code body in
  let redirect_uri := TokenRequest.redirect_uri body in
  let code_verifier := TokenRequest.code_verifier body in
  let client_id := TokenRequest.client_id body in
  let client_secret := TokenRequest.client_secret body in
  if negb (truthy grant_type) || negb (strict_eq_str grant_type "authorization_code") then
    ret (inl (sendError "unsupported_grant_type"
                ("Only " ++ dquote ++ "authorization_code" ++ dquote
                 ++ " grant_type is supported")%string 400))
  else if missing_or_not_string code then
    ret (inl (sendError "invalid_request" "Missing or invalid code" 400))
  else if missing_or_not_string redirect_uri then
    ret (inl (sendError "invalid_request" "Missing or invalid redirect_uri" 400))
  else if missing_or_not_string code_verifier then
    ret (inl (sendError "invalid_request" "Missing or invalid code_verifier" 400))
  else
    resolved <- resolveClientId now (as_string code) client_id ;;
    match resolved with
    | inl response => ret (inl response)
    | inr client_id =>
        rejected <- checkClientCredentials config client_id client_secret ;;
        match rejected with
        | Some response => ret (inl response)
        | None =>
            if negb (validateCodeVerifier (as_string code_verifier)) then
              ret (inl (sendError "invalid_request" "Invalid code_verifier format" 400))
            else
              ret (inr (TokenGrant.mk (as_string code) (as_string redirect_uri)
                          (as_string code_verifier) client_id))
        end
    end.

(** [let { grant_type, ... } = req.body]: without a body parser
    [req.body] is [undefined], and destructuring it throws. *)
Definition destructure (body : option TokenRequest.t) : M TokenRequest.t :=
  match body with
  | Some fields => ret fields
  | None => throw "TypeError: Cannot destructure property 'grant_type' of 'req.body'"
  end.

(** [body] is [req.body]: [None] when it is [undefined] or [null], else
    its six fields. *)
Definition handleToken (config : OAuthConfig.t) (now : Z) (req : Peer)
    (body : option TokenRequest.t) : M Response :=
  try_catch
    (fields <- destructure body ;;
     validated <- validateTokenRequest config now fields ;;
     match validated with
     | inl response => ret response
     | inr grant =>
         redeemCode config now req (TokenGrant.code grant) (TokenGrant.redirect_uri grant)
                    (TokenGrant.code_verifier grant) (TokenGrant.client_id grant)
     end)
    (fun _ => ret (sendError "server_error" "Internal server error" 400)).

(* ===================================================================== *)
(** * oauth/authorize.ts and oauth/register.ts                             *)
(* ===================================================================== *)

Module AuthorizeRequest.
(** [req.query] destructured, with the session flag and the URL of the
    request. *)
Record t : Type := mk
  { client_id : JsValue;
    redirect_uri : JsValue;
    response_type : JsValue;
    code_challenge : JsValue;
    code_challenge_method : JsValue;
    state : JsValue;
    scope : JsValue;
    session_authenticated : bool;
    originalUrl : string }.
End AuthorizeRequest.

Definition default_allowedPrefixes : list string :=
  ["https://claude.ai/"; "http://localhost:"].

Definition isValidRedirectUri (redirectUri : string) (allowedPrefixes : list string) : bool :=
  existsb (fun prefix => startsWith redirectUri prefix) allowedPrefixes.

(** [handleAuthorize], "Validate required parameters" and "Validate
    code_challenge format": the error sent by the first failing check. *)
Definition validateAuthorizeParams (q : AuthorizeRequest.t) : option Response :=
  let client_id := AuthorizeRequest.client_id q in
  let redirect_uri := AuthorizeRequest.redirect_uri q in
  let response_type := AuthorizeRequest.response_type q in
  let code_challenge := AuthorizeRequest.code_challenge q in
  let code_challenge_method := AuthorizeRequest.code_challenge_method q in
  if missing_or_not_string client_id then
    Some (sendError "invalid_request" "Missing or invalid client_id" 400)
  else if missing_or_not_string redirect_uri then
    Some (sendError "invalid_request" "Missing or invalid redirect_uri" 400)
  else if negb (truthy response_type) || negb (strict_eq_str response_type "code") then
    Some (sendError "unsupported_response_type"
            ("Only " ++ dquote ++ "code" ++ dquote ++ " response_type is supported")%string 400)
  else if missing_or_not_string code_challenge then
    Some (sendError "invalid_request" "Missing or invalid code_challenge" 400)
  else if negb (truthy code_challenge_method)
          || negb (strict_eq_str code_challenge_method "S256") then
    Some (sendError "invalid_request"
            ("Only " ++ dquote ++ "S256" ++ dquote
             ++ " code_challenge_method is supported")%string 400)
  else if negb (validateCodeChallenge (as_string code_challenge)) then
    Some (sendError "invalid_request" "Invalid code_challenge format" 400)
  else None.

(** [handleAuthorize], "Validate redirect_uri": the value of
    [redirectUriValid] when the check is made. *)
Definition checkRedirectUri (config : OAuthConfig.t) (client_id redirect_uri : string)
  : M bool :=
  let allowedPrefixes :=
    match OAuthConfig.allowedRedirectPrefixes config with
    | Some l => l
    | None => default_allowedPrefixes
    end in
  if (client_id =? OAuthConfig.clientId config)%string then
    ret (isValidRedirectUri redirect_uri allowedPrefixes)
  else
    client <- getClient client_id ;;
    match client with
    | Some c => ret (includes (RegisteredClient.redirect_uris c) redirect_uri)
    | None => ret false
    end.

Section Handlers.

(** [new URL(s)]; [None] when the constructor throws. *)
Variable URL_parse : string -> option URL.

Definition approveAndRedirect (now : Z) (authReq : AuthorizationRequest.t) : M Response :=
  code <- storeAuthCode now
            (AuthorizationRequest.client_id authReq)
            (AuthorizationRequest.redirect_uri authReq)
            (AuthorizationRequest.code_challenge authReq)
            (AuthorizationRequest.code_challenge_method authReq)
            (AuthorizationRequest.scope authReq) ;;
  match URL_parse (AuthorizationRequest.redirect_uri authReq) with
  | None => throw "Invalid URL"
  | Some redirectUrl =>
      let redirectUrl := searchParams_set "code" code redirectUrl in
      let redirectUrl :=
        if opt_truthy (AuthorizationRequest.state authReq)
        then searchParams_set "state"
               (match AuthorizationRequest.state authReq with
                | Some s => s
                | None => EmptyString
                end) redirectUrl
        else redirectUrl in
      ret (Redirect redirectUrl)
  end.

Definition handleAuthorize (config : OAuthConfig.t) (now : Z) (req : AuthorizeRequest.t)
  : M Response :=
  try_catch
    (match validateAuthorizeParams req with
     | Some response => ret response
     | None =>
         let client_id := as_string (AuthorizeRequest.client_id req) in
         let redirect_uri := as_string (AuthorizeRequest.redirect_uri req) in
         clientIdValid <- isValidClientId client_id (OAuthConfig.clientId config) ;;
         if negb clientIdValid then
           ret (sendError "unauthorized_client" "Invalid client_id" 400)
         else
           redirectUriValid <- checkRedirectUri config client_id redirect_uri ;;
           if negb redirectUriValid then
             ret (sendError "invalid_request" "Unauthorized redirect_uri" 400)
           else
             let authReq :=
               AuthorizationRequest.mk client_id redirect_uri
                 (as_string (AuthorizeRequest.response_type req))
                 (as_string (AuthorizeRequest.code_challenge req))
                 (as_string (AuthorizeRequest.code_challenge_method req))
                 (string_or_undefined (AuthorizeRequest.state req))
                 (string_or_undefined (AuthorizeRequest.scope req)) in
             if AuthorizeRequest.session_authenticated req then
               approveAndRedirect now authReq
             else
               ret (Render "login" None (AuthorizeRequest.originalUrl req))
     end)
    (fun _ => ret (sendError "server_error" "Internal server error" 400)).

(** [handleRegister], "Validate redirect URIs": the error sent for the
    first URI that is refused. *)
Fixpoint validateRedirectUris (redirectUris : list string) : option Response :=
  match redirectUris with
  | [] => None
  | uri :: rest =>
      match URL_parse uri with
      | Some url =>
          let isHttps := (protocol url =? "https:")%string in
          let isLocalhost :=
            (hostname url =? "localhost")%string || (hostname url =? "127.0.0.1")%string in
          if negb isHttps && negb isLocalhost then
            Some (sendError "invalid_redirect_uri"
                    ("Invalid redirect URI: " ++ uri ++ ". Must use HTTPS or localhost.")%string
                    400)
          else validateRedirectUris rest
      | None =>
          Some (sendError "invalid_redirect_uri" ("Malformed redirect URI: " ++ uri)%string 400)
      end
  end.

(** The error sent for the first element outside [supported]. *)
Fixpoint validateSupported (what : string) (supported values : list string)
  : option Response :=
  match values with
  | [] => None
  | v :: rest =>
      if negb (includes supported v) then
        Some (sendError "invalid_client_metadata"
                ("Unsupported " ++ what ++ ": " ++ v ++ ". Supported: "
                 ++ join ", " supported)%string 400)
      else validateSupported what supported rest
  end.

Definition js_strings (l : list string) : JsValue := JArray (map JString l).

(** [registrationRequest] is [req.body] at the type the handler casts it
    to, every field absent or of its declared type; the cast is not
    checked, and a body of another shape is outside this definition. *)
Definition handleRegister (now : Z) (registrationRequest : ClientRegistrationRequest.t)
  : M Response :=
  try_catch
    (let redirectUris :=
       match ClientRegistrationRequest.redirect_uris registrationRequest with
       | Some l => l
       | None => []
       end in
     let tokenEndpointAuthMethod :=
       opt_or (ClientRegistrationRequest.token_endpoint_auth_method registrationRequest)
              "client_secret_basic" in
     let grantTypes :=
       match ClientRegistrationRequest.grant_types registrationRequest with
       | Some l => l
       | None => ["authorization_code"]
       end in
     let responseTypes :=
       match ClientRegistrationRequest.response_types registrationRequest with
       | Some l => l
       | None => ["code"]
       end in
     if includes grantTypes "authorization_code" && (Nat.eqb (List.length redirectUris) 0) then
       ret (sendError "invalid_redirect_uri"
              "redirect_uris is required for authorization_code grant" 400)
     else
       match validateRedirectUris redirectUris with
       | Some response => ret response
       | None =>
           let supportedAuthMethods := ["client_secret_post"; "client_secret_basic"; "none"] in
           if negb (includes supportedAuthMethods tokenEndpointAuthMethod) then
             ret (sendError "invalid_client_metadata"
                    ("Unsupported token_endpoint_auth_method: " ++ tokenEndpointAuthMethod
                     ++ ". Supported: " ++ join ", " supportedAuthMethods)%string 400)
           else
             match validateSupported "grant_type" ["authorization_code"; "refresh_token"]
                     grantTypes with
             | Some response => ret response
             | None =>
                 match validateSupported "response_type" ["code"] responseTypes with
                 | Some response => ret response
                 | None =>
                     client <- registerClient now
                                 (ClientRegistrationRequest.client_name registrationRequest)
                                 redirectUris tokenEndpointAuthMethod grantTypes responseTypes
                                 (ClientRegistrationRequest.scope registrationRequest) ;;
                     ret (Json 201
                            (json_object
                               [("client_id", JString (RegisteredClient.client_id client));
                                ("client_secret",
                                 JString (RegisteredClient.client_secret client));
                                ("client_id_issued_at",
                                 JNumber (RegisteredClient.createdAt client / 1000));
                                ("client_secret_expires_at", JNumber 0);
                                ("client_name", js_opt (RegisteredClient.client_name client));
                                ("redirect_uris",
                                 js_strings (RegisteredClient.redirect_uris client));
                                ("token_endpoint_auth_method",
                                 JString (RegisteredClient.token_endpoint_auth_method client));
                                ("grant_types",
                                 js_strings (RegisteredClient.grant_types client));
                                ("response_types",
                                 js_strings (RegisteredClient.response_types client));
                                ("scope", js_opt (RegisteredClient.scope client))]))
                 end
             end
       end)
    (fun _ => ret (sendError "server_error" "Internal server error" 500)).

End Handlers.

(* ===================================================================== *)
(** * Vocabulary of the design document                                    *)
(* ===================================================================== *)

(** "challenge = base64url(sha256(verifier))": what a client sends as
    [code_challenge] for the verifier it keeps. *)
Definition S256_challenge (verifier : string) : string :=
  Node.base64url (Node.sha256 (Node.bytes_of_string verifier)).

(** "single-bit mutation": bit [k] of the byte at index [i] is flipped. *)
Definition flip_ascii (k : nat) (a : ascii) : ascii :=
  let (b0, b1, b2, b3, b4, b5, b6, b7) := a in
  match k with
  | 0%nat => Ascii (negb b0) b1 b2 b3 b4 b5 b6 b7
  | 1%nat => Ascii b0 (negb b1) b2 b3 b4 b5 b6 b7
  | 2%nat => Ascii b0 b1 (negb b2) b3 b4 b5 b6 b7
  | 3%nat => Ascii b0 b1 b2 (negb b3) b4 b5 b6 b7
  | 4%nat => Ascii b0 b1 b2 b3 (negb b4) b5 b6 b7
  | 5%nat => Ascii b0 b1 b2 b3 b4 (negb b5) b6 b7
  | 6%nat => Ascii b0 b1 b2 b3 b4 b5 (negb b6) b7
  | 7%nat => Ascii b0 b1 b2 b3 b4 b5 b6 (negb b7)
  | _ => a
  end.

Fixpoint single_bit_mutation (i k : nat) (s : string) : string :=
  match s, i with
  | EmptyString, _ => EmptyString
  | String a rest, O => String (flip_ascii k a) rest
  | String a rest, S i' => String a (single_bit_mutation i' k rest)
  end.

(** "present and a string" *)
Definition present_string (v : JsValue) : bool :=
  match v with
  | JString s => str_truthy s
  | _ => false
  end.

(** "Request validation order (first failing check wins)": the six checks
    of the authorize flow in the order of the document, each with whether
    it fails on the request and the error it yields. *)
Definition authorize_checks (req : AuthorizeRequest.t) : list (bool * (string * string)) :=
  [ (negb (present_string (AuthorizeRequest.client_id req)),
     ("invalid_request", "Missing or invalid client_id"));
    (negb (present_string (AuthorizeRequest.redirect_uri req)),
     ("invalid_request", "Missing or invalid redirect_uri"));
    (negb (strict_eq_str (AuthorizeRequest.response_type req) "code"),
     ("unsupported_response_type",
      ("Only " ++ dquote ++ "code" ++ dquote ++ " response_type is supported")%string));
    (negb (present_string (AuthorizeRequest.code_challenge req)),
     ("invalid_request", "Missing or invalid code_challenge"));
    (negb (strict_eq_str (AuthorizeRequest.code_challenge_method req) "S256"),
     ("invalid_request",
      ("Only " ++ dquote ++ "S256" ++ dquote ++ " code_challenge_method is supported")%string));
    (negb (validateCodeChallenge (as_string (AuthorizeRequest.code_challenge req))),
     ("invalid_request", "Invalid code_challenge format")) ].

Definition first_failing (checks : list (bool * (string * string))) : option Response :=
  match find fst checks with
  | Some (_, (error, description)) => Some (sendError error description 400)
  | None => None
  end.

(** What a fetch of [code] yields at time [now]: nothing when the query
    is rejected, else the first live row. *)
Definition fetched (now : Z) (code : string) (w : World) : option StoredAuthCode.t :=
  if hd false (faults w) then None
  else hd_error (fst (sql_select_auth_code now code w)).

(** What a lookup of [clientId] yields. *)
Definition looked_up (clientId : string) (w : World) : option RegisteredClient.t :=
  if hd false (faults w) then None
  else hd_error (fst (sql_select_client clientId w)).

(** The world after an awaited [deleteAuthCode code]. *)
Definition after_delete (code : string) (w : World) : World :=
  if hd false (faults w) then after_query (DeleteAuthCode code) w
  else snd (sql_delete_auth_code code (after_query (DeleteAuthCode code) w)).

(** The next [n] bytes of the CSPRNG, [skip] bytes ahead. *)
Definition next_bytes (skip n : nat) (w : World) : list Z :=
  map (fun i => entropy w i mod 256) (seq (drawn w + skip) n).

(** The code is no longer in the table. *)
Definition code_absent (code : string) (w : World) : Prop :=
  forall row, In row (authorization_codes w) -> StoredAuthCode.code row <> code.

(** Every stored code names its client. *)
Definition client_ids_present (w : World) : Prop :=
  forall row, In row (authorization_codes w) ->
              str_truthy (StoredAuthCode.clientId row) = true.

(** One request served by one of the three endpoints, a DELETE in
    flight settled by the store, or a change in the health of the
    store. *)
Inductive step : World -> World -> Prop :=
| step_authorize URL_parse config now req w :
    step w (snd (handleAuthorize URL_parse config now req w))
| step_token config now req body w :
    step w (snd (handleToken config now req body w))
| step_register URL_parse now req w :
    step w (snd (handleRegister URL_parse now req w))
| step_settle code w :
    step w (settle code w)
| step_faults schedule w :
    step w (set_faults schedule w).

(** The worlds the server can be in, started on an empty code table. *)
Inductive reachable : World -> Prop :=
| reachable_init w : authorization_codes w = [] -> reachable w
| reachable_step w w' : reachable w -> step w w' -> reachable w'.


Definition is_select (q : Query) : bool :=
  match q with
  | SelectAuthCode _ | SelectClient _ => true
  | _ => false
  end.

(** From [w] to [w'] only SELECT statements were issued: the tables are
    the same, no DELETE was started, and a healthy store is still
    healthy. *)
Definition reads_only (w w' : World) : Prop :=
  authorization_codes w' = authorization_codes w
  /\ oauth_clients w' = oauth_clients w
  /\ in_flight w' = in_flight w
  /\ (faults w = [] -> faults w' = [])
  /\ exists qs, queries w' = queries w ++ qs /\ forallb is_select qs = true.

(** The token request with its [client_id] replaced. *)
Definition with_client_id (v : JsValue) (body : TokenRequest.t) : TokenRequest.t :=
  TokenRequest.mk (TokenRequest.grant_type body) (TokenRequest.code body)
    (TokenRequest.redirect_uri body) (TokenRequest.code_verifier body) v
    (TokenRequest.client_secret body).

(** The errors of the token endpoint that precede the code fetch, and the
    one of the fetch itself. *)
Definition token_errors : list string :=
  ["unsupported_grant_type"; "invalid_request"; "invalid_client"; "invalid_grant"].

(* ===================================================================== *)
(** * A reference [URL] constructor and sample data for the examples       *)
(* ===================================================================== *)

Fixpoint break_at (c : ascii) (s : string) : string * option string :=
  match s with
  | EmptyString => (EmptyString, None)
  | String a rest =>
      if Ascii.eqb a c then (EmptyString, Some rest)
      else let (h, t) := break_at c rest in (String a h, t)
  end.

Fixpoint split_on (c : ascii) (s : string) : list string :=
  match s with
  | EmptyString => [EmptyString]
  | String a rest =>
      if Ascii.eqb a c then EmptyString :: split_on c rest
      else match split_on c rest with
           | h :: t => String a h :: t
           | [] => [String a EmptyString]
           end
  end.

Definition parse_query (q : string) : list (string * string) :=
  map (fun seg => let (n, v) := break_at "="%char seg in
                  (n, match v with Some x => x | None => EmptyString end))
      (filter str_truthy (split_on "&"%char q)).

(** Absolute URLs of the shape scheme://host[:port][/path][?query][#hash]
    written without escapes; anything else is refused. *)
Definition plain_URL_parse (s : string) : option URL :=
  let (nofrag, frag) := break_at "#"%char s in
  let (bs, query) := break_at "?"%char nofrag in
  match String.index 0 "://" bs with
  | Some (S n) =>
      let authority := fst (break_at "/"%char (substring (S n + 3) (String.length bs) bs)) in
      let host := fst (break_at ":"%char authority) in
      if str_truthy host then
        Some (mkURL (substring 0 (S n + 1) bs) host bs
                (match query with Some q => parse_query q | None => [] end)
                (match frag with Some f => f | None => EmptyString end))
      else None
  | _ => None
  end.

Definition example_config : OAuthConfig.t :=
  OAuthConfig.mk "example-client-id" "example-client-secret" "example-api-key" None None.

Definition example_verifier : string := "dBjftJeZ4CVP-mB92K27uhbUJU1p1r_wW1gFWFOEjXk".
Definition example_challenge : string := "E9Melhoa2OwvFrEMTJguCHaoeK1t8URWbuGJSstw-cM".

(** A public client as dynamic registration stores it. *)
Definition example_client : RegisteredClient.t :=
  RegisteredClient.mk "mcp-client-AAAAAAAAAAAAAAAAAAAAAA" "c2VjcmV0" None
    ["http://localhost:9999/cb"] "none" ["authorization_code"] ["code"] None 0.

Definition example_code : StoredAuthCode.t :=
  StoredAuthCode.mk "Y29kZQ" "mcp-client-AAAAAAAAAAAAAAAAAAAAAA" "http://localhost:9999/cb"
    example_challenge "S256" None 1000 (1000 + CODE_EXPIRATION_MS).

Definition empty_world : World :=
  mkWorld [] [] [] [] [] (fun i => Z.of_nat i) 0 [].

Definition example_world : World :=
  mkWorld [example_code] [example_client] [] [] [] (fun i => Z.of_nat i) 0 [].

Definition example_peer : Peer := mkPeer (Some "127.0.0.1") None.

(** The token request of a client that leaves [client_id] out. *)
Definition example_token_request : TokenRequest.t :=
  TokenRequest.mk (JString "authorization_code") (JString "Y29kZQ")
    (JString "http://localhost:9999/cb") (JString example_verifier) JUndefined JUndefined.

Definition example_authorize_request (state : JsValue) : AuthorizeRequest.t :=
  AuthorizeRequest.mk (JString "example-client-id") (JString "https://claude.ai/callback")
    (JString "code") (JString example_challenge) (JString "S256") state JUndefined
    true "/oauth/authorize".

Definition example_registration : ClientRegistrationRequest.t :=
  ClientRegistrationRequest.mk None (Some ["http://localhost:9999/cb"]) (Some "none")
    None None None.

(** The scenario of the design document: a public client registers,
    obtains a code with the session authenticated, and redeems it. *)
Definition scenario_registered : World :=
  snd (handleRegister plain_URL_parse 1000 example_registration empty_world).

Definition scenario_authorize_request : AuthorizeRequest.t :=
  AuthorizeRequest.mk (JString "mcp-client-AAECAwQFBgcICQoLDA0ODw")
    (JString "http://localhost:9999/cb") (JString "code") (JString example_challenge)
    (JString "S256") (JString "s-1") JUndefined true "/oauth/authorize".

Definition scenario_authorized : World :=
  snd (handleAuthorize plain_URL_parse example_config 2000 scenario_authorize_request
         scenario_registered).

Definition scenario_token_request : TokenRequest.t :=
  TokenRequest.mk (JString "authorization_code")
    (JString "MDEyMzQ1Njc4OTo7PD0-P0BBQkNERUZHSElKS0xNTk8")
    (JString "http://localhost:9999/cb") (JString example_verifier)
    (JString "mcp-client-AAECAwQFBgcICQoLDA0ODw") JUndefined.

(* ===================================================================== *)
(** * index.ts: the bearer middleware                                      *)
(* ===================================================================== *)

(** What the middleware does with the request: hand it on, or answer. *)
Inductive MiddlewareOutcome : Type :=
| Next
| Reject (status : Z) (www_authenticate : string) (body : list (string * JsValue)).

(** [s.slice(start)] *)
Definition slice (start : nat) (s : string) : string :=
  substring start (String.length s - start) s.

(** [serverUrl] is [config.serverUrl], a field the record of the OAuth
    core leaves out. *)
Definition wwwAuthenticateHeader (serverUrl : string) (config : OAuthConfig.t) : string :=
  join ", "
    [ ("Bearer realm=" ++ dquote ++ serverUrl ++ dquote)%string;
      ("resource_metadata=" ++ dquote ++ serverUrl
       ++ "/.well-known/oauth-protected-resource" ++ dquote)%string;
      ("scope=" ++ dquote
       ++ join " " (match OAuthConfig.scopes config with
                    | Some l => l
                    | None => ["mcp:tools:*"; "mcp:resources:*"]
                    end)
       ++ dquote)%string ].

(** [authMiddleware]; [authorization] is [req.headers.authorization]. *)
Definition authMiddleware (serverUrl : string) (config : OAuthConfig.t)
    (authorization : option string) : MiddlewareOutcome :=
  let authHeader := match authorization with Some h => h | None => EmptyString end in
  if negb (opt_truthy authorization) || negb (startsWith authHeader "Bearer ") then
    Reject 401 (wwwAuthenticateHeader serverUrl config)
      [("error", JString "unauthorized");
       ("error_description", JString "Bearer token required")]
  else
    let token := slice 7 authHeader in
    if negb (token =? OAuthConfig.apiKey config)%string then
      Reject 401 (wwwAuthenticateHeader serverUrl config)
        [("error", JString "invalid_token");
         ("error_description", JString "Bearer token is invalid or expired")]
    else Next.

(* ===================================================================== *)
(** * oauth/login.ts                                                       *)
(* ===================================================================== *)

(** What [handleLogin] does with [res]. *)
Inductive LoginResponse : Type :=
| LoginRender (error : string) (originalUrl : JsValue)
| LoginSend (status : Z) (text : string)
| LoginRedirect (url : string).

(** [a || b] on values. *)
Definition js_or (a b : JsValue) : JsValue := if truthy a then a else b.

Section Login.

(** [bcrypt.compare(password, hash)]; [None] when it rejects. *)
Variable bcrypt_compare : string -> string -> option bool.

(** [handleLogin]: the response, and [req.session.authenticated]
    afterwards.  [passwordHash] is [config.passwordHash]; [password] and
    [original_url] are the fields of [req.body]. *)
Definition handleLogin (passwordHash : string) (password original_url : JsValue)
    (authenticated : bool) : LoginResponse * bool :=
  if missing_or_not_string password then
    (LoginRender "Password is required" (js_or original_url (JString "/oauth/authorize")),
     authenticated)
  else if missing_or_not_string original_url then
    (LoginSend 400 "Missing original_url", authenticated)
  else if negb (str_truthy passwordHash) then
    (LoginSend 500 "Server configuration error", authenticated)
  else
    match bcrypt_compare (as_string password) passwordHash with
    | None => (LoginSend 500 "Internal server error", authenticated)
    | Some passwordValid =>
        if negb passwordValid then (LoginRender "Invalid password" original_url, authenticated)
        else (LoginRedirect (as_string original_url), true)
    end.

End Login.

(* ===================================================================== *)
(** * Further vocabulary and sample data                                   *)
(* ===================================================================== *)

(** The sixty-six characters of [[A-Za-z0-9\-._~]]. *)
Definition unreserved_alphabet : string :=
  "ABCDEFGHIJKLMNOPQRSTUVWXYZabcdefghijklmnopqrstuvwxyz0123456789-._~".

(** Every stored code is bound to a client and a redirect URI by a
    well-formed S256 challenge. *)
Definition codes_wellformed (w : World) : Prop :=
  forall row, In row (authorization_codes w) ->
    str_truthy (StoredAuthCode.clientId row) = true
    /\ str_truthy (StoredAuthCode.redirectUri row) = true
    /\ StoredAuthCode.codeChallengeMethod row = "S256"
    /\ validateCodeChallenge (StoredAuthCode.codeChallenge row) = true
    /\ String.length (StoredAuthCode.code row) = 43%nat.

(** The submitted form passes every check of [handleLogin] and bcrypt
    accepts the password. *)
Definition password_accepted (bcrypt_compare : string -> string -> option bool)
    (passwordHash : string) (password original_url : JsValue) : bool :=
  present_string password && present_string original_url && str_truthy passwordHash
  && match bcrypt_compare (as_string password) passwordHash with
     | Some true => true
     | _ => false
     end.

(** A stand-in for bcrypt in the examples: the hash is the password read
    backwards. *)
Fixpoint reverse_string (s : string) : string :=
  match s with
  | EmptyString => EmptyString
  | String a rest => (reverse_string rest ++ String a EmptyString)%string
  end.

Definition example_compare (password hash : string) : option bool :=
  Some (reverse_string password =? hash)%string.

(* ===================================================================== *)
(** * Facts about the runtime model                                        *)
(* ===================================================================== *)

Section NodeFacts.
Import Node.

Lemma sextet_in n : 0 <= n < 64 -> In n sextets.
Proof.
  intros Hn. unfold sextets.
  replace n with (Z.of_nat (Z.to_nat n)) by lia.
  apply in_map, in_seq. lia.
Qed.

Lemma b64_char_inj n m :
  0 <= n < 64 -> 0 <= m < 64 -> b64_char n = b64_char m -> n = m.
Proof.
  intros Hn Hm E.
  assert (T : forallb (fun x => forallb (fun y =>
              implb (Ascii.eqb (b64_char x) (b64_char y)) (x =? y)) sextets) sextets = true)
    by (vm_compute; reflexivity).
  rewrite forallb_forall in T. specialize (T n (sextet_in n Hn)).
  rewrite forallb_forall in T. specialize (T m (sextet_in m Hm)).
  rewrite E, Ascii.eqb_refl in T. simpl in T. lia.
Qed.

Ltac sextet_arith :=
  unfold is_byte, sextet1, sextet2, sextet3, sextet4 in *;
  Z.div_mod_to_equations; lia.

Lemma is_byte_0 : is_byte 0.
Proof. unfold is_byte; lia. Qed.

Lemma group_inj a b c a' b' c' :
  is_byte a -> is_byte b -> is_byte c -> is_byte a' -> is_byte b' -> is_byte c' ->
  sextet1 a = sextet1 a' -> sextet2 a b = sextet2 a' b' ->
  sextet3 b c = sextet3 b' c' -> sextet4 c = sextet4 c' ->
  a = a' /\ b = b' /\ c = c'.
Proof.
  unfold is_byte, sextet1, sextet2, sextet3, sextet4. intros.
  Z.div_mod_to_equations. lia.
Qed.

Ltac sextet_eqs :=
  repeat match goal with
  | H : b64_char ?x = b64_char ?y |- _ =>
      apply b64_char_inj in H; [ | sextet_arith .. ]
  end.

Lemma base64url_inj_upto (n : nat) : forall xs ys,
  (List.length xs <= n)%nat ->
  Forall is_byte xs -> Forall is_byte ys ->
  base64url xs = base64url ys -> xs = ys.
Proof.
  induction n as [|n IH]; intros xs ys Hlen Hx Hy E.
  - destruct xs; [|simpl in Hlen; lia].
    destruct ys as [|a' [|b' [|c' r']]]; simpl in E; congruence.
  - destruct xs as [|a [|b [|c r]]]; destruct ys as [|a' [|b' [|c' r']]];
      simpl in E; try congruence;
      repeat match goal with
             | H : Forall _ (_ :: _) |- _ => inversion H; clear H; subst
             end.
    + injection E as E1 E2. sextet_eqs.
      destruct (group_inj a 0 0 a' 0 0) as (-> & _); auto using is_byte_0.
    + injection E as E1 E2 E3. sextet_eqs.
      destruct (group_inj a b 0 a' b' 0) as (-> & -> & _); auto using is_byte_0.
    + injection E as E1 E2 E3 E4 E5. sextet_eqs.
      destruct (group_inj a b c a' b' c') as (-> & -> & ->); auto.
      f_equal. f_equal. f_equal. apply IH; auto. simpl in Hlen. lia.
Qed.

Lemma base64url_inj xs ys :
  Forall is_byte xs -> Forall is_byte ys ->
  base64url xs = base64url ys -> xs = ys.
Proof. apply (base64url_inj_upto (List.length xs)). lia. Qed.

Lemma be_bytes_is_byte n x : Forall is_byte (be_bytes n x).
Proof.
  unfold be_bytes. apply Forall_forall. intros b Hb.
  apply in_map_iff in Hb. destruct Hb as (i & <- & _).
  unfold is_byte. apply Z.mod_pos_bound. lia.
Qed.

Lemma sha256_is_bytes msg : Forall is_byte (sha256 msg).
Proof.
  unfold sha256, digest_bytes. apply Forall_forall. intros b Hb.
  apply in_flat_map in Hb. destruct Hb as (x & _ & Hb).
  revert b Hb. apply Forall_forall. apply be_bytes_is_byte.
Qed.

Lemma sha256_length msg : List.length (sha256 msg) = 32%nat.
Proof. reflexivity. Qed.

Lemma base64url_nonempty bs : bs <> [] -> str_truthy (base64url bs) = true.
Proof. destruct bs as [|a [|b [|c r]]]; intros H; [congruence| reflexivity ..]. Qed.


(** Test vectors: FIPS 180-4 and RFC 7636, appendix B. *)

Example sha256_abc_vector :
  base64url (sha256 (bytes_of_string "abc"))
  = "ungWv48Bz-pBQUDeXa4iI7ADYaOWF3qctBD_YfIAFa0".
Proof. vm_compute. reflexivity. Qed.

Example sha256_empty_vector :
  base64url (sha256 []) = "47DEQpj8HBSa-_TImW-5JCeuQeRkm5NMpJWZG3hSuFU".
Proof. vm_compute. reflexivity. Qed.

Example sha256_two_blocks_vector :
  base64url (sha256 (repeat 97 64))
  = "_-BU_nrgy23GXDr5th1SCfQ5hR20PQulmXM33xVGaOs".
Proof. vm_compute. reflexivity. Qed.

Example rfc7636_appendix_B :
  base64url (sha256 (bytes_of_string "dBjftJeZ4CVP-mB92K27uhbUJU1p1r_wW1gFWFOEjXk"))
  = "E9Melhoa2OwvFrEMTJguCHaoeK1t8URWbuGJSstw-cM".
Proof. vm_compute. reflexivity. Qed.

End NodeFacts.

(* ===================================================================== *)
(** * PKCE verification                                                    *)
(* ===================================================================== *)

Lemma str_truthy_true s : str_truthy s = true <-> s <> EmptyString.
Proof.
  unfold str_truthy. destruct (String.eqb_spec s EmptyString); simpl; split; congruence.
Qed.

Lemma str_truthy_length s : str_truthy s = true <-> (0 < String.length s)%nat.
Proof. destruct s; simpl; split; intros; (reflexivity || lia || discriminate). Qed.

Lemma flip_ascii_changes k a : (k < 8)%nat -> flip_ascii k a <> a.
Proof.
  intros Hk. destruct a as [b0 b1 b2 b3 b4 b5 b6 b7].
  do 8 (destruct k as [|k]; [simpl; intros E; injection E; intros;
        repeat match goal with H : negb ?b = ?b |- _ => destruct b; discriminate H end|]).
  lia.
Qed.

Lemma single_bit_mutation_changes i k : forall s,
  (i < String.length s)%nat -> (k < 8)%nat -> single_bit_mutation i k s <> s.
Proof.
  induction i as [|i IH]; intros [|a r] Hi Hk; simpl in *; try lia.
  - intros E. injection E as E. exact (flip_ascii_changes k a Hk E).
  - intros E. injection E as E. apply (IH r); [lia | assumption | assumption].
Qed.

Lemma single_bit_mutation_length i k : forall s,
  String.length (single_bit_mutation i k s) = String.length s.
Proof.
  induction i as [|i IH]; intros [|a r]; simpl; auto.
Qed.

Lemma S256_challenge_truthy v : str_truthy (S256_challenge v) = true.
Proof.
  unfold S256_challenge. apply base64url_nonempty.
  intros E. pose proof (sha256_length (Node.bytes_of_string v)) as L.
  rewrite E in L. discriminate L.
Qed.

Lemma S256_challenge_digest v v' :
  S256_challenge v' = S256_challenge v
  <-> Node.sha256 (Node.bytes_of_string v') = Node.sha256 (Node.bytes_of_string v).
Proof.
  unfold S256_challenge. split; intros E.
  - apply base64url_inj; auto using sha256_is_bytes.
  - now rewrite E.
Qed.

(** [verifyPKCE] accepts exactly the non-empty pairs in which the
    challenge is the S256 challenge of the verifier. *)
Lemma verifyPKCE_true_iff v c :
  verifyPKCE v c = true
  <-> str_truthy v = true /\ str_truthy c = true /\ S256_challenge v = c.
Proof.
  unfold verifyPKCE, S256_challenge.
  destruct (str_truthy v), (str_truthy c); cbn [negb orb];
    rewrite ?String.eqb_eq; intuition congruence.
Qed.

Lemma verifyPKCE_false_iff v c :
  verifyPKCE v c = false
  <-> ~ (str_truthy v = true /\ str_truthy c = true /\ S256_challenge v = c).
Proof.
  rewrite <- verifyPKCE_true_iff. destruct (verifyPKCE v c); split; congruence.
Qed.

(** X25.  [verifyPKCE] binds a challenge to its verifier as far as
    SHA-256 does.  For every non-empty verifier, the S256 challenge
    derived from it verifies; flipping any single bit of that challenge
    makes verification fail; and another verifier is accepted for that
    challenge exactly when it is non-empty and has the same SHA-256
    digest, the encoding of the digest losing nothing. *)
Theorem verifyPKCE_S256_binding (verifier : string) :
  str_truthy verifier = true ->
  verifyPKCE verifier (S256_challenge verifier) = true
  /\ (forall i k, (i < String.length (S256_challenge verifier))%nat -> (k < 8)%nat ->
        verifyPKCE verifier (single_bit_mutation i k (S256_challenge verifier)) = false)
  /\ (forall other,
        verifyPKCE other (S256_challenge verifier) = true
        <-> str_truthy other = true
            /\ Node.sha256 (Node.bytes_of_string other)
               = Node.sha256 (Node.bytes_of_string verifier)).
Proof.
  intros Hv. split; [|split].
  - apply verifyPKCE_true_iff. auto using S256_challenge_truthy.
  - intros i k Hi Hk. apply verifyPKCE_false_iff. intros (_ & _ & E).
    symmetry in E. revert E. now apply single_bit_mutation_changes.
  - intros other. rewrite verifyPKCE_true_iff, <- S256_challenge_digest.
    pose proof (S256_challenge_truthy verifier). tauto.
Qed.

(** The verifier and challenge of RFC 7636, appendix B: the pair verifies,
    and a flipped bit on either side does not. *)
Lemma verifyPKCE_S256_binding_rfc7636 :
  verifyPKCE example_verifier (S256_challenge example_verifier) = true
  /\ verifyPKCE example_verifier
       (single_bit_mutation 0 0 (S256_challenge example_verifier)) = false
  /\ verifyPKCE (single_bit_mutation 0 0 example_verifier)
       (S256_challenge example_verifier) = false.
Proof.
  destruct (verifyPKCE_S256_binding example_verifier eq_refl) as (H1 & H2 & H3).
  split; [exact H1|split].
  - apply H2; vm_compute; lia.
  - destruct (verifyPKCE (single_bit_mutation 0 0 example_verifier)
                (S256_challenge example_verifier)) eqn:E; [|reflexivity].
    apply H3 in E. destruct E as (_ & E). vm_compute in E. discriminate E.
Defined.

(** The guard on empty input: the S256 challenge of the empty verifier is
    well defined, and [verifyPKCE] rejects the pair all the same. *)
Lemma verifyPKCE_rejects_empty_verifier :
  S256_challenge EmptyString = "47DEQpj8HBSa-_TImW-5JCeuQeRkm5NMpJWZG3hSuFU"
  /\ verifyPKCE EmptyString (S256_challenge EmptyString) = false.
Proof. split; vm_compute; reflexivity. Qed.

(* ===================================================================== *)
(** * The store: what each storage function computes                       *)
(* ===================================================================== *)

Lemma after_query_tables q w :
  authorization_codes (after_query q w) = authorization_codes w
  /\ oauth_clients (after_query q w) = oauth_clients w
  /\ queries (after_query q w) = queries w ++ [q]
  /\ faults (after_query q w) = tl (faults w).
Proof. repeat split. Qed.

Lemma pool_query_rejected {A} q (run : World -> A * World) w :
  hd false (faults w) = true ->
  pool_query q run w = (Throw "query failed", after_query q w).
Proof. unfold pool_query. now intros ->. Qed.

Lemma pool_query_served {A} q (run : World -> A * World) w :
  hd false (faults w) = false ->
  pool_query q run w = (Return (fst (run (after_query q w))), snd (run (after_query q w))).
Proof. unfold pool_query. intros ->. now destruct (run (after_query q w)). Qed.

Lemma getAuthCode_eq now code w :
  getAuthCode now code w = (Return (fetched now code w), after_query (SelectAuthCode code) w).
Proof.
  unfold getAuthCode, fetched, try_catch, bind, ret.
  destruct (hd false (faults w)) eqn:F.
  - now rewrite pool_query_rejected.
  - rewrite pool_query_served by assumption. simpl.
    destruct (filter _ (authorization_codes w)) as [|[] rows]; reflexivity.
Qed.

Lemma getClient_eq clientId w :
  getClient clientId w = (Return (looked_up clientId w), after_query (SelectClient clientId) w).
Proof.
  unfold getClient, looked_up, try_catch, bind, ret.
  destruct (hd false (faults w)) eqn:F.
  - now rewrite pool_query_rejected.
  - rewrite pool_query_served by assumption. simpl.
    destruct (filter _ (oauth_clients w)) as [|[] rows]; reflexivity.
Qed.

Lemma deleteAuthCode_eq code w :
  deleteAuthCode code w = (Return tt, after_delete code w).
Proof.
  unfold deleteAuthCode, after_delete, try_catch, ret.
  destruct (hd false (faults w)) eqn:F.
  - now rewrite pool_query_rejected.
  - now rewrite pool_query_served.
Qed.

Lemma logAuthEvent_returns event req success clientId errorMessage w :
  exists w', logAuthEvent event req success clientId errorMessage w = (Return tt, w')
    /\ authorization_codes w' = authorization_codes w
    /\ oauth_clients w' = oauth_clients w
    /\ in_flight w' = in_flight w
    /\ faults w' = tl (faults w)
    /\ exists row, queries w' = queries w ++ [InsertAuthLog row].
Proof.
  unfold logAuthEvent, try_catch, ret.
  destruct (hd false (faults w)) eqn:F.
  - rewrite pool_query_rejected by assumption. eexists; repeat split. eexists; reflexivity.
  - rewrite pool_query_served by assumption. eexists; repeat split. eexists; reflexivity.
Qed.

Lemma fetched_Some now code w row :
  fetched now code w = Some row ->
  In row (authorization_codes w) /\ StoredAuthCode.code row = code
  /\ now < StoredAuthCode.expiresAt row.
Proof.
  unfold fetched. destruct (hd false (faults w)); [discriminate|]. simpl.
  destruct (filter _ _) as [|r rows] eqn:E; [discriminate|]. intros [= ->].
  assert (H : In row (row :: rows)) by now left.
  rewrite <- E in H. apply filter_In in H. destruct H as (H & T).
  apply andb_prop in T. destruct T as (T1 & T2).
  apply String.eqb_eq in T1. apply Z.ltb_lt in T2. auto.
Qed.

Lemma fetched_absent now code w :
  code_absent code w -> fetched now code w = None.
Proof.
  intros A. destruct (fetched now code w) as [row|] eqn:E; [|reflexivity].
  apply fetched_Some in E. destruct E as (H & C & _). now apply A in H.
Qed.

Lemma after_delete_tables code w :
  oauth_clients (after_delete code w) = oauth_clients w
  /\ queries (after_delete code w) = queries w ++ [DeleteAuthCode code]
  /\ faults (after_delete code w) = tl (faults w)
  /\ (forall row, In row (authorization_codes (after_delete code w)) ->
        In row (authorization_codes w)).
Proof.
  unfold after_delete. destruct (hd false (faults w)); simpl; repeat split; auto.
  intros row H. apply filter_In in H. tauto.
Qed.

Lemma after_delete_absent code w :
  hd false (faults w) = false -> code_absent code (after_delete code w).
Proof.
  unfold after_delete, code_absent. intros -> row H. simpl in H.
  apply filter_In in H. destruct H as (_ & H).
  destruct (String.eqb_spec (StoredAuthCode.code row) code); [discriminate|assumption].
Qed.

(** ** A DELETE that nobody awaits *)

Lemma delete_started_tables code w :
  authorization_codes (delete_started code w) = authorization_codes w
  /\ oauth_clients (delete_started code w) = oauth_clients w
  /\ faults (delete_started code w) = faults w
  /\ queries (delete_started code w) = queries w ++ [DeleteAuthCode code]
  /\ in_flight (delete_started code w) = in_flight w ++ [code].
Proof. repeat split. Qed.


Lemma settle_tables code w :
  oauth_clients (settle code w) = oauth_clients w
  /\ queries (settle code w) = queries w
  /\ (forall row, In row (authorization_codes (settle code w)) ->
        In row (authorization_codes w))
  /\ (forall row, In row (authorization_codes w) -> StoredAuthCode.code row <> code ->
        In row (authorization_codes (settle code w))).
Proof.
  unfold settle.
  destruct (existsb (String.eqb code) (in_flight w)); [|repeat split; auto].
  destruct (hd false (faults w)); cbn; repeat split; auto.
  - intros row H. apply filter_In in H. tauto.
  - intros row H N. apply filter_In. split; [exact H|].
    apply String.eqb_neq in N. now rewrite N.
Qed.



Lemma settle_absent code code' w :
  code_absent code w -> code_absent code (settle code' w).
Proof. intros A row H. apply A. now apply (settle_tables code' w). Qed.

(** Awaiting [deleteAuthCode] is starting it and letting the store settle
    it at once. *)
Lemma deleteAuthCode_unawaited_settled code w :
  in_flight w = [] ->
  settle code (snd (deleteAuthCode_unawaited code w)) = snd (deleteAuthCode code w).
Proof.
  intros E. rewrite deleteAuthCode_eq. unfold deleteAuthCode_unawaited, settle, after_delete.
  cbn [snd]. unfold delete_started. cbn [in_flight set_in_flight set_queries faults].
  rewrite E. cbn [app existsb remove_first]. rewrite String.eqb_refl. cbn [orb].
  destruct w as [codes clients logs fs qs e d fl]. cbn in E. subst fl. cbn.
  destruct (hd false fs); reflexivity.
Qed.

(* ===================================================================== *)
(** * Token exchange                                                       *)
(* ===================================================================== *)

Lemma reads_only_refl w : reads_only w w.
Proof.
  repeat split; auto. exists []. now rewrite app_nil_r.
Qed.

Lemma reads_only_trans w1 w2 w3 :
  reads_only w1 w2 -> reads_only w2 w3 -> reads_only w1 w3.
Proof.
  intros (A1 & B1 & I1 & F1 & q1 & Q1 & S1) (A2 & B2 & I2 & F2 & q2 & Q2 & S2).
  repeat split; try congruence; auto.
  exists (q1 ++ q2). rewrite Q2, Q1, app_assoc. split; [reflexivity|].
  rewrite forallb_app. now rewrite S1, S2.
Qed.

Lemma reads_only_select q w : is_select q = true -> reads_only w (after_query q w).
Proof.
  intros S. repeat split.
  - simpl. now intros ->.
  - exists [q]. simpl. now rewrite S.
Qed.


Lemma missing_or_not_string_present v :
  missing_or_not_string v = negb (present_string v).
Proof.
  destruct v as [| |b|n|s|l|]; unfold missing_or_not_string; simpl;
    try reflexivity; try (now destruct b); try (now destruct (n =? 0)).
  now rewrite orb_false_r.
Qed.

Lemma present_string_as_string v :
  present_string v = true -> v = JString (as_string v) /\ str_truthy (as_string v) = true.
Proof. destruct v; simpl; try discriminate. auto. Qed.

Lemma resolveClientId_eq now code client_id w :
  resolveClientId now code client_id w =
  if present_string client_id then (Return (inr (as_string client_id)), w)
  else (Return (match fetched now code w with
                | Some sc =>
                    if str_truthy (StoredAuthCode.clientId sc)
                    then inr (StoredAuthCode.clientId sc)
                    else inl (sendError "invalid_request" "Missing or invalid client_id" 400)
                | None => inl (sendError "invalid_request" "Missing or invalid client_id" 400)
                end),
        after_query (SelectAuthCode code) w).
Proof.
  unfold resolveClientId. rewrite missing_or_not_string_present.
  destruct (present_string client_id); simpl; [reflexivity|].
  unfold bind. rewrite getAuthCode_eq.
  destruct (fetched now code w) as [sc|]; simpl; [|reflexivity].
  now destruct (str_truthy (StoredAuthCode.clientId sc)).
Qed.

Lemma validateClient_returns clientId clientSecret staticId staticSecret w :
  exists b w', validateClient clientId clientSecret staticId staticSecret w = (Return b, w')
               /\ reads_only w w'.
Proof.
  unfold validateClient.
  destruct ((clientId =? staticId)%string && (clientSecret =? staticSecret)%string).
  - eexists _, _. split; [reflexivity|apply reads_only_refl].
  - unfold bind. rewrite getClient_eq.
    destruct (looked_up clientId w) as [c|];
      [destruct (RegisteredClient.client_secret c =? clientSecret)%string|];
      (eexists _, _; split; [reflexivity|now apply reads_only_select]).
Qed.

(** The credential check either passes or sends [invalid_client]. *)
Lemma checkClientCredentials_returns config client_id client_secret w :
  exists r w', checkClientCredentials config client_id client_secret w = (Return r, w')
               /\ reads_only w w'
               /\ (r = None \/ exists d, r = Some (sendError "invalid_client" d 400)).
Proof.
  unfold checkClientCredentials, bind. rewrite getClient_eq.
  set (w1 := after_query (SelectClient client_id) w).
  assert (R1 : reads_only w w1) by now apply reads_only_select.
  destruct (_ =? "none")%string.
  - destruct (_ && _); eexists _, _; (split; [reflexivity|split; [exact R1|eauto]]).
  - destruct (missing_or_not_string client_secret).
    + eexists _, _; (split; [reflexivity|split; [exact R1|eauto]]).
    + destruct (validateClient_returns client_id (as_string client_secret)
                  (OAuthConfig.clientId config) (OAuthConfig.clientSecret config) w1)
        as (b & w2 & E & R2).
      rewrite E. destruct b; simpl;
        eexists _, _; (split; [reflexivity|split; [eapply reads_only_trans; eauto|eauto]]).
Qed.

(** The first phase of [handleToken] always answers: with one of its
    errors, or with the grant to redeem; it only reads the store. *)
Lemma validateTokenRequest_returns config now body w :
  exists r w', validateTokenRequest config now body w = (Return r, w')
    /\ reads_only w w'
    /\ match r with
       | inl response =>
           exists e d, response = sendError e d 400
             /\ In e ["unsupported_grant_type"; "invalid_request"; "invalid_client"]
             /\ (present_string (TokenRequest.client_id body) = false ->
                 fetched now (as_string (TokenRequest.code body)) w = None ->
                 strict_eq_str (TokenRequest.grant_type body) "authorization_code" = true ->
                 present_string (TokenRequest.code body) = true ->
                 present_string (TokenRequest.redirect_uri body) = true ->
                 present_string (TokenRequest.code_verifier body) = true ->
                 e = "invalid_request" /\ d = "Missing or invalid client_id")
       | inr grant =>
           TokenGrant.code grant = as_string (TokenRequest.code body)
           /\ TokenGrant.redirect_uri grant = as_string (TokenRequest.redirect_uri body)
           /\ TokenGrant.code_verifier grant = as_string (TokenRequest.code_verifier body)
           /\ (present_string (TokenRequest.client_id body) = true ->
               TokenGrant.client_id grant = as_string (TokenRequest.client_id body))
           /\ (present_string (TokenRequest.client_id body) = false ->
               exists sc, fetched now (as_string (TokenRequest.code body)) w = Some sc
                          /\ TokenGrant.client_id grant = StoredAuthCode.clientId sc)
       end.
Proof.
  unfold validateTokenRequest.
  rewrite !missing_or_not_string_present.
  assert (G : negb (truthy (TokenRequest.grant_type body))
              || negb (strict_eq_str (TokenRequest.grant_type body) "authorization_code")
              = negb (strict_eq_str (TokenRequest.grant_type body) "authorization_code")).
  { destruct (TokenRequest.grant_type body) as [| |b|n|s|l|]; simpl; auto;
      try (now destruct b); try (now destruct (n =? 0)).
    unfold str_truthy. destruct (String.eqb_spec s EmptyString) as [->|]; reflexivity. }
  rewrite G. clear G.
  destruct (strict_eq_str _ _); simpl;
    [|eexists _, _; split; [reflexivity|split; [apply reads_only_refl|]];
      eexists _, _; split; [reflexivity|split; [simpl; tauto|intros; discriminate]]].
  destruct (present_string (TokenRequest.code body)); simpl;
    [|eexists _, _; split; [reflexivity|split; [apply reads_only_refl|]];
      eexists _, _; split; [reflexivity|split; [simpl; tauto|intros; discriminate]]].
  destruct (present_string (TokenRequest.redirect_uri body)); simpl;
    [|eexists _, _; split; [reflexivity|split; [apply reads_only_refl|]];
      eexists _, _; split; [reflexivity|split; [simpl; tauto|intros; discriminate]]].
  destruct (present_string (TokenRequest.code_verifier body)); simpl;
    [|eexists _, _; split; [reflexivity|split; [apply reads_only_refl|]];
      eexists _, _; split; [reflexivity|split; [simpl; tauto|intros; discriminate]]].
  unfold bind at 1. rewrite resolveClientId_eq.
  set (code := as_string (TokenRequest.code body)).
  assert (Hres : exists w1 (res : Response + string),
            (if present_string (TokenRequest.client_id body)
             then (Return (inr (as_string (TokenRequest.client_id body))), w)
             else (Return
                     match fetched now code w with
                     | Some sc =>
                         if str_truthy (StoredAuthCode.clientId sc)
                         then inr (StoredAuthCode.clientId sc)
                         else inl (sendError "invalid_request" "Missing or invalid client_id" 400)
                     | None => inl (sendError "invalid_request" "Missing or invalid client_id" 400)
                     end, after_query (SelectAuthCode code) w)) = (Return res, w1)
            /\ reads_only w w1
            /\ match res with
               | inl r => r = sendError "invalid_request" "Missing or invalid client_id" 400
               | inr cid =>
                   (present_string (TokenRequest.client_id body) = true ->
                    cid = as_string (TokenRequest.client_id body))
                   /\ (present_string (TokenRequest.client_id body) = false ->
                       exists sc, fetched now code w = Some sc
                                  /\ cid = StoredAuthCode.clientId sc)
               end).
  { destruct (present_string (TokenRequest.client_id body)).
    - eexists _, _. split; [reflexivity|]. split; [apply reads_only_refl|].
      split; [auto|discriminate].
    - eexists _, _. split; [reflexivity|]. split; [now apply reads_only_select|].
      destruct (fetched now code w) as [sc|]; [|reflexivity].
      destruct (str_truthy (StoredAuthCode.clientId sc)); [|reflexivity].
      split; [discriminate|eauto]. }
  destruct Hres as (w1 & res & -> & R1 & Hres).
  destruct res as [r|cid].
  - subst r. eexists _, _. split; [reflexivity|]. split; [exact R1|].
    eexists _, _. split; [reflexivity|]. split; [simpl; tauto|auto].
  - destruct (checkClientCredentials_returns config cid (TokenRequest.client_secret body) w1)
      as (rej & w2 & E & R2 & Hrej).
    unfold bind. rewrite E.
    assert (R : reads_only w w2) by (eapply reads_only_trans; eauto).
    destruct Hrej as [->|(d & ->)].
    + destruct (validateCodeVerifier _); simpl.
      * eexists _, _. split; [reflexivity|]. split; [exact R|].
        simpl. repeat split; tauto.
      * eexists _, _. split; [reflexivity|]. split; [exact R|].
        eexists _, _. split; [reflexivity|]. split; [simpl; tauto|].
        intros P F. destruct Hres as (_ & Hres). destruct (Hres P) as (sc & Hsc & _).
        congruence.
    + eexists _, _. split; [reflexivity|]. split; [exact R|].
      eexists _, _. split; [reflexivity|]. split; [simpl; tauto|].
      intros P F. destruct Hres as (_ & Hres). destruct (Hres P) as (sc & Hsc & _).
      congruence.
Qed.

(** What [redeemCode] does in each of its five outcomes. *)

Lemma redeemCode_absent config now req code redirect_uri code_verifier client_id w :
  fetched now code w = None ->
  redeemCode config now req code redirect_uri code_verifier client_id w
  = (Return (sendError "invalid_grant" "Invalid or expired authorization code" 400),
     after_query (SelectAuthCode code) w).
Proof.
  intros F. unfold redeemCode, bind. now rewrite getAuthCode_eq, F.
Qed.

Lemma redeemCode_client_mismatch config now req code redirect_uri code_verifier client_id w sc :
  fetched now code w = Some sc ->
  StoredAuthCode.clientId sc <> client_id ->
  redeemCode config now req code redirect_uri code_verifier client_id w
  = (Return (sendError "invalid_grant" "client_id mismatch" 400),
     delete_started code (after_query (SelectAuthCode code) w)).
Proof.
  intros F N. unfold redeemCode, bind. rewrite getAuthCode_eq, F.
  apply String.eqb_neq in N. rewrite N. simpl.
  reflexivity.
Qed.

Lemma redeemCode_redirect_mismatch config now req code redirect_uri code_verifier client_id w sc :
  fetched now code w = Some sc ->
  StoredAuthCode.clientId sc = client_id ->
  StoredAuthCode.redirectUri sc <> redirect_uri ->
  redeemCode config now req code redirect_uri code_verifier client_id w
  = (Return (sendError "invalid_grant" "redirect_uri mismatch" 400),
     delete_started code (after_query (SelectAuthCode code) w)).
Proof.
  intros F C N. unfold redeemCode, bind. rewrite getAuthCode_eq, F.
  apply String.eqb_eq in C. apply String.eqb_neq in N. rewrite C, N. simpl.
  reflexivity.
Qed.

Lemma redeemCode_pkce_failure config now req code redirect_uri code_verifier client_id w sc :
  fetched now code w = Some sc ->
  StoredAuthCode.clientId sc = client_id ->
  StoredAuthCode.redirectUri sc = redirect_uri ->
  verifyPKCE code_verifier (StoredAuthCode.codeChallenge sc) = false ->
  redeemCode config now req code redirect_uri code_verifier client_id w
  = (Return (sendError "invalid_grant" "PKCE verification failed" 400),
     snd (logAuthEvent "token_failure" req false (Some client_id)
            (Some "PKCE verification failed")
            (delete_started code (after_query (SelectAuthCode code) w)))).
Proof.
  intros F C R P. unfold redeemCode, bind. rewrite getAuthCode_eq, F.
  apply String.eqb_eq in C. apply String.eqb_eq in R. rewrite C, R, P. simpl.
  unfold deleteAuthCode_unawaited.
  destruct (logAuthEvent_returns "token_failure" req false (Some client_id)
              (Some "PKCE verification failed")
              (delete_started code (after_query (SelectAuthCode code) w)))
    as (w' & -> & _).
  reflexivity.
Qed.

Lemma redeemCode_success config now req code redirect_uri code_verifier client_id w sc :
  fetched now code w = Some sc ->
  StoredAuthCode.clientId sc = client_id ->
  StoredAuthCode.redirectUri sc = redirect_uri ->
  verifyPKCE code_verifier (StoredAuthCode.codeChallenge sc) = true ->
  redeemCode config now req code redirect_uri code_verifier client_id w
  = (Return (Json 200
               [("access_token", JString (OAuthConfig.apiKey config));
                ("token_type", JString "Bearer");
                ("scope", JString (opt_or (StoredAuthCode.scope sc)
                                     (join " " (match OAuthConfig.scopes config with
                                                | Some l => l
                                                | None => default_scopes
                                                end))))]),
     snd (logAuthEvent "token_exchange" req true (Some client_id) None
            (delete_started code (after_query (SelectAuthCode code) w)))).
Proof.
  intros F C R P. unfold redeemCode, bind. rewrite getAuthCode_eq, F.
  apply String.eqb_eq in C. apply String.eqb_eq in R. rewrite C, R, P. simpl.
  unfold deleteAuthCode_unawaited.
  destruct (logAuthEvent_returns "token_exchange" req true (Some client_id) None
              (delete_started code (after_query (SelectAuthCode code) w)))
    as (w' & -> & _).
  reflexivity.
Qed.

(** The five outcomes are all there is. *)
Lemma redeemCode_cases now code (redirect_uri code_verifier client_id : string) w :
  (fetched now code w = None)
  \/ (exists sc, fetched now code w = Some sc /\ StoredAuthCode.clientId sc <> client_id)
  \/ (exists sc, fetched now code w = Some sc /\ StoredAuthCode.clientId sc = client_id
                 /\ StoredAuthCode.redirectUri sc <> redirect_uri)
  \/ (exists sc, fetched now code w = Some sc /\ StoredAuthCode.clientId sc = client_id
                 /\ StoredAuthCode.redirectUri sc = redirect_uri
                 /\ verifyPKCE code_verifier (StoredAuthCode.codeChallenge sc) = false)
  \/ (exists sc, fetched now code w = Some sc /\ StoredAuthCode.clientId sc = client_id
                 /\ StoredAuthCode.redirectUri sc = redirect_uri
                 /\ verifyPKCE code_verifier (StoredAuthCode.codeChallenge sc) = true).
Proof.
  destruct (fetched now code w) as [sc|]; [|now left]. right.
  destruct (String.eqb_spec (StoredAuthCode.clientId sc) client_id); [|left; eauto]. right.
  destruct (String.eqb_spec (StoredAuthCode.redirectUri sc) redirect_uri); [|left; eauto].
  right. destruct (verifyPKCE code_verifier (StoredAuthCode.codeChallenge sc)) eqn:P;
    [right|left]; eauto 8.
Qed.

Lemma redeemCode_returns config now req code redirect_uri code_verifier client_id w :
  exists r w', redeemCode config now req code redirect_uri code_verifier client_id w
               = (Return r, w').
Proof.
  destruct (redeemCode_cases now code redirect_uri code_verifier client_id w)
    as [F|[(sc & F & C)|[(sc & F & C & R)|[(sc & F & C & R & P)|(sc & F & C & R & P)]]]].
  - erewrite redeemCode_absent by eauto. eauto.
  - erewrite redeemCode_client_mismatch by eauto. eauto.
  - erewrite redeemCode_redirect_mismatch by eauto. eauto.
  - erewrite redeemCode_pkce_failure by eauto. eauto.
  - erewrite redeemCode_success by eauto. eauto.
Qed.

(** [handleToken] on a body that can be destructured is its two phases
    in sequence; the [catch] runs only for a body that cannot. *)
Lemma handleToken_eq config now req body w :
  handleToken config now req (Some body) w =
  match validateTokenRequest config now body w with
  | (Return (inl response), w1) => (Return response, w1)
  | (Return (inr grant), w1) =>
      redeemCode config now req (TokenGrant.code grant) (TokenGrant.redirect_uri grant)
                 (TokenGrant.code_verifier grant) (TokenGrant.client_id grant) w1
  | (Throw e, w1) => (Return (sendError "server_error" "Internal server error" 400), w1)
  end.
Proof.
  unfold handleToken, try_catch, bind, destructure, ret.
  destruct (validateTokenRequest config now body w) as [[[r|g]|e] w1]; try reflexivity.
  destruct (redeemCode_returns config now req (TokenGrant.code g) (TokenGrant.redirect_uri g)
              (TokenGrant.code_verifier g) (TokenGrant.client_id g) w1) as (r & w' & ->).
  reflexivity.
Qed.

Lemma handleToken_no_body config now req w :
  handleToken config now req None w
  = (Return (sendError "server_error" "Internal server error" 400), w).
Proof. reflexivity. Qed.


(** C10.  A rejected query makes [getClient] and [getAuthCode] return
    absent instead of throwing; in the token exchange, a rejected code
    fetch therefore yields [invalid_grant] ("Invalid or expired
    authorization code"), the answer for a code that is not there, and
    not [server_error]. *)
Theorem storage_read_failure_reads_as_absent :
  (forall clientId w,
     hd false (faults w) = true ->
     getClient clientId w = (Return None, after_query (SelectClient clientId) w))
  /\ (forall now code w,
        hd false (faults w) = true ->
        getAuthCode now code w = (Return None, after_query (SelectAuthCode code) w))
  /\ (forall config now req body w grant w1,
        validateTokenRequest config now body w = (Return (inr grant), w1) ->
        hd false (faults w1) = true ->
        handleToken config now req (Some body) w
        = (Return (sendError "invalid_grant" "Invalid or expired authorization code" 400),
           after_query (SelectAuthCode (TokenGrant.code grant)) w1)).
Proof.
  split; [|split].
  - intros clientId w F. rewrite getClient_eq. unfold looked_up. now rewrite F.
  - intros now code w F. rewrite getAuthCode_eq. unfold fetched. now rewrite F.
  - intros config now req body w grant w1 V F.
    rewrite handleToken_eq, V. apply redeemCode_absent.
    unfold fetched. now rewrite F.
Qed.

(** The token request of [example_token_request] on a store that serves
    the two lookups of the first phase and rejects the code fetch. *)
Lemma storage_read_failure_example :
  fst (handleToken example_config 2000 example_peer (Some example_token_request)
         (set_faults [false; false; true] example_world))
  = Return (sendError "invalid_grant" "Invalid or expired authorization code" 400).
Proof.
  destruct storage_read_failure_reads_as_absent as (_ & _ & H).
  erewrite H; [reflexivity | vm_compute; reflexivity | reflexivity].
Defined.

(** C7.  With [grant_type], [code], [redirect_uri] and [code_verifier] in
    order and [client_id] missing or not a string, the first statement
    issued is the fetch of the code.  When it yields a record, the
    request proceeds as the same request carrying the clientId of that
    record; when it yields nothing, the answer is [invalid_request]
    ("Missing or invalid client_id").  (Stored codes name their client:
    see [reachable_client_ids_present].) *)
Theorem client_id_falls_back_to_code_record config now req body w :
  client_ids_present w ->
  strict_eq_str (TokenRequest.grant_type body) "authorization_code" = true ->
  present_string (TokenRequest.code body) = true ->
  present_string (TokenRequest.redirect_uri body) = true ->
  present_string (TokenRequest.code_verifier body) = true ->
  present_string (TokenRequest.client_id body) = false ->
  (forall sc,
     fetched now (as_string (TokenRequest.code body)) w = Some sc ->
     handleToken config now req (Some body) w
     = handleToken config now req
         (Some (with_client_id (JString (StoredAuthCode.clientId sc)) body))
         (after_query (SelectAuthCode (as_string (TokenRequest.code body))) w))
  /\ (fetched now (as_string (TokenRequest.code body)) w = None ->
      handleToken config now req (Some body) w
      = (Return (sendError "invalid_request" "Missing or invalid client_id" 400),
         after_query (SelectAuthCode (as_string (TokenRequest.code body))) w)).
Proof.
  intros P G C R V I.
  assert (T : truthy (TokenRequest.grant_type body) = true).
  { destruct (TokenRequest.grant_type body); try discriminate G. simpl in *.
    apply String.eqb_eq in G. now subst. }
  split.
  - intros sc F.
    assert (S : str_truthy (StoredAuthCode.clientId sc) = true).
    { apply P. now apply fetched_Some in F. }
    rewrite !handleToken_eq.
    replace (validateTokenRequest config now
               (with_client_id (JString (StoredAuthCode.clientId sc)) body)
               (after_query (SelectAuthCode (as_string (TokenRequest.code body))) w))
      with (validateTokenRequest config now body w); [reflexivity|].
    unfold validateTokenRequest.
    rewrite !missing_or_not_string_present. cbn [with_client_id TokenRequest.grant_type
      TokenRequest.code TokenRequest.redirect_uri TokenRequest.code_verifier
      TokenRequest.client_id TokenRequest.client_secret].
    rewrite G, T, C, R, V. cbn [negb orb].
    unfold bind. rewrite !resolveClientId_eq, I. cbn [present_string as_string].
    rewrite F, S. reflexivity.
  - intros F. rewrite handleToken_eq. unfold validateTokenRequest.
    rewrite !missing_or_not_string_present, G, T, C, R, V. cbn [negb orb].
    unfold bind at 1. rewrite resolveClientId_eq, I, F. reflexivity.
Qed.

(** The request of a client that omits [client_id], on the sample store:
    the stored clientId is adopted. *)
Lemma client_id_fallback_example :
  handleToken example_config 2000 example_peer (Some example_token_request) example_world
  = handleToken example_config 2000 example_peer
      (Some (with_client_id (JString "mcp-client-AAAAAAAAAAAAAAAAAAAAAA")
               example_token_request))
      (after_query (SelectAuthCode "Y29kZQ") example_world).
Proof.
  refine (proj1 (client_id_falls_back_to_code_record example_config 2000 example_peer
                   example_token_request example_world
                   _ eq_refl eq_refl eq_refl eq_refl eq_refl)
            example_code eq_refl).
  intros row [<-|[]]. reflexivity.
Defined.







(** Why C1 needs the DELETE served: when the store rejects it, which
    [deleteAuthCode] swallows, the same request is answered with the
    token a second time. *)
Lemma code_redeemed_again_after_rejected_delete :
  fst (handleToken example_config 2000 example_peer (Some example_token_request)
         (set_faults [false; false; false; false; true] example_world))
  = Return (Json 200 [("access_token", JString "example-api-key");
                      ("token_type", JString "Bearer");
                      ("scope", JString "mcp:tools:* mcp:resources:* mcp:prompts:*")])
  /\ fst (handleToken example_config 3000 example_peer (Some example_token_request)
            (settle "Y29kZQ"
               (snd (handleToken example_config 2000 example_peer
                       (Some example_token_request)
                       (set_faults [false; false; false; false; true] example_world)))))
     = Return (Json 200 [("access_token", JString "example-api-key");
                         ("token_type", JString "Bearer");
                         ("scope", JString "mcp:tools:* mcp:resources:* mcp:prompts:*")]).
Proof. split; vm_compute; reflexivity. Qed.

(* ===================================================================== *)
(** * Code issuance and expiry                                             *)
(* ===================================================================== *)

Lemma next_bytes_length skip n w : List.length (next_bytes skip n w) = n.
Proof. unfold next_bytes. now rewrite length_map, length_seq. Qed.

Lemma next_bytes_is_byte skip n w : Forall Node.is_byte (next_bytes skip n w).
Proof.
  unfold next_bytes. apply Forall_forall. intros b Hb.
  apply in_map_iff in Hb. destruct Hb as (i & <- & _).
  unfold Node.is_byte. apply Z.mod_pos_bound. lia.
Qed.

Lemma randomBytes_eq n w :
  randomBytes n w = (Return (next_bytes 0 n w), set_drawn (drawn w + n) w).
Proof. unfold randomBytes, next_bytes. now rewrite Nat.add_0_r. Qed.

(** A served INSERT stores the code with [expiresAt = now + 10 minutes];
    a rejected one makes [storeAuthCode] throw. *)
Lemma storeAuthCode_eq now clientId redirectUri codeChallenge codeChallengeMethod scope w :
  storeAuthCode now clientId redirectUri codeChallenge codeChallengeMethod scope w =
  let row := StoredAuthCode.mk (Node.base64url (next_bytes 0 32 w)) clientId redirectUri
               codeChallenge codeChallengeMethod scope now (now + CODE_EXPIRATION_MS) in
  let w1 := after_query (InsertAuthCode row) (set_drawn (drawn w + 32) w) in
  if hd false (faults w) then (Throw "Failed to store authorization code", w1)
  else (Return (Node.base64url (next_bytes 0 32 w)),
        set_authorization_codes (authorization_codes w ++ [row]) w1).
Proof.
  unfold storeAuthCode, generateAuthCode, bind, try_catch, ret, throw.
  rewrite randomBytes_eq. cbv zeta.
  destruct (hd false (faults w)) eqn:F.
  - rewrite pool_query_rejected by exact F. reflexivity.
  - rewrite pool_query_served by exact F. reflexivity.
Qed.

(** C4.  [getAuthCode] returns absent whenever every stored record of the
    code has [expiresAt <= now] at the time of the read, and leaves the
    table as it is; and a code that [storeAuthCode] stores at time [now]
    has [expiresAt = now + 10 minutes] (in milliseconds). *)
Theorem expired_code_is_absent :
  (forall now code w,
     (forall row, In row (authorization_codes w) ->
                  StoredAuthCode.code row = code -> StoredAuthCode.expiresAt row <= now) ->
     getAuthCode now code w = (Return None, after_query (SelectAuthCode code) w)
     /\ authorization_codes (after_query (SelectAuthCode code) w) = authorization_codes w)
  /\ (forall now clientId redirectUri codeChallenge codeChallengeMethod scope w,
        hd false (faults w) = false ->
        exists code w',
          storeAuthCode now clientId redirectUri codeChallenge codeChallengeMethod scope w
          = (Return code, w')
          /\ authorization_codes w'
             = authorization_codes w
               ++ [StoredAuthCode.mk code clientId redirectUri codeChallenge
                     codeChallengeMethod scope now (now + 10 * 60 * 1000)]).
Proof.
  split.
  - intros now code w H. split; [|reflexivity].
    rewrite getAuthCode_eq. f_equal. f_equal.
    destruct (fetched now code w) as [row|] eqn:F; [|reflexivity].
    apply fetched_Some in F. destruct F as (Hin & Hc & Hlt).
    specialize (H row Hin Hc). lia.
  - intros now clientId redirectUri codeChallenge codeChallengeMethod scope w F.
    rewrite storeAuthCode_eq. cbv zeta. rewrite F. eexists _, _. split; reflexivity.
Qed.

(** A code stored at time 5000 is there one millisecond before its expiry
    and absent at it, with its row still in the table. *)
Lemma expired_code_example :
  fst (getAuthCode 604999 "AAECAwQFBgcICQoLDA0ODxAREhMUFRYXGBkaGxwdHh8"
         (snd (storeAuthCode 5000 "example-client-id" "https://claude.ai/callback"
                 example_challenge "S256" None empty_world)))
  = Return (Some (StoredAuthCode.mk "AAECAwQFBgcICQoLDA0ODxAREhMUFRYXGBkaGxwdHh8"
                    "example-client-id" "https://claude.ai/callback" example_challenge
                    "S256" None 5000 605000))
  /\ fst (getAuthCode 605000 "AAECAwQFBgcICQoLDA0ODxAREhMUFRYXGBkaGxwdHh8"
            (snd (storeAuthCode 5000 "example-client-id" "https://claude.ai/callback"
                    example_challenge "S256" None empty_world)))
     = Return None
  /\ List.length
       (authorization_codes
          (snd (getAuthCode 605000 "AAECAwQFBgcICQoLDA0ODxAREhMUFRYXGBkaGxwdHh8"
                  (snd (storeAuthCode 5000 "example-client-id" "https://claude.ai/callback"
                          example_challenge "S256" None empty_world)))))
     = 1%nat.
Proof.
  split; [vm_compute; reflexivity|].
  destruct (proj1 expired_code_is_absent 605000 "AAECAwQFBgcICQoLDA0ODxAREhMUFRYXGBkaGxwdHh8"
              (snd (storeAuthCode 5000 "example-client-id" "https://claude.ai/callback"
                      example_challenge "S256" None empty_world))) as (E & T).
  { intros row [<-|[]] _. cbv. discriminate. }
  rewrite E. split; [reflexivity|]. cbn [snd]. rewrite T. reflexivity.
Defined.

(* ===================================================================== *)
(** * Authorize flow                                                       *)
(* ===================================================================== *)

Lemma truthy_strict_eq v lit :
  str_truthy lit = true ->
  negb (truthy v) || negb (strict_eq_str v lit) = negb (strict_eq_str v lit).
Proof.
  intros L. destruct v as [| |b|n|s|l|]; simpl; auto;
    try (now destruct b); try (now destruct (n =? 0)).
  destruct (String.eqb_spec s lit) as [->|]; [now rewrite L|now rewrite orb_true_r].
Qed.

(** The checks of [handleAuthorize] are those of the document, in its
    order. *)
Lemma validateAuthorizeParams_first_failing req :
  validateAuthorizeParams req = first_failing (authorize_checks req).
Proof.
  unfold validateAuthorizeParams, first_failing, authorize_checks.
  rewrite !missing_or_not_string_present, !truthy_strict_eq by reflexivity.
  cbn [find fst snd].
  repeat match goal with
         | |- context [if negb ?b then _ else _] => destruct b; cbn [negb]; try reflexivity
         end.
Qed.

Lemma isValidClientId_eq clientId staticClientId w :
  isValidClientId clientId staticClientId w =
  if (clientId =? staticClientId)%string then (Return true, w)
  else (Return (match looked_up clientId w with Some _ => true | None => false end),
        after_query (SelectClient clientId) w).
Proof.
  unfold isValidClientId. destruct (clientId =? staticClientId)%string; [reflexivity|].
  unfold bind. now rewrite getClient_eq.
Qed.

Lemma checkRedirectUri_eq config client_id redirect_uri w :
  checkRedirectUri config client_id redirect_uri w =
  if (client_id =? OAuthConfig.clientId config)%string then
    (Return (isValidRedirectUri redirect_uri
               (match OAuthConfig.allowedRedirectPrefixes config with
                | Some l => l
                | None => default_allowedPrefixes
                end)), w)
  else
    (Return (match looked_up client_id w with
             | Some c => includes (RegisteredClient.redirect_uris c) redirect_uri
             | None => false
             end),
     after_query (SelectClient client_id) w).
Proof.
  unfold checkRedirectUri. destruct (client_id =? OAuthConfig.clientId config)%string;
    [reflexivity|].
  unfold bind. rewrite getClient_eq. now destruct (looked_up client_id w).
Qed.

Lemma isValidRedirectUri_true redirectUri allowedPrefixes :
  isValidRedirectUri redirectUri allowedPrefixes = true
  <-> exists prefix, In prefix allowedPrefixes /\ String.prefix prefix redirectUri = true.
Proof. unfold isValidRedirectUri, startsWith. apply existsb_exists. Qed.

Lemma includes_true arr s : includes arr s = true <-> In s arr.
Proof.
  unfold includes. rewrite existsb_exists. split.
  - intros (x & Hin & E). apply String.eqb_eq in E. now subst.
  - intros H. exists s. split; [assumption|apply String.eqb_refl].
Qed.

Section AuthorizeFacts.

Variable URL_parse : string -> option URL.

(** Past its three checks, [handleAuthorize] redirects, renders the login
    form or reports a server error. *)
Lemma approveAndRedirect_response now authReq w :
  exists r w', try_catch (approveAndRedirect URL_parse now authReq)
                 (fun _ => ret (sendError "server_error" "Internal server error" 400)) w
               = (Return r, w')
               /\ ((exists u, r = Redirect u)
                   \/ r = sendError "server_error" "Internal server error" 400).
Proof.
  unfold approveAndRedirect, try_catch, bind. rewrite storeAuthCode_eq. cbv zeta.
  destruct (hd false (faults w)).
  - eexists _, _. split; [reflexivity|now right].
  - destruct (URL_parse (AuthorizationRequest.redirect_uri authReq)).
    + eexists _, _. split; [reflexivity|]. left. eauto.
    + eexists _, _. split; [reflexivity|now right].
Qed.

Lemma handleAuthorize_eq config now req w :
  handleAuthorize URL_parse config now req w =
  match validateAuthorizeParams req with
  | Some response => (Return response, w)
  | None =>
      let client_id := as_string (AuthorizeRequest.client_id req) in
      let redirect_uri := as_string (AuthorizeRequest.redirect_uri req) in
      match isValidClientId client_id (OAuthConfig.clientId config) w with
      | (Return false, w1) => (Return (sendError "unauthorized_client" "Invalid client_id" 400), w1)
      | (Return true, w1) =>
          match checkRedirectUri config client_id redirect_uri w1 with
          | (Return false, w2) =>
              (Return (sendError "invalid_request" "Unauthorized redirect_uri" 400), w2)
          | (Return true, w2) =>
              if AuthorizeRequest.session_authenticated req then
                try_catch
                  (approveAndRedirect URL_parse now
                     (AuthorizationRequest.mk client_id redirect_uri
                        (as_string (AuthorizeRequest.response_type req))
                        (as_string (AuthorizeRequest.code_challenge req))
                        (as_string (AuthorizeRequest.code_challenge_method req))
                        (string_or_undefined (AuthorizeRequest.state req))
                        (string_or_undefined (AuthorizeRequest.scope req))))
                  (fun _ => ret (sendError "server_error" "Internal server error" 400)) w2
              else (Return (Render "login" None (AuthorizeRequest.originalUrl req)), w2)
          | (Throw e, w2) =>
              (Return (sendError "server_error" "Internal server error" 400), w2)
          end
      | (Throw e, w1) => (Return (sendError "server_error" "Internal server error" 400), w1)
      end
  end.
Proof.
  unfold handleAuthorize.
  destruct (validateAuthorizeParams req); [reflexivity|]. cbv zeta.
  unfold try_catch at 1. unfold bind at 1.
  destruct (isValidClientId _ _ w) as [[[|]|e] w1]; try reflexivity.
  cbn [negb]. unfold bind at 1.
  destruct (checkRedirectUri _ _ _ w1) as [[[|]|e] w2]; try reflexivity.
  cbn [negb]. destruct (AuthorizeRequest.session_authenticated req); [|reflexivity].
  unfold try_catch. now destruct (approveAndRedirect _ _ _ w2) as [[r|e] w3].
Qed.

(** C6.  The parameter checks of the authorize flow are the six of the
    document in its order (client_id, redirect_uri, response_type,
    code_challenge, code_challenge_method, code_challenge format), the
    first failing one decides, and its failure is answered at once, the
    store untouched, with HTTP 400 and a JSON body of [error] and
    [error_description] whose code is [invalid_request] or
    [unsupported_response_type]; the six (error, description) pairs are
    pairwise different. *)
Theorem authorize_validation_order config now req w :
  validateAuthorizeParams req = first_failing (authorize_checks req)
  /\ (forall response,
        validateAuthorizeParams req = Some response ->
        handleAuthorize URL_parse config now req w = (Return response, w)
        /\ exists e d,
             response = Json 400 [("error", JString e); ("error_description", JString d)]
             /\ (e = "invalid_request" \/ e = "unsupported_response_type"))
  /\ NoDup (map snd (authorize_checks req)).
Proof.
  split; [apply validateAuthorizeParams_first_failing|]. split.
  - intros response V. split; [now rewrite handleAuthorize_eq, V|].
    rewrite validateAuthorizeParams_first_failing in V.
    unfold first_failing in V.
    destruct (find fst (authorize_checks req)) as [[b [e d]]|] eqn:F; [|discriminate V].
    injection V as <-. apply find_some in F. destruct F as (Hin & _).
    exists e, d. split; [reflexivity|].
    unfold authorize_checks in Hin. simpl in Hin.
    repeat (destruct Hin as [Hin|Hin]; [injection Hin as _ <- _; tauto|]).
    contradiction.
  - unfold authorize_checks. cbn [map snd].
    repeat (constructor; [cbv; intuition discriminate|]). constructor.
Qed.

End AuthorizeFacts.

(** A request without a redirect_uri and with a wrong response_type: the
    redirect_uri check, which comes first, decides. *)
Lemma authorize_validation_example :
  handleAuthorize plain_URL_parse example_config 5000
    (AuthorizeRequest.mk (JString "example-client-id") JUndefined (JString "token")
       (JString example_challenge) (JString "S256") JUndefined JUndefined true
       "/oauth/authorize") empty_world
  = (Return (sendError "invalid_request" "Missing or invalid redirect_uri" 400), empty_world).
Proof.
  exact (proj1 (proj1 (proj2 (authorize_validation_order plain_URL_parse example_config 5000
                                (AuthorizeRequest.mk (JString "example-client-id") JUndefined
                                   (JString "token") (JString example_challenge)
                                   (JString "S256") JUndefined JUndefined true
                                   "/oauth/authorize") empty_world))
                 _ eq_refl)).
Defined.

Section RedirectFacts.

Variable URL_parse : string -> option URL.

(** C5.  For a request that passed the parameter checks and whose
    client_id is known: if client_id is the static client id, the
    redirect_uri is accepted exactly when one of the configured prefixes
    (by default "https://claude.ai/" and "http://localhost:") is a prefix
    of it; otherwise exactly when the client's record, as looked up for
    this check, lists it in its redirect_uris; a redirect_uri that is not
    accepted is answered with [invalid_request] ("Unauthorized
    redirect_uri"), and an accepted one never is. *)
Theorem redirect_uri_validation config now req w w1 :
  validateAuthorizeParams req = None ->
  isValidClientId (as_string (AuthorizeRequest.client_id req)) (OAuthConfig.clientId config) w
  = (Return true, w1) ->
  (as_string (AuthorizeRequest.client_id req) = OAuthConfig.clientId config ->
     ((exists prefix,
         In prefix (match OAuthConfig.allowedRedirectPrefixes config with
                    | Some l => l
                    | None => ["https://claude.ai/"; "http://localhost:"]
                    end)
         /\ String.prefix prefix (as_string (AuthorizeRequest.redirect_uri req)) = true) ->
      fst (handleAuthorize URL_parse config now req w)
      <> Return (sendError "invalid_request" "Unauthorized redirect_uri" 400))
     /\ (~ (exists prefix,
              In prefix (match OAuthConfig.allowedRedirectPrefixes config with
                         | Some l => l
                         | None => ["https://claude.ai/"; "http://localhost:"]
                         end)
              /\ String.prefix prefix (as_string (AuthorizeRequest.redirect_uri req)) = true) ->
         handleAuthorize URL_parse config now req w
         = (Return (sendError "invalid_request" "Unauthorized redirect_uri" 400), w1)))
  /\ (as_string (AuthorizeRequest.client_id req) <> OAuthConfig.clientId config ->
      ((exists client,
          looked_up (as_string (AuthorizeRequest.client_id req)) w1 = Some client
          /\ In (as_string (AuthorizeRequest.redirect_uri req))
                (RegisteredClient.redirect_uris client)) ->
       fst (handleAuthorize URL_parse config now req w)
       <> Return (sendError "invalid_request" "Unauthorized redirect_uri" 400))
      /\ (~ (exists client,
               looked_up (as_string (AuthorizeRequest.client_id req)) w1 = Some client
               /\ In (as_string (AuthorizeRequest.redirect_uri req))
                     (RegisteredClient.redirect_uris client)) ->
          handleAuthorize URL_parse config now req w
          = (Return (sendError "invalid_request" "Unauthorized redirect_uri" 400),
             after_query (SelectClient (as_string (AuthorizeRequest.client_id req))) w1))).
Proof.
  intros V K.
  set (client_id := as_string (AuthorizeRequest.client_id req)) in *.
  set (redirect_uri := as_string (AuthorizeRequest.redirect_uri req)) in *.
  assert (Acc : forall w2,
             checkRedirectUri config client_id redirect_uri w1 = (Return true, w2) ->
             fst (handleAuthorize URL_parse config now req w)
             <> Return (sendError "invalid_request" "Unauthorized redirect_uri" 400)).
  { intros w2 C. rewrite handleAuthorize_eq, V. cbv zeta. fold client_id redirect_uri.
    rewrite K, C. destruct (AuthorizeRequest.session_authenticated req).
    - destruct (approveAndRedirect_response URL_parse now
                  (AuthorizationRequest.mk client_id redirect_uri
                     (as_string (AuthorizeRequest.response_type req))
                     (as_string (AuthorizeRequest.code_challenge req))
                     (as_string (AuthorizeRequest.code_challenge_method req))
                     (string_or_undefined (AuthorizeRequest.state req))
                     (string_or_undefined (AuthorizeRequest.scope req))) w2)
        as (r & w3 & -> & [(u & ->)| ->]); simpl; discriminate.
    - simpl. discriminate. }
  assert (Rej : forall w2,
             checkRedirectUri config client_id redirect_uri w1 = (Return false, w2) ->
             handleAuthorize URL_parse config now req w
             = (Return (sendError "invalid_request" "Unauthorized redirect_uri" 400), w2)).
  { intros w2 C. rewrite handleAuthorize_eq, V. cbv zeta. fold client_id redirect_uri.
    now rewrite K, C. }
  split; intros S.
  - assert (C : checkRedirectUri config client_id redirect_uri w1
                = (Return (isValidRedirectUri redirect_uri
                             (match OAuthConfig.allowedRedirectPrefixes config with
                              | Some l => l
                              | None => default_allowedPrefixes
                              end)), w1)).
    { rewrite checkRedirectUri_eq. apply String.eqb_eq in S. now rewrite S. }
    split; intros H.
    + apply isValidRedirectUri_true in H. unfold default_allowedPrefixes in C.
      rewrite H in C. now apply Acc with w1.
    + apply Rej. rewrite C. f_equal. f_equal.
      destruct (isValidRedirectUri _ _) eqn:E; [|reflexivity].
      apply isValidRedirectUri_true in E. contradiction.
  - assert (C : checkRedirectUri config client_id redirect_uri w1
                = (Return (match looked_up client_id w1 with
                           | Some c => includes (RegisteredClient.redirect_uris c) redirect_uri
                           | None => false
                           end), after_query (SelectClient client_id) w1)).
    { rewrite checkRedirectUri_eq. apply String.eqb_neq in S. now rewrite S. }
    split; intros H.
    + destruct H as (c & L & Hin). rewrite L in C. apply includes_true in Hin.
      rewrite Hin in C. now apply Acc with (after_query (SelectClient client_id) w1).
    + apply Rej. rewrite C. f_equal. f_equal.
      destruct (looked_up client_id w1) as [c|]; [|reflexivity].
      destruct (includes _ _) eqn:E; [|reflexivity].
      apply includes_true in E. exfalso. apply H. eauto.
Qed.

Lemma searchParams_getAll_set name value u :
  searchParams_getAll name (searchParams_set name value u) = [value].
Proof.
  unfold searchParams_getAll, searchParams_set. cbn [searchParams].
  induction (searchParams u) as [|[n v] ps IH]; simpl.
  - now rewrite String.eqb_refl.
  - destruct (String.eqb_spec n name) as [->|N]; simpl.
    + rewrite String.eqb_refl. simpl. f_equal.
      unfold searchParams_delete. clear IH.
      induction ps as [|[n' v'] ps IH]; simpl; [reflexivity|].
      destruct (String.eqb_spec n' name) as [->|N']; simpl; [assumption|].
      apply String.eqb_neq in N'. now rewrite N'.
    + apply String.eqb_neq in N. now rewrite N.
Qed.

Lemma searchParams_getAll_set_other name name' value u :
  name' <> name ->
  searchParams_getAll name' (searchParams_set name value u) = searchParams_getAll name' u.
Proof.
  intros D. unfold searchParams_getAll, searchParams_set. cbn [searchParams].
  induction (searchParams u) as [|[n v] ps IH]; simpl.
  - apply not_eq_sym, String.eqb_neq in D. now rewrite D.
  - destruct (String.eqb_spec n name) as [->|N]; simpl.
    + apply not_eq_sym in D. apply String.eqb_neq in D. rewrite D. clear IH.
      unfold searchParams_delete.
      induction ps as [|[n' v'] ps IH]; simpl; [reflexivity|].
      destruct (String.eqb_spec n' name) as [->|N']; simpl.
      * now rewrite D.
      * destruct (n' =? name')%string; simpl; now rewrite IH.
    + destruct (n =? name')%string; simpl; now rewrite IH.
Qed.

(** With the code stored and the redirect_uri parsed, [approveAndRedirect]
    redirects to that URL with [code] set, and [state] set when it is a
    non-empty string. *)
Lemma approveAndRedirect_location now authReq w code w1 u :
  storeAuthCode now (AuthorizationRequest.client_id authReq)
    (AuthorizationRequest.redirect_uri authReq)
    (AuthorizationRequest.code_challenge authReq)
    (AuthorizationRequest.code_challenge_method authReq)
    (AuthorizationRequest.scope authReq) w = (Return code, w1) ->
  URL_parse (AuthorizationRequest.redirect_uri authReq) = Some u ->
  exists location,
    approveAndRedirect URL_parse now authReq w = (Return (Redirect location), w1)
    /\ base location = base u /\ hash location = hash u
    /\ searchParams_getAll "code" location = [code]
    /\ (forall s, AuthorizationRequest.state authReq = Some s -> str_truthy s = true ->
                  searchParams_getAll "state" location = [s])
    /\ (opt_truthy (AuthorizationRequest.state authReq) = false ->
        searchParams_getAll "state" location = searchParams_getAll "state" u)
    /\ (forall name, name <> "code" -> name <> "state" ->
                     searchParams_getAll name location = searchParams_getAll name u).
Proof.
  intros S P. unfold approveAndRedirect, bind. rewrite S, P.
  destruct (AuthorizationRequest.state authReq) as [s|] eqn:St; cbn [opt_truthy].
  - destruct (str_truthy s) eqn:T.
    + eexists. split; [reflexivity|]. repeat split.
      * rewrite searchParams_getAll_set_other by discriminate.
        apply searchParams_getAll_set.
      * intros s' [= <-] _. apply searchParams_getAll_set.
      * discriminate.
      * intros name N1 N2. now rewrite !searchParams_getAll_set_other.
    + eexists. split; [reflexivity|]. repeat split.
      * apply searchParams_getAll_set.
      * intros s' [= <-] T'. congruence.
      * intros _. now rewrite searchParams_getAll_set_other by discriminate.
      * intros name N1 N2. now rewrite searchParams_getAll_set_other.
  - eexists. split; [reflexivity|]. repeat split.
    + apply searchParams_getAll_set.
    + discriminate.
    + intros _. now rewrite searchParams_getAll_set_other by discriminate.
    + intros name N1 N2. now rewrite searchParams_getAll_set_other.
Qed.

(** C9, as the code has it.  For a request that passed the checks of the
    authorize flow in an authenticated session: when the code is stored
    and the redirect_uri parses as a URL, the user agent is redirected to
    that URL with its query changed in two places only.  [code] is set to
    the issued code; and when the request's [state] is a non-empty
    string, [state] is set to that very string.  A [state] that is
    absent, empty or not a string leaves the query's [state] as the
    redirect_uri had it. *)
Theorem redirect_carries_code_and_state config now req w w1 w2 code w3 u :
  validateAuthorizeParams req = None ->
  isValidClientId (as_string (AuthorizeRequest.client_id req)) (OAuthConfig.clientId config) w
  = (Return true, w1) ->
  checkRedirectUri config (as_string (AuthorizeRequest.client_id req))
    (as_string (AuthorizeRequest.redirect_uri req)) w1 = (Return true, w2) ->
  AuthorizeRequest.session_authenticated req = true ->
  storeAuthCode now (as_string (AuthorizeRequest.client_id req))
    (as_string (AuthorizeRequest.redirect_uri req))
    (as_string (AuthorizeRequest.code_challenge req))
    (as_string (AuthorizeRequest.code_challenge_method req))
    (string_or_undefined (AuthorizeRequest.scope req)) w2 = (Return code, w3) ->
  URL_parse (as_string (AuthorizeRequest.redirect_uri req)) = Some u ->
  exists location,
    handleAuthorize URL_parse config now req w = (Return (Redirect location), w3)
    /\ base location = base u /\ hash location = hash u
    /\ searchParams_getAll "code" location = [code]
    /\ (forall s, AuthorizeRequest.state req = JString s -> str_truthy s = true ->
                  searchParams_getAll "state" location = [s])
    /\ (present_string (AuthorizeRequest.state req) = false ->
        searchParams_getAll "state" location = searchParams_getAll "state" u)
    /\ (forall name, name <> "code" -> name <> "state" ->
                     searchParams_getAll name location = searchParams_getAll name u).
Proof.
  intros V K C A S P.
  destruct (approveAndRedirect_location now
              (AuthorizationRequest.mk (as_string (AuthorizeRequest.client_id req))
                 (as_string (AuthorizeRequest.redirect_uri req))
                 (as_string (AuthorizeRequest.response_type req))
                 (as_string (AuthorizeRequest.code_challenge req))
                 (as_string (AuthorizeRequest.code_challenge_method req))
                 (string_or_undefined (AuthorizeRequest.state req))
                 (string_or_undefined (AuthorizeRequest.scope req))) w2 code w3 u S P)
    as (location & E & Hb & Hh & Hc & Hs & Hn & Ho).
  exists location. rewrite handleAuthorize_eq, V. cbv zeta. rewrite K, C, A.
  unfold try_catch. rewrite E. cbn [AuthorizationRequest.state] in Hs, Hn.
  split; [reflexivity|]. split; [exact Hb|]. split; [exact Hh|]. split; [exact Hc|].
  split; [|split; [|exact Ho]].
  - intros s St T. apply Hs; [now rewrite St|exact T].
  - intros St. apply Hn. now destruct (AuthorizeRequest.state req).
Qed.

End RedirectFacts.

(** The static client of the sample configuration: a redirect_uri under
    "https://claude.ai/" is accepted though registered nowhere, one under
    another origin is refused. *)
Lemma redirect_uri_validation_example :
  handleAuthorize plain_URL_parse example_config 5000
    (AuthorizeRequest.mk (JString "example-client-id") (JString "https://claude.ai.evil.example/cb")
       (JString "code") (JString example_challenge) (JString "S256") JUndefined JUndefined
       true "/oauth/authorize") empty_world
  = (Return (sendError "invalid_request" "Unauthorized redirect_uri" 400), empty_world)
  /\ fst (handleAuthorize plain_URL_parse example_config 5000
            (example_authorize_request JUndefined) empty_world)
     <> Return (sendError "invalid_request" "Unauthorized redirect_uri" 400).
Proof.
  split.
  - apply (proj1 (redirect_uri_validation plain_URL_parse example_config 5000
                    (AuthorizeRequest.mk (JString "example-client-id")
                       (JString "https://claude.ai.evil.example/cb")
                       (JString "code") (JString example_challenge) (JString "S256")
                       JUndefined JUndefined true "/oauth/authorize")
                    empty_world empty_world eq_refl eq_refl) eq_refl).
    intros (prefix & [<-|[<-|[]]] & H); discriminate H.
  - apply (proj1 (redirect_uri_validation plain_URL_parse example_config 5000
                    (example_authorize_request JUndefined) empty_world empty_world
                    eq_refl eq_refl) eq_refl).
    exists "https://claude.ai/". split; [now left|reflexivity].
Defined.

(** C9 as stated fails for a request whose [state] is the empty string,
    and for one that repeats the parameter: both supplied [state], and
    the redirect carries the code alone. *)
Lemma supplied_state_not_echoed :
  fst (handleAuthorize plain_URL_parse example_config 5000
         (example_authorize_request (JString EmptyString)) empty_world)
  = Return (Redirect (mkURL "https:" "claude.ai" "https://claude.ai/callback"
                        [("code", "AAECAwQFBgcICQoLDA0ODxAREhMUFRYXGBkaGxwdHh8")]
                        EmptyString))
  /\ fst (handleAuthorize plain_URL_parse example_config 5000
            (example_authorize_request (JArray [JString "a"; JString "b"])) empty_world)
     = Return (Redirect (mkURL "https:" "claude.ai" "https://claude.ai/callback"
                           [("code", "AAECAwQFBgcICQoLDA0ODxAREhMUFRYXGBkaGxwdHh8")]
                           EmptyString)).
Proof. split; vm_compute; reflexivity. Qed.

(** The sample request with [state=xyz]: the redirect carries the code
    and that state. *)
Lemma redirect_carries_code_and_state_example :
  exists location w3,
    handleAuthorize plain_URL_parse example_config 5000
      (example_authorize_request (JString "xyz")) empty_world
    = (Return (Redirect location), w3)
    /\ searchParams_getAll "code" location = ["AAECAwQFBgcICQoLDA0ODxAREhMUFRYXGBkaGxwdHh8"]
    /\ searchParams_getAll "state" location = ["xyz"].
Proof.
  edestruct (redirect_carries_code_and_state plain_URL_parse example_config 5000
               (example_authorize_request (JString "xyz")) empty_world)
    as (location & E & _ & _ & C & S & _).
  { reflexivity. }
  { vm_compute. reflexivity. }
  { vm_compute. reflexivity. }
  { reflexivity. }
  { vm_compute. reflexivity. }
  { vm_compute. reflexivity. }
  exists location. eexists. split; [exact E|]. split; [exact C|].
  apply (S "xyz"); reflexivity.
Defined.

(* ===================================================================== *)
(** * Dynamic client registration                                          *)
(* ===================================================================== *)

Lemma base64url_length_32 bs :
  List.length bs = 32%nat -> String.length (Node.base64url bs) = 43%nat.
Proof.
  intros H.
  do 32 (destruct bs as [|? bs]; [discriminate H|]).
  destruct bs; [reflexivity|discriminate H].
Qed.

(** A served INSERT stores the client together with a fresh secret,
    whatever its auth method; a rejected one makes [registerClient]
    throw. *)
Lemma registerClient_eq now clientName redirectUris tokenEndpointAuthMethod grantTypes
      responseTypes scope w :
  registerClient now clientName redirectUris tokenEndpointAuthMethod grantTypes
    responseTypes scope w =
  let client :=
    RegisteredClient.mk ("mcp-client-" ++ Node.base64url (next_bytes 0 16 w))%string
      (Node.base64url (next_bytes 16 32 w)) clientName redirectUris
      tokenEndpointAuthMethod grantTypes responseTypes scope now in
  let w1 := after_query (InsertClient client) (set_drawn (drawn w + 16 + 32) w) in
  if hd false (faults w) then (Throw "Failed to register OAuth client", w1)
  else (Return client, set_oauth_clients (oauth_clients w ++ [client]) w1).
Proof.
  unfold registerClient, generateClientId, generateClientSecret, bind, try_catch, ret, throw.
  rewrite !randomBytes_eq. cbv zeta.
  replace (next_bytes 0 32 (set_drawn (drawn w + 16) w)) with (next_bytes 16 32 w)
    by (unfold next_bytes; simpl; now rewrite Nat.add_0_r).
  cbn [drawn set_drawn].
  destruct (hd false (faults w)) eqn:F.
  - rewrite pool_query_rejected by exact F. reflexivity.
  - rewrite pool_query_served by exact F. reflexivity.
Qed.

Section RegisterFacts.

Variable URL_parse : string -> option URL.

Lemma validateRedirectUris_error redirectUris response :
  validateRedirectUris URL_parse redirectUris = Some response ->
  exists d, response = sendError "invalid_redirect_uri" d 400.
Proof.
  induction redirectUris as [|uri rest IH]; simpl; [discriminate|].
  destruct (URL_parse uri) as [url|]; [|intros [= <-]; eauto].
  destruct (negb _ && negb _); [intros [= <-]; eauto|exact IH].
Qed.

Lemma validateSupported_error what supported values response :
  validateSupported what supported values = Some response ->
  exists d, response = sendError "invalid_client_metadata" d 400.
Proof.
  induction values as [|v rest IH]; simpl; [discriminate|].
  destruct (negb (includes supported v)); [intros [= <-]; eauto|exact IH].
Qed.

(** C8, as the code has it.  Every client that [registerClient] stores --
    whatever its token endpoint auth method, "none" included -- has a
    clientSecret that is the base64url encoding of 32 random bytes (43
    characters), stored with the client; and every 201 response of the
    registration endpoint carries that secret as [client_secret]. *)
Theorem registered_client_has_secret now w :
  (forall clientName redirectUris tokenEndpointAuthMethod grantTypes responseTypes scope,
     hd false (faults w) = false ->
     exists client w',
       registerClient now clientName redirectUris tokenEndpointAuthMethod grantTypes
         responseTypes scope w = (Return client, w')
       /\ RegisteredClient.token_endpoint_auth_method client = tokenEndpointAuthMethod
       /\ RegisteredClient.client_secret client = Node.base64url (next_bytes 16 32 w)
       /\ List.length (next_bytes 16 32 w) = 32%nat
       /\ Forall Node.is_byte (next_bytes 16 32 w)
       /\ String.length (RegisteredClient.client_secret client) = 43%nat
       /\ oauth_clients w' = oauth_clients w ++ [client])
  /\ (forall registrationRequest body w',
        handleRegister URL_parse now registrationRequest w = (Return (Json 201 body), w') ->
        json_get "client_secret" body = Some (JString (Node.base64url (next_bytes 16 32 w)))
        /\ json_get "token_endpoint_auth_method" body
           = Some (JString (opt_or (ClientRegistrationRequest.token_endpoint_auth_method
                                      registrationRequest) "client_secret_basic"))).
Proof.
  split.
  - intros clientName redirectUris method grantTypes responseTypes scope F.
    rewrite registerClient_eq. cbv zeta. rewrite F. eexists _, _.
    split; [reflexivity|]. cbn [RegisteredClient.token_endpoint_auth_method
                                  RegisteredClient.client_secret].
    split; [reflexivity|]. split; [reflexivity|].
    split; [apply next_bytes_length|]. split; [apply next_bytes_is_byte|].
    split; [apply base64url_length_32, next_bytes_length|reflexivity].
  - intros registrationRequest body w' H.
    unfold handleRegister, try_catch in H.
    repeat match type of H with
           | context [if ?b then _ else _] => destruct b; [discriminate H|]
           | context [match validateRedirectUris ?x ?l with _ => _ end] =>
               let V := fresh "V" in
               destruct (validateRedirectUris x l) as [r|] eqn:V;
               [apply validateRedirectUris_error in V; destruct V as (d & ->);
                discriminate H|]
           | context [match validateSupported ?a ?b ?c with _ => _ end] =>
               let V := fresh "V" in
               destruct (validateSupported a b c) as [r|] eqn:V;
               [apply validateSupported_error in V; destruct V as (d & ->);
                discriminate H|]
           end.
    unfold bind in H. rewrite registerClient_eq in H. cbv zeta in H.
    destruct (hd false (faults w)); [discriminate H|].
    injection H as <- _.
    cbn [RegisteredClient.client_id RegisteredClient.client_secret
         RegisteredClient.client_name RegisteredClient.redirect_uris
         RegisteredClient.token_endpoint_auth_method RegisteredClient.grant_types
         RegisteredClient.response_types RegisteredClient.scope RegisteredClient.createdAt].
    split.
    + reflexivity.
    + unfold json_object, json_get.
      destruct (ClientRegistrationRequest.client_name registrationRequest);
        destruct (ClientRegistrationRequest.scope registrationRequest); reflexivity.
Qed.

End RegisterFacts.

(** C8 as stated fails for a public client: registered with
    [token_endpoint_auth_method] "none", it is stored with a secret and
    the 201 response carries it. *)
Lemma public_client_is_given_a_secret :
  fst (handleRegister plain_URL_parse 5000 example_registration empty_world)
  = Return (Json 201
              [("client_id", JString "mcp-client-AAECAwQFBgcICQoLDA0ODw");
               ("client_secret", JString "EBESExQVFhcYGRobHB0eHyAhIiMkJSYnKCkqKywtLi8");
               ("client_id_issued_at", JNumber 5);
               ("client_secret_expires_at", JNumber 0);
               ("redirect_uris", JArray [JString "http://localhost:9999/cb"]);
               ("token_endpoint_auth_method", JString "none");
               ("grant_types", JArray [JString "authorization_code"]);
               ("response_types", JArray [JString "code"])])
  /\ map (fun c => (RegisteredClient.token_endpoint_auth_method c,
                    RegisteredClient.client_secret c))
         (oauth_clients (snd (handleRegister plain_URL_parse 5000 example_registration
                                empty_world)))
     = [("none", "EBESExQVFhcYGRobHB0eHyAhIiMkJSYnKCkqKywtLi8")].
Proof. split; vm_compute; reflexivity. Qed.

(** The same registration through the theorem: the response of the
    public client carries the secret drawn for it. *)
Lemma registered_client_has_secret_example :
  json_get "client_secret"
    [("client_id", JString "mcp-client-AAECAwQFBgcICQoLDA0ODw");
     ("client_secret", JString "EBESExQVFhcYGRobHB0eHyAhIiMkJSYnKCkqKywtLi8");
     ("client_id_issued_at", JNumber 5);
     ("client_secret_expires_at", JNumber 0);
     ("redirect_uris", JArray [JString "http://localhost:9999/cb"]);
     ("token_endpoint_auth_method", JString "none");
     ("grant_types", JArray [JString "authorization_code"]);
     ("response_types", JArray [JString "code"])]
  = Some (JString (Node.base64url (next_bytes 16 32 empty_world))).
Proof.
  eapply (proj2 (registered_client_has_secret plain_URL_parse 5000 empty_world)
            example_registration).
  vm_compute. reflexivity.
Defined.

(* ===================================================================== *)
(** * Stored codes always name their client                                *)
(* ===================================================================== *)

(** The fallback of the token endpoint adopts the clientId of the stored
    code when it is a non-empty string.  It always is: the authorize flow
    stores a code only for a client_id that passed its first check, and
    the other endpoints add no code. *)

Lemma validateAuthorizeParams_client_id req :
  validateAuthorizeParams req = None ->
  present_string (AuthorizeRequest.client_id req) = true.
Proof.
  unfold validateAuthorizeParams. rewrite missing_or_not_string_present.
  destruct (present_string (AuthorizeRequest.client_id req)); [reflexivity|discriminate].
Qed.

(** The token endpoint never changes the code table itself: the DELETE it
    starts is in flight when it answers. *)
Lemma handleToken_codes config now req body w :
  authorization_codes (snd (handleToken config now req body w)) = authorization_codes w.
Proof.
  destruct body as [body|]; [|reflexivity].
  rewrite handleToken_eq.
  destruct (validateTokenRequest_returns config now body w) as (r & w1 & -> & (T & _) & _).
  rewrite <- T. destruct r as [resp|grant]; [reflexivity|].
  set (code := TokenGrant.code grant).
  destruct (redeemCode_cases now code (TokenGrant.redirect_uri grant)
              (TokenGrant.code_verifier grant) (TokenGrant.client_id grant) w1)
    as [F|[(sc & F & C)|[(sc & F & C & U)|[(sc & F & C & U & P)|(sc & F & C & U & P)]]]].
  - erewrite redeemCode_absent by eauto. reflexivity.
  - erewrite redeemCode_client_mismatch by eauto. reflexivity.
  - erewrite redeemCode_redirect_mismatch by eauto. reflexivity.
  - erewrite redeemCode_pkce_failure by eauto.
    destruct (logAuthEvent_returns "token_failure" req false (Some (TokenGrant.client_id grant))
                (Some "PKCE verification failed")
                (delete_started code (after_query (SelectAuthCode code) w1)))
      as (w' & -> & T' & _).
    cbn [snd]. rewrite T'. reflexivity.
  - erewrite redeemCode_success by eauto.
    destruct (logAuthEvent_returns "token_exchange" req true (Some (TokenGrant.client_id grant))
                None (delete_started code (after_query (SelectAuthCode code) w1)))
      as (w' & -> & T' & _).
    cbn [snd]. rewrite T'. reflexivity.
Qed.

Lemma handleToken_rows config now req body w row :
  In row (authorization_codes (snd (handleToken config now req body w))) ->
  In row (authorization_codes w).
Proof. now rewrite handleToken_codes. Qed.

Lemma handleToken_keeps_client_ids config now req body w :
  client_ids_present w -> client_ids_present (snd (handleToken config now req body w)).
Proof. intros I row H. apply I. eapply handleToken_rows; eauto. Qed.

Lemma handleAuthorize_keeps_client_ids URL_parse config now req w :
  client_ids_present w ->
  client_ids_present (snd (handleAuthorize URL_parse config now req w)).
Proof.
  intros I. rewrite handleAuthorize_eq.
  destruct (validateAuthorizeParams req) eqn:V; [exact I|]. cbv zeta.
  apply validateAuthorizeParams_client_id, present_string_as_string in V.
  destruct V as (_ & V).
  rewrite isValidClientId_eq.
  set (client_id := as_string (AuthorizeRequest.client_id req)) in *.
  assert (K : forall w1, authorization_codes w1 = authorization_codes w ->
              client_ids_present
                (snd (match checkRedirectUri config client_id
                              (as_string (AuthorizeRequest.redirect_uri req)) w1 with
                      | (Return true, w2) =>
                          if AuthorizeRequest.session_authenticated req then
                            try_catch
                              (approveAndRedirect URL_parse now
                                 (AuthorizationRequest.mk client_id
                                    (as_string (AuthorizeRequest.redirect_uri req))
                                    (as_string (AuthorizeRequest.response_type req))
                                    (as_string (AuthorizeRequest.code_challenge req))
                                    (as_string (AuthorizeRequest.code_challenge_method req))
                                    (string_or_undefined (AuthorizeRequest.state req))
                                    (string_or_undefined (AuthorizeRequest.scope req))))
                              (fun _ => ret (sendError "server_error" "Internal server error" 400))
                              w2
                          else (Return (Render "login" None (AuthorizeRequest.originalUrl req)), w2)
                      | (Return false, w2) =>
                          (Return (sendError "invalid_request" "Unauthorized redirect_uri" 400), w2)
                      | (Throw e, w2) =>
                          (Return (sendError "server_error" "Internal server error" 400), w2)
                      end))).
  { intros w1 T. rewrite checkRedirectUri_eq.
    assert (I1 : client_ids_present w1) by (intros row; rewrite T; apply I).
    assert (A : forall w2, client_ids_present w2 ->
                client_ids_present
                  (snd (if AuthorizeRequest.session_authenticated req then
                          try_catch
                            (approveAndRedirect URL_parse now
                               (AuthorizationRequest.mk client_id
                                  (as_string (AuthorizeRequest.redirect_uri req))
                                  (as_string (AuthorizeRequest.response_type req))
                                  (as_string (AuthorizeRequest.code_challenge req))
                                  (as_string (AuthorizeRequest.code_challenge_method req))
                                  (string_or_undefined (AuthorizeRequest.state req))
                                  (string_or_undefined (AuthorizeRequest.scope req))))
                            (fun _ => ret (sendError "server_error" "Internal server error" 400))
                            w2
                        else (Return (Render "login" None (AuthorizeRequest.originalUrl req)),
                              w2)))).
    { intros w2 I2. destruct (AuthorizeRequest.session_authenticated req); [|exact I2].
      unfold approveAndRedirect, try_catch, bind. rewrite storeAuthCode_eq. cbv zeta.
      cbn [AuthorizationRequest.client_id AuthorizationRequest.redirect_uri].
      destruct (hd false (faults w2)); [exact I2|].
      assert (I3 : client_ids_present
                     (set_authorization_codes
                        (authorization_codes w2
                         ++ [StoredAuthCode.mk (Node.base64url (next_bytes 0 32 w2)) client_id
                               (as_string (AuthorizeRequest.redirect_uri req))
                               (as_string (AuthorizeRequest.code_challenge req))
                               (as_string (AuthorizeRequest.code_challenge_method req))
                               (string_or_undefined (AuthorizeRequest.scope req))
                               now (now + CODE_EXPIRATION_MS)])
                        (after_query
                           (InsertAuthCode
                              (StoredAuthCode.mk (Node.base64url (next_bytes 0 32 w2)) client_id
                                 (as_string (AuthorizeRequest.redirect_uri req))
                                 (as_string (AuthorizeRequest.code_challenge req))
                                 (as_string (AuthorizeRequest.code_challenge_method req))
                                 (string_or_undefined (AuthorizeRequest.scope req))
                                 now (now + CODE_EXPIRATION_MS)))
                           (set_drawn (drawn w2 + 32) w2)))).
      { intros row H. cbn in H. apply in_app_or in H. destruct H as [H|[<-|[]]];
          [now apply I2|exact V]. }
      destruct (URL_parse (as_string (AuthorizeRequest.redirect_uri req))); exact I3. }
    destruct (client_id =? OAuthConfig.clientId config)%string.
    - destruct (isValidRedirectUri _ _); [now apply A|exact I1].
    - destruct (match looked_up client_id w1 with
                | Some c => includes (RegisteredClient.redirect_uris c)
                              (as_string (AuthorizeRequest.redirect_uri req))
                | None => false
                end); [apply A|]; intros row; apply I1. }
  destruct (client_id =? OAuthConfig.clientId config)%string.
  - now apply K.
  - destruct (looked_up client_id w); [now apply K|exact I].
Qed.

Lemma handleRegister_codes URL_parse now registrationRequest w :
  authorization_codes (snd (handleRegister URL_parse now registrationRequest w))
  = authorization_codes w.
Proof.
  unfold handleRegister, try_catch.
  repeat match goal with
         | |- context [if ?b then _ else _] => destruct b; [reflexivity|]
         | |- context [match validateRedirectUris ?x ?l with _ => _ end] =>
             destruct (validateRedirectUris x l); [reflexivity|]
         | |- context [match validateSupported ?a ?b ?c with _ => _ end] =>
             destruct (validateSupported a b c); [reflexivity|]
         end.
  unfold bind. rewrite registerClient_eq. cbv zeta.
  destruct (hd false (faults w)); reflexivity.
Qed.

Lemma step_keeps_client_ids w w' :
  step w w' -> client_ids_present w -> client_ids_present w'.
Proof.
  intros S I. destruct S.
  - now apply handleAuthorize_keeps_client_ids.
  - now apply handleToken_keeps_client_ids.
  - intros row. rewrite handleRegister_codes. apply I.
  - intros row H. apply I. now apply (settle_tables code w).
  - exact I.
Qed.

(** In every reachable world, every stored code names its client. *)
Lemma reachable_client_ids_present w : reachable w -> client_ids_present w.
Proof.
  induction 1 as [w E|w w' _ IH S].
  - intros row. rewrite E. intros [].
  - eapply step_keeps_client_ids; eauto.
Qed.

(* ===================================================================== *)
(** * The flows on the sample data                                         *)
(* ===================================================================== *)

Example validateCodeVerifier_boundaries :
  map (fun n => validateCodeVerifier (String.concat EmptyString (repeat "a" n)))
      [42; 43; 128; 129]%nat
  = [false; true; true; false]
  /\ validateCodeVerifier (String.concat EmptyString (repeat "a" 42 ++ ["+"])) = false.
Proof. split; vm_compute; reflexivity. Qed.

Example scenario_authorize_redirects :
  fst (handleAuthorize plain_URL_parse example_config 2000 scenario_authorize_request
         scenario_registered)
  = Return (Redirect (mkURL "http:" "localhost" "http://localhost:9999/cb"
                        [("code", "MDEyMzQ1Njc4OTo7PD0-P0BBQkNERUZHSElKS0xNTk8");
                         ("state", "s-1")] EmptyString)).
Proof. vm_compute. reflexivity. Qed.

Example scenario_token_exchange :
  fst (handleToken example_config 3000 example_peer (Some scenario_token_request)
         scenario_authorized)
  = Return (Json 200 [("access_token", JString "example-api-key");
                      ("token_type", JString "Bearer");
                      ("scope", JString "mcp:tools:* mcp:resources:* mcp:prompts:*")])
  /\ in_flight
       (snd (handleToken example_config 3000 example_peer (Some scenario_token_request)
               scenario_authorized))
     = ["MDEyMzQ1Njc4OTo7PD0-P0BBQkNERUZHSElKS0xNTk8"]
  /\ authorization_codes
       (settle "MDEyMzQ1Njc4OTo7PD0-P0BBQkNERUZHSElKS0xNTk8"
          (snd (handleToken example_config 3000 example_peer (Some scenario_token_request)
                  scenario_authorized))) = [].
Proof. repeat split; vm_compute; reflexivity. Qed.

Example scenario_token_after_expiry :
  fst (handleToken example_config 602000 example_peer (Some scenario_token_request)
         scenario_authorized)
  = Return (sendError "invalid_grant" "Invalid or expired authorization code" 400).
Proof. vm_compute. reflexivity. Qed.

Example scenario_token_without_body :
  handleToken example_config 3000 example_peer None scenario_authorized
  = (Return (sendError "server_error" "Internal server error" 400), scenario_authorized).
Proof. reflexivity. Qed.

(* ===================================================================== *)
(** * Further properties: formats                                          *)
(* ===================================================================== *)

Lemma b64_char_unreserved n : 0 <= n < 64 -> unreserved (Node.b64_char n) = true.
Proof.
  intros Hn.
  assert (T : forallb (fun x => unreserved (Node.b64_char x)) Node.sextets = true)
    by (vm_compute; reflexivity).
  rewrite forallb_forall in T. now apply T, sextet_in.
Qed.

Ltac sextet_range :=
  unfold Node.is_byte, Node.sextet1, Node.sextet2, Node.sextet3, Node.sextet4 in *;
  Z.div_mod_to_equations; lia.

Lemma base64url_unreserved_upto (n : nat) : forall bs,
  (List.length bs <= n)%nat -> Forall Node.is_byte bs ->
  all_chars unreserved (Node.base64url bs) = true.
Proof.
  induction n as [|n IH]; intros bs Hlen Hb.
  - destruct bs; [reflexivity|simpl in Hlen; lia].
  - destruct bs as [|a [|b [|c r]]]; [reflexivity| | |];
      repeat match goal with
             | H : Forall _ (_ :: _) |- _ => inversion H; clear H; subst
             end;
      cbn [Node.base64url all_chars];
      rewrite ?b64_char_unreserved by sextet_range; cbn [andb]; try reflexivity.
    apply IH; [simpl in Hlen; lia|assumption].
Qed.

Lemma base64url_unreserved bs :
  Forall Node.is_byte bs -> all_chars unreserved (Node.base64url bs) = true.
Proof. apply (base64url_unreserved_upto (List.length bs)). lia. Qed.

Lemma base64url_32_wellformed bs :
  List.length bs = 32%nat -> Forall Node.is_byte bs ->
  String.length (Node.base64url bs) = 43%nat
  /\ validChars_test (Node.base64url bs) = true
  /\ validateCodeChallenge (Node.base64url bs) = true.
Proof.
  intros L B. pose proof (base64url_length_32 bs L) as L43.
  assert (T : str_truthy (Node.base64url bs) = true)
    by (apply str_truthy_length; lia).
  assert (V : validChars_test (Node.base64url bs) = true).
  { unfold validChars_test. now rewrite T, base64url_unreserved. }
  split; [exact L43|]. split; [exact V|].
  unfold validateCodeChallenge. rewrite T, L43, V. reflexivity.
Qed.

(** X1.  The S256 challenge of any verifier is a well-formed
    code_challenge (43 characters of the unreserved set), so whatever
    [verifyPKCE] accepts as challenge passes [validateCodeChallenge]. *)
Theorem S256_challenge_is_wellformed (verifier : string) :
  String.length (S256_challenge verifier) = 43%nat
  /\ validateCodeChallenge (S256_challenge verifier) = true
  /\ (forall challenge, verifyPKCE verifier challenge = true ->
                        validateCodeChallenge challenge = true).
Proof.
  destruct (base64url_32_wellformed (Node.sha256 (Node.bytes_of_string verifier))
              (sha256_length _) (sha256_is_bytes _)) as (L & _ & V).
  split; [exact L|]. split; [exact V|].
  intros challenge E. apply verifyPKCE_true_iff in E. destruct E as (_ & _ & <-). exact V.
Qed.

Lemma unreserved_alphabet_spec a :
  unreserved a = existsb (Ascii.eqb a) (list_ascii_of_string unreserved_alphabet).
Proof. destruct a as [[] [] [] [] [] [] [] []]; vm_compute; reflexivity. Qed.

Lemma all_chars_Forall p s :
  all_chars p s = true <-> forall a, In a (list_ascii_of_string s) -> p a = true.
Proof.
  induction s as [|c s IH]; simpl.
  - split; [intros _ a []|reflexivity].
  - rewrite andb_true_iff, IH. split.
    + intros (Hc & Hs) a [<-|H]; auto.
    + intros H. split; [apply H; now left|intros a Ha; apply H; now right].
Qed.

(** X2.  [validateCodeVerifier] accepts exactly the strings of 43 to 128
    characters all taken from the sixty-six of A-Z, a-z, 0-9, "-", ".",
    "_" and "~", and [validateCodeChallenge] decides the same. *)
Theorem validateCodeVerifier_accepts_exactly (s : string) :
  (validateCodeVerifier s = true
   <-> (43 <= String.length s <= 128)%nat
       /\ forall a, In a (list_ascii_of_string s) ->
                    In a (list_ascii_of_string unreserved_alphabet))
  /\ validateCodeChallenge s = validateCodeVerifier s.
Proof.
  split; [|reflexivity].
  unfold validateCodeVerifier, validChars_test.
  assert (A : all_chars unreserved s = true
              <-> forall a, In a (list_ascii_of_string s) ->
                            In a (list_ascii_of_string unreserved_alphabet)).
  { rewrite all_chars_Forall. split; intros H a Ha; specialize (H a Ha).
    - rewrite unreserved_alphabet_spec in H. apply existsb_exists in H.
      destruct H as (x & Hx & E). apply Ascii.eqb_eq in E. now subst.
    - rewrite unreserved_alphabet_spec. apply existsb_exists. exists a.
      split; [assumption|apply Ascii.eqb_refl]. }
  rewrite <- A. clear A.
  destruct (str_truthy s) eqn:T; cbn [negb andb].
  - destruct (Z.ltb_spec (Z.of_nat (String.length s)) 43);
      destruct (Z.gtb_spec (Z.of_nat (String.length s)) 128); cbn [orb];
      split; try discriminate; try (intros (? & ?); lia); try tauto.
    intros H'. split; [lia|assumption].
  - split; [discriminate|]. intros ((H & _) & _).
    destruct s; [simpl in H; lia|discriminate T].
Qed.

(** X3.  [generateAuthCode] draws 32 bytes and returns a code of 43
    characters, all of the unreserved set; two draws give the same code
    only if they drew the same bytes. *)
Theorem generateAuthCode_code (w : World) :
  exists code,
    generateAuthCode w = (Return code, set_drawn (drawn w + 32) w)
    /\ String.length code = 43%nat
    /\ validChars_test code = true
    /\ (forall w', fst (generateAuthCode w') = Return code ->
                   next_bytes 0 32 w' = next_bytes 0 32 w).
Proof.
  unfold generateAuthCode, bind, ret. rewrite randomBytes_eq.
  eexists. split; [reflexivity|].
  destruct (base64url_32_wellformed (next_bytes 0 32 w) (next_bytes_length _ _ _)
              (next_bytes_is_byte _ _ _)) as (L & V & _).
  split; [exact L|]. split; [exact V|].
  intros w'. rewrite randomBytes_eq. cbn [fst]. intros E.
  assert (E' : Node.base64url (next_bytes 0 32 w') = Node.base64url (next_bytes 0 32 w))
    by congruence.
  apply base64url_inj in E'; auto using next_bytes_is_byte.
Qed.

(* ===================================================================== *)
(** * Further properties: the code store and the client registry           *)
(* ===================================================================== *)

Lemma filter_app_absent {A} (f : A -> bool) l x :
  (forall y, In y l -> f y = false) -> f x = true -> filter f (l ++ [x]) = [x].
Proof.
  intros H Hx. rewrite filter_app. simpl. rewrite Hx.
  replace (filter f l) with (@nil A); [reflexivity|].
  symmetry. induction l as [|y l IH]; [reflexivity|]. simpl.
  rewrite (H y) by now left. apply IH. intros z Hz. apply H. now right.
Qed.

(** X4.  Store, then fetch.  A code that [storeAuthCode] has stored at
    time [now], in a table that did not hold this code, is returned by
    [getAuthCode] at every time before [now] + 10 minutes (the query
    being served), with the client, redirect URI, challenge, method and
    scope it was stored with. *)
Theorem stored_code_is_fetched now clientId redirectUri codeChallenge codeChallengeMethod
        scope w code w1 now' :
  storeAuthCode now clientId redirectUri codeChallenge codeChallengeMethod scope w
  = (Return code, w1) ->
  code_absent code w ->
  now' < now + 10 * 60 * 1000 ->
  hd false (faults w1) = false ->
  exists sc,
    getAuthCode now' code w1 = (Return (Some sc), after_query (SelectAuthCode code) w1)
    /\ StoredAuthCode.code sc = code
    /\ StoredAuthCode.clientId sc = clientId
    /\ StoredAuthCode.redirectUri sc = redirectUri
    /\ StoredAuthCode.codeChallenge sc = codeChallenge
    /\ StoredAuthCode.codeChallengeMethod sc = codeChallengeMethod
    /\ StoredAuthCode.scope sc = scope
    /\ StoredAuthCode.expiresAt sc = now + 10 * 60 * 1000.
Proof.
  intros S A T F. rewrite storeAuthCode_eq in S. cbv zeta in S.
  destruct (hd false (faults w)); [discriminate S|].
  injection S as <- <-.
  rewrite getAuthCode_eq. unfold fetched. rewrite F.
  unfold sql_select_auth_code. cbn [fst authorization_codes set_authorization_codes].
  rewrite filter_app_absent.
  - eexists. split; [reflexivity|]. repeat split.
  - intros row Hin. apply A in Hin. apply String.eqb_neq in Hin. now rewrite Hin.
  - cbn [StoredAuthCode.code StoredAuthCode.expiresAt]. rewrite String.eqb_refl.
    unfold CODE_EXPIRATION_MS. apply andb_true_iff. split; [reflexivity|].
    apply Z.ltb_lt. lia.
Qed.

(** The code issued at time 5000 on the empty store, fetched one
    millisecond before it expires. *)
Lemma stored_code_is_fetched_example :
  exists sc,
    getAuthCode 604999 "AAECAwQFBgcICQoLDA0ODxAREhMUFRYXGBkaGxwdHh8"
      (snd (storeAuthCode 5000 "example-client-id" "https://claude.ai/callback"
              example_challenge "S256" None empty_world))
    = (Return (Some sc),
       after_query (SelectAuthCode "AAECAwQFBgcICQoLDA0ODxAREhMUFRYXGBkaGxwdHh8")
         (snd (storeAuthCode 5000 "example-client-id" "https://claude.ai/callback"
                 example_challenge "S256" None empty_world)))
    /\ StoredAuthCode.codeChallenge sc = example_challenge.
Proof.
  destruct (stored_code_is_fetched 5000 "example-client-id" "https://claude.ai/callback"
              example_challenge "S256" None empty_world
              "AAECAwQFBgcICQoLDA0ODxAREhMUFRYXGBkaGxwdHh8"
              (snd (storeAuthCode 5000 "example-client-id" "https://claude.ai/callback"
                      example_challenge "S256" None empty_world))
              604999 ltac:(vm_compute; reflexivity) ltac:(intros row [])
              ltac:(reflexivity) ltac:(reflexivity))
    as (sc & E & _ & _ & _ & C & _).
  exists sc. split; [exact E|exact C].
Defined.

(** X5.  [deleteAuthCode] never throws and leaves the clients and the
    rows of every other code alone; deleting a code that is not there
    changes no table; and once a delete was served, the code is absent
    and every later fetch of it, at any time, finds nothing until it is
    stored again. *)
Theorem deleteAuthCode_consumes code w :
  exists w1,
    deleteAuthCode code w = (Return tt, w1)
    /\ oauth_clients w1 = oauth_clients w
    /\ (forall row, StoredAuthCode.code row <> code ->
                    (In row (authorization_codes w1) <-> In row (authorization_codes w)))
    /\ (code_absent code w -> authorization_codes w1 = authorization_codes w)
    /\ (hd false (faults w) = false ->
        code_absent code w1
        /\ forall now w2, authorization_codes w2 = authorization_codes w1 ->
                          fst (getAuthCode now code w2) = Return None).
Proof.
  exists (after_delete code w). split; [apply deleteAuthCode_eq|].
  split; [apply after_delete_tables|]. split; [|split].
  - intros row N. unfold after_delete.
    destruct (hd false (faults w)); [reflexivity|].
    cbn [snd sql_delete_auth_code authorization_codes set_authorization_codes after_query
         set_faults set_queries].
    rewrite filter_In. apply String.eqb_neq in N. rewrite N. tauto.
  - intros A. unfold after_delete. destruct (hd false (faults w)); [reflexivity|].
    cbn [snd sql_delete_auth_code authorization_codes set_authorization_codes after_query
         set_faults set_queries].
    specialize A. unfold code_absent in A.
    induction (authorization_codes w) as [|r l IH]; [reflexivity|]. simpl.
    assert (N : StoredAuthCode.code r <> code) by (apply A; now left).
    apply String.eqb_neq in N. rewrite N. simpl. f_equal.
    apply IH. intros row H. apply A. now right.
  - intros F. pose proof (after_delete_absent code w F) as A. split; [exact A|].
    intros now w2 T. rewrite getAuthCode_eq. cbn [fst]. f_equal.
    apply fetched_absent. intros row. rewrite T. apply A.
Qed.

Lemma prefix_append p s : String.prefix p (p ++ s)%string = true.
Proof.
  induction p as [|a p IH]; simpl; [now destruct s|].
  destruct (ascii_dec a a) as [_|N]; [exact IH|now elim N].
Qed.

Lemma base64url_length_16 bs :
  List.length bs = 16%nat -> String.length (Node.base64url bs) = 22%nat.
Proof.
  intros H.
  do 16 (destruct bs as [|? bs]; [discriminate H|]).
  destruct bs; [reflexivity|discriminate H].
Qed.

(** X6.  Register, then look up.  A client that [registerClient] has
    stored, under an id the registry did not hold, is what [getClient]
    returns for that id (the query being served); its id is
    "mcp-client-" followed by 22 characters; [isValidClientId] knows it
    and [validateClient] accepts it with the secret it was given. *)
Theorem registered_client_is_found now clientName redirectUris tokenEndpointAuthMethod
        grantTypes responseTypes scope w client w1 staticClientId staticClientSecret :
  registerClient now clientName redirectUris tokenEndpointAuthMethod grantTypes
    responseTypes scope w = (Return client, w1) ->
  (forall row, In row (oauth_clients w) ->
               RegisteredClient.client_id row <> RegisteredClient.client_id client) ->
  hd false (faults w1) = false ->
  getClient (RegisteredClient.client_id client) w1
  = (Return (Some client), after_query (SelectClient (RegisteredClient.client_id client)) w1)
  /\ String.prefix "mcp-client-" (RegisteredClient.client_id client) = true
  /\ String.length (RegisteredClient.client_id client) = 33%nat
  /\ fst (isValidClientId (RegisteredClient.client_id client) staticClientId w1) = Return true
  /\ fst (validateClient (RegisteredClient.client_id client)
            (RegisteredClient.client_secret client) staticClientId staticClientSecret w1)
     = Return true.
Proof.
  intros S A F. rewrite registerClient_eq in S. cbv zeta in S.
  destruct (hd false (faults w)); [discriminate S|].
  set (cid := ("mcp-client-" ++ Node.base64url (next_bytes 0 16 w))%string) in *.
  match type of S with
  | (Return ?c, ?w0) = _ =>
      assert (Ec : client = c) by congruence; assert (Ew : w1 = w0) by congruence
  end.
  clear S. subst client w1.
  cbn [RegisteredClient.client_id RegisteredClient.client_secret] in *.
  set (client := RegisteredClient.mk cid _ _ _ _ _ _ _ _) in *.
  set (w1 := set_oauth_clients _ _) in *.
  assert (L : looked_up cid w1 = Some client).
  { unfold looked_up. rewrite F. unfold sql_select_client, w1.
    cbn [fst oauth_clients set_oauth_clients]. rewrite filter_app_absent; [reflexivity| |].
    - intros row Hin. apply A in Hin. apply String.eqb_neq in Hin. now rewrite Hin.
    - cbn [RegisteredClient.client_id client]. apply String.eqb_refl. }
  split; [now rewrite getClient_eq, L|].
  split; [apply prefix_append|].
  split.
  { unfold cid.
    change (String.length ("mcp-client-" ++ Node.base64url (next_bytes 0 16 w))%string)
      with (11 + String.length (Node.base64url (next_bytes 0 16 w)))%nat.
    rewrite base64url_length_16; [reflexivity|apply next_bytes_length]. }
  split.
  - rewrite isValidClientId_eq, L. now destruct (cid =? staticClientId)%string.
  - unfold validateClient. destruct (_ && _); [reflexivity|].
    unfold bind. rewrite getClient_eq, L. cbn [RegisteredClient.client_secret client].
    now rewrite String.eqb_refl.
Qed.

(** The public client of the sample registration is found under its id. *)
Lemma registered_client_is_found_example :
  fst (getClient "mcp-client-AAECAwQFBgcICQoLDA0ODw"
         (snd (registerClient 1000 None ["http://localhost:9999/cb"] "none"
                 ["authorization_code"] ["code"] None empty_world)))
  = Return (Some (RegisteredClient.mk "mcp-client-AAECAwQFBgcICQoLDA0ODw"
                    "EBESExQVFhcYGRobHB0eHyAhIiMkJSYnKCkqKywtLi8" None
                    ["http://localhost:9999/cb"] "none" ["authorization_code"] ["code"]
                    None 1000)).
Proof.
  destruct (registered_client_is_found 1000 None ["http://localhost:9999/cb"] "none"
              ["authorization_code"] ["code"] None empty_world
              (RegisteredClient.mk "mcp-client-AAECAwQFBgcICQoLDA0ODw"
                 "EBESExQVFhcYGRobHB0eHyAhIiMkJSYnKCkqKywtLi8" None
                 ["http://localhost:9999/cb"] "none" ["authorization_code"] ["code"]
                 None 1000)
              (snd (registerClient 1000 None ["http://localhost:9999/cb"] "none"
                      ["authorization_code"] ["code"] None empty_world))
              "example-client-id" "example-client-secret"
              ltac:(vm_compute; reflexivity) ltac:(intros row [])
              ltac:(reflexivity)) as (E & _).
  exact (f_equal fst E).
Defined.

(** X7.  [validateClient] answers true exactly for the static pair of id
    and secret, or for an id whose looked-up record carries the given
    secret; the static pair is accepted without any query, whatever the
    state of the store, and no table is changed. *)
Theorem validateClient_accepts_exactly clientId clientSecret staticClientId
        staticClientSecret w :
  exists valid w',
    validateClient clientId clientSecret staticClientId staticClientSecret w
    = (Return valid, w')
    /\ (valid = true
        <-> (clientId = staticClientId /\ clientSecret = staticClientSecret)
            \/ exists client, looked_up clientId w = Some client
                              /\ RegisteredClient.client_secret client = clientSecret)
    /\ (clientId = staticClientId -> clientSecret = staticClientSecret -> w' = w)
    /\ authorization_codes w' = authorization_codes w
    /\ oauth_clients w' = oauth_clients w.
Proof.
  unfold validateClient.
  destruct (String.eqb_spec clientId staticClientId) as [E1|N1];
    [destruct (String.eqb_spec clientSecret staticClientSecret) as [E2|N2]|]; cbn [andb].
  - exists true, w. repeat split; auto.
  - unfold bind. rewrite getClient_eq.
    destruct (looked_up clientId w) as [c|] eqn:L.
    + destruct (String.eqb_spec (RegisteredClient.client_secret c) clientSecret) as [E|N].
      * eexists _, _. split; [reflexivity|]. repeat split; try contradiction; eauto.
      * eexists _, _. split; [reflexivity|]. repeat split; try contradiction;
          try discriminate.
        intros [(_ & H)|(c' & [= <-] & H)]; contradiction.
    + eexists _, _. split; [reflexivity|]. repeat split; try contradiction;
        try discriminate.
      intros [(_ & H)|(c' & [=] & _)]; contradiction.
  - unfold bind. rewrite getClient_eq.
    destruct (looked_up clientId w) as [c|] eqn:L.
    + destruct (String.eqb_spec (RegisteredClient.client_secret c) clientSecret) as [E|N].
      * eexists _, _. split; [reflexivity|]. repeat split; try contradiction; eauto.
      * eexists _, _. split; [reflexivity|]. repeat split; try contradiction;
          try discriminate.
        intros [(H & _)|(c' & [= <-] & H)]; contradiction.
    + eexists _, _. split; [reflexivity|]. repeat split; try contradiction;
        try discriminate.
      intros [(H & _)|(c' & [=] & _)]; contradiction.
Qed.

(* ===================================================================== *)
(** * Further properties: the token endpoint                               *)
(* ===================================================================== *)

(** What [redeemCode] leaves behind: the tables as they were, and at most
    the DELETE for the code in flight; what it answers: [invalid_grant]
    or the token. *)
Lemma redeemCode_effect config now req code redirect_uri code_verifier client_id w :
  exists r w',
    redeemCode config now req code redirect_uri code_verifier client_id w = (Return r, w')
    /\ oauth_clients w' = oauth_clients w
    /\ authorization_codes w' = authorization_codes w
    /\ (in_flight w' = in_flight w \/ in_flight w' = in_flight w ++ [code])
    /\ ((exists d, r = sendError "invalid_grant" d 400)
        \/ exists sc,
             fetched now code w = Some sc
             /\ StoredAuthCode.clientId sc = client_id
             /\ StoredAuthCode.redirectUri sc = redirect_uri
             /\ verifyPKCE code_verifier (StoredAuthCode.codeChallenge sc) = true
             /\ r = Json 200
                      [("access_token", JString (OAuthConfig.apiKey config));
                       ("token_type", JString "Bearer");
                       ("scope", JString (opt_or (StoredAuthCode.scope sc)
                                            (join " " (match OAuthConfig.scopes config with
                                                       | Some l => l
                                                       | None => default_scopes
                                                       end))))]
             /\ (in_flight w' = in_flight w ++ [code]
                 /\ faults w' = tl (tl (faults w)))).
Proof.
  set (w1 := delete_started code (after_query (SelectAuthCode code) w)).
  destruct (redeemCode_cases now code redirect_uri code_verifier client_id w)
    as [F|[(sc & F & C)|[(sc & F & C & U)|[(sc & F & C & U & P)|(sc & F & C & U & P)]]]].
  - erewrite redeemCode_absent by eauto. eexists _, _. split; [reflexivity|].
    repeat split; eauto.
  - erewrite redeemCode_client_mismatch by eauto. eexists _, _. split; [reflexivity|].
    repeat split; eauto.
  - erewrite redeemCode_redirect_mismatch by eauto. eexists _, _. split; [reflexivity|].
    repeat split; eauto.
  - erewrite redeemCode_pkce_failure by eauto.
    destruct (logAuthEvent_returns "token_failure" req false (Some client_id)
                (Some "PKCE verification failed") w1)
      as (w' & E & T1 & T2 & T3 & _).
    fold w1. rewrite E. cbn [snd]. eexists _, _. split; [reflexivity|].
    rewrite T1, T2, T3. repeat split; eauto.
  - erewrite redeemCode_success by eauto.
    destruct (logAuthEvent_returns "token_exchange" req true (Some client_id) None w1)
      as (w' & E & T1 & T2 & T3 & T4 & _).
    fold w1. rewrite E. cbn [snd]. eexists _, _. split; [reflexivity|].
    rewrite T1, T2, T3, T4. split; [reflexivity|]. split; [reflexivity|].
    split; [right; reflexivity|].
    right. exists sc. repeat split; auto.
Qed.

(** What a request that reaches the fetch has shown of itself. *)
Lemma validateTokenRequest_grant config now body w grant w1 :
  validateTokenRequest config now body w = (Return (inr grant), w1) ->
  TokenRequest.grant_type body = JString "authorization_code"
  /\ TokenRequest.code body = JString (TokenGrant.code grant)
  /\ TokenRequest.redirect_uri body = JString (TokenGrant.redirect_uri grant)
  /\ TokenRequest.code_verifier body = JString (TokenGrant.code_verifier grant)
  /\ validateCodeVerifier (TokenGrant.code_verifier grant) = true
  /\ (present_string (TokenRequest.client_id body) = true ->
      TokenRequest.client_id body = JString (TokenGrant.client_id grant))
  /\ reads_only w w1.
Proof.
  intros V.
  destruct (validateTokenRequest_returns config now body w) as (r & w' & E & R & Hr).
  rewrite V in E. injection E as <- <-.
  destruct Hr as (Hc & Hu & Hv & Hi & _).
  revert V. unfold validateTokenRequest. rewrite !missing_or_not_string_present.
  rewrite truthy_strict_eq by reflexivity.
  destruct (strict_eq_str _ _) eqn:G; cbn [negb]; [|discriminate].
  destruct (present_string (TokenRequest.code body)) eqn:C; cbn [negb]; [|discriminate].
  destruct (present_string (TokenRequest.redirect_uri body)) eqn:U; cbn [negb];
    [|discriminate].
  destruct (present_string (TokenRequest.code_verifier body)) eqn:P; cbn [negb];
    [|discriminate].
  unfold bind. rewrite resolveClientId_eq.
  intros V.
  assert (Hvalid : validateCodeVerifier (as_string (TokenRequest.code_verifier body)) = true).
  { destruct (validateCodeVerifier (as_string (TokenRequest.code_verifier body))) eqn:X;
      [reflexivity|exfalso].
    cbn [negb] in V.
    destruct (present_string (TokenRequest.client_id body)).
    - destruct (checkClientCredentials config _ _ w) as [[[?|]|?] ?]; discriminate V.
    - destruct (fetched now _ w) as [sc|]; [|discriminate V].
      destruct (str_truthy (StoredAuthCode.clientId sc)); [|discriminate V].
      destruct (checkClientCredentials config _ _ _) as [[[?|]|?] ?]; discriminate V. }
  apply present_string_as_string in C, U, P.
  destruct C as (C & _), U as (U & _), P as (P & _).
  split.
  { destruct (TokenRequest.grant_type body); try discriminate G. simpl in G.
    apply String.eqb_eq in G. now subst. }
  rewrite Hc, Hu, Hv. split; [exact C|]. split; [exact U|]. split; [exact P|].
  split; [exact Hvalid|]. split; [|exact R].
  intros I. rewrite (Hi I). now apply present_string_as_string in I.
Qed.

(** X8.  [handleToken] always answers with JSON.  For a body that can
    be destructured the answer is HTTP 200 with the configured API key as
    bearer token, or HTTP 400 with one of [unsupported_grant_type],
    [invalid_request], [invalid_client], [invalid_grant]: a failing store
    never surfaces as [server_error].  Only a request without a body
    ([req.body] undefined) ends in the [catch]: it is answered
    [server_error], with status 400 and the world untouched. *)
Theorem handleToken_answers config now req body w :
  exists w',
    (exists fields scope,
       body = Some fields
       /\ handleToken config now req body w
          = (Return (Json 200 [("access_token", JString (OAuthConfig.apiKey config));
                               ("token_type", JString "Bearer");
                               ("scope", JString scope)]), w'))
    \/ (exists fields e d,
          body = Some fields
          /\ handleToken config now req body w = (Return (sendError e d 400), w')
          /\ In e token_errors)
    \/ (body = None
        /\ w' = w
        /\ handleToken config now req body w
           = (Return (sendError "server_error" "Internal server error" 400), w)).
Proof.
  destruct body as [body|]; [|exists w; right; right; auto].
  rewrite handleToken_eq.
  destruct (validateTokenRequest_returns config now body w) as (r & w1 & -> & _ & Hr).
  destruct r as [resp|grant].
  - destruct Hr as (e & d & -> & Hin & _). exists w1. right. left. exists body, e, d.
    split; [reflexivity|]. split; [reflexivity|]. unfold token_errors. simpl in *. tauto.
  - destruct (redeemCode_effect config now req (TokenGrant.code grant)
                (TokenGrant.redirect_uri grant) (TokenGrant.code_verifier grant)
                (TokenGrant.client_id grant) w1)
      as (r & w' & -> & _ & _ & _ & [(d & ->)|(sc & _ & _ & _ & _ & -> & _)]).
    + exists w'. right. left. exists body, "invalid_grant", d. split; [reflexivity|].
      split; [reflexivity|]. unfold token_errors. simpl. tauto.
    + exists w'. left. exists body. eexists. split; reflexivity.
Qed.

(** X9.  A token is issued only against a stored code that is live and
    bound to the request: whenever [handleToken] answers 200, the table
    held a row with the presented code, not yet expired, whose
    redirectUri is the presented redirect_uri, whose clientId is the
    presented client_id (if one was presented), and whose challenge the
    presented, well-formed code_verifier verifies; the token is the
    configured API key. *)
Theorem token_requires_bound_code config now req body w tokens w' :
  handleToken config now req (Some body) w = (Return (Json 200 tokens), w') ->
  json_get "access_token" tokens = Some (JString (OAuthConfig.apiKey config))
  /\ TokenRequest.grant_type body = JString "authorization_code"
  /\ exists row verifier,
       In row (authorization_codes w)
       /\ now < StoredAuthCode.expiresAt row
       /\ TokenRequest.code body = JString (StoredAuthCode.code row)
       /\ TokenRequest.redirect_uri body = JString (StoredAuthCode.redirectUri row)
       /\ TokenRequest.code_verifier body = JString verifier
       /\ validateCodeVerifier verifier = true
       /\ verifyPKCE verifier (StoredAuthCode.codeChallenge row) = true
       /\ (present_string (TokenRequest.client_id body) = true ->
           TokenRequest.client_id body = JString (StoredAuthCode.clientId row)).
Proof.
  intros E. rewrite handleToken_eq in E.
  destruct (validateTokenRequest config now body w) as [[[resp|grant]|e] w1] eqn:V.
  - destruct (validateTokenRequest_returns config now body w) as (r & w0 & V' & _ & Hr).
    rewrite V in V'. injection V' as <- <-. destruct Hr as (e & d & -> & _).
    discriminate E.
  - apply validateTokenRequest_grant in V.
    destruct V as (G & C & U & P & Hv & I & (T & _)).
    destruct (redeemCode_effect config now req (TokenGrant.code grant)
                (TokenGrant.redirect_uri grant) (TokenGrant.code_verifier grant)
                (TokenGrant.client_id grant) w1)
      as (r & w2 & R & _ & _ & _ & [(d & ->)|(sc & F & Hc & Hu & Hp & -> & _)]);
      rewrite R in E; [discriminate E|].
    injection E as <- _.
    split; [reflexivity|]. split; [exact G|].
    apply fetched_Some in F. destruct F as (Hin & Hcode & Hlive).
    exists sc, (TokenGrant.code_verifier grant). rewrite T in Hin.
    rewrite Hcode, Hu, Hc. repeat split; auto.
  - discriminate E.
Qed.

(** The sample exchange: the token was issued against the sample code. *)
Lemma token_requires_bound_code_example :
  json_get "access_token"
    [("access_token", JString "example-api-key"); ("token_type", JString "Bearer");
     ("scope", JString "mcp:tools:* mcp:resources:* mcp:prompts:*")]
  = Some (JString (OAuthConfig.apiKey example_config)).
Proof.
  eapply (token_requires_bound_code example_config 2000 example_peer example_token_request
            example_world).
  vm_compute. reflexivity.
Defined.





(** X11.  A token request touches nothing but the code it presents: the
    clients stay as they are, no code is added, every row of another code
    stays; and unless the answer is [invalid_grant] or the token, the
    code table is exactly as before, so a request refused for its
    parameters or its client credentials does not burn the code.  The
    same holds of the statements it leaves in flight: at most one DELETE,
    for the presented code, and none unless the answer is [invalid_grant]
    or the token. *)
Theorem handleToken_touches_only_presented_code config now req body w :
  oauth_clients (snd (handleToken config now req (Some body) w)) = oauth_clients w
  /\ (forall row,
        In row (authorization_codes (snd (handleToken config now req (Some body) w))) ->
        In row (authorization_codes w))
  /\ (forall row, In row (authorization_codes w) ->
                  StoredAuthCode.code row <> as_string (TokenRequest.code body) ->
                  In row (authorization_codes (snd (handleToken config now req (Some body) w))))
  /\ (forall e d,
        fst (handleToken config now req (Some body) w) = Return (sendError e d 400) ->
        e = "invalid_grant"
        \/ authorization_codes (snd (handleToken config now req (Some body) w))
           = authorization_codes w)
  /\ (in_flight (snd (handleToken config now req (Some body) w)) = in_flight w
      \/ in_flight (snd (handleToken config now req (Some body) w))
         = in_flight w ++ [as_string (TokenRequest.code body)])
  /\ (forall e d,
        fst (handleToken config now req (Some body) w) = Return (sendError e d 400) ->
        e = "invalid_grant"
        \/ in_flight (snd (handleToken config now req (Some body) w)) = in_flight w).
Proof.
  rewrite handleToken_eq.
  destruct (validateTokenRequest_returns config now body w)
    as (r & w1 & -> & (T1 & T2 & T3 & _) & Hr).
  destruct r as [resp|grant].
  - cbn [fst snd]. rewrite T1, T2, T3. repeat split; auto.
  - destruct Hr as (Hc & _). rewrite <- Hc.
    destruct (redeemCode_effect config now req (TokenGrant.code grant)
                (TokenGrant.redirect_uri grant) (TokenGrant.code_verifier grant)
                (TokenGrant.client_id grant) w1)
      as (r & w' & -> & C & S & I & Hr).
    cbn [fst snd]. rewrite <- T1, <- T2, <- T3. split; [exact C|].
    split; [now rewrite S|]. split; [now rewrite S|].
    assert (G : forall e d, Return r = Return (sendError e d 400) -> e = "invalid_grant").
    { intros e d E. destruct Hr as [(d' & ->)|(sc & _ & _ & _ & _ & -> & _)].
      - now injection E as <- _.
      - discriminate E. }
    split; [intros e d E; left; exact (G e d E)|]. split; [exact I|].
    intros e d E. left. exact (G e d E).
Qed.

(* ===================================================================== *)
(** * Further properties: the authorize endpoint                           *)
(* ===================================================================== *)

(** What a request that passed the parameter checks has shown. *)
Lemma validateAuthorizeParams_None req :
  validateAuthorizeParams req = None ->
  present_string (AuthorizeRequest.client_id req) = true
  /\ present_string (AuthorizeRequest.redirect_uri req) = true
  /\ AuthorizeRequest.response_type req = JString "code"
  /\ present_string (AuthorizeRequest.code_challenge req) = true
  /\ AuthorizeRequest.code_challenge_method req = JString "S256"
  /\ validateCodeChallenge (as_string (AuthorizeRequest.code_challenge req)) = true.
Proof.
  rewrite validateAuthorizeParams_first_failing. unfold first_failing, authorize_checks.
  cbn [find fst].
  repeat match goal with
         | |- context [if negb ?b then _ else _] =>
             let E := fresh "E" in destruct b eqn:E; cbn [negb]; [|discriminate]
         end.
  intros _.
  assert (S : forall v lit, strict_eq_str v lit = true -> v = JString lit).
  { intros v lit H. destruct v; try discriminate H. simpl in H.
    apply String.eqb_eq in H. now subst. }
  repeat split; auto.
Qed.

Lemma validateAuthorizeParams_error req response :
  validateAuthorizeParams req = Some response ->
  exists e d, response = sendError e d 400 /\ e <> "server_error".
Proof.
  rewrite validateAuthorizeParams_first_failing. unfold first_failing.
  destruct (find fst (authorize_checks req)) as [[b [e d]]|] eqn:F; [|discriminate].
  intros [= <-]. exists e, d. split; [reflexivity|].
  apply find_some in F. destruct F as (Hin & _).
  unfold authorize_checks in Hin. simpl in Hin.
  repeat (destruct Hin as [Hin|Hin]; [injection Hin as _ <- _; discriminate|]).
  contradiction.
Qed.

Section AuthorizeOutcomes.

Variable URL_parse : string -> option URL.

(** How issuance can end: the INSERT is rejected; the code is stored and
    the redirect_uri does not parse; the code is stored and the user
    agent is redirected with it. *)
Lemma approveAndRedirect_outcomes now authReq w :
  exists r w',
    try_catch (approveAndRedirect URL_parse now authReq)
      (fun _ => ret (sendError "server_error" "Internal server error" 400)) w
    = (Return r, w')
    /\ oauth_clients w' = oauth_clients w
    /\ ((hd false (faults w) = true
         /\ r = sendError "server_error" "Internal server error" 400
         /\ authorization_codes w' = authorization_codes w)
        \/ (hd false (faults w) = false
            /\ exists code,
                 String.length code = 43%nat
                 /\ authorization_codes w'
                    = authorization_codes w
                      ++ [StoredAuthCode.mk code
                            (AuthorizationRequest.client_id authReq)
                            (AuthorizationRequest.redirect_uri authReq)
                            (AuthorizationRequest.code_challenge authReq)
                            (AuthorizationRequest.code_challenge_method authReq)
                            (AuthorizationRequest.scope authReq)
                            now (now + 10 * 60 * 1000)]
                 /\ ((URL_parse (AuthorizationRequest.redirect_uri authReq) = None
                      /\ r = sendError "server_error" "Internal server error" 400)
                     \/ exists u location,
                          URL_parse (AuthorizationRequest.redirect_uri authReq) = Some u
                          /\ r = Redirect location
                          /\ searchParams_getAll "code" location = [code]))).
Proof.
  unfold try_catch.
  destruct (storeAuthCode now (AuthorizationRequest.client_id authReq)
              (AuthorizationRequest.redirect_uri authReq)
              (AuthorizationRequest.code_challenge authReq)
              (AuthorizationRequest.code_challenge_method authReq)
              (AuthorizationRequest.scope authReq) w) as [o w1] eqn:S.
  pose proof S as S'. rewrite storeAuthCode_eq in S'. cbv zeta in S'.
  destruct (hd false (faults w)) eqn:F.
  - injection S' as <- <-. unfold approveAndRedirect, bind. rewrite S.
    eexists _, _. split; [reflexivity|]. split; [reflexivity|]. left. auto.
  - injection S' as <- <-.
    pose proof (base64url_length_32 (next_bytes 0 32 w) (next_bytes_length _ _ _)) as L.
    set (code := Node.base64url (next_bytes 0 32 w)) in *.
    destruct (URL_parse (AuthorizationRequest.redirect_uri authReq)) as [u|] eqn:P.
    + destruct (approveAndRedirect_location URL_parse now authReq w code _ u S P)
        as (location & E & _ & _ & C & _).
      rewrite E. eexists _, _. split; [reflexivity|]. split; [reflexivity|]. right.
      split; [reflexivity|]. exists code. split; [exact L|]. split; [reflexivity|].
      right. eauto.
    + unfold approveAndRedirect, bind. rewrite S, P.
      eexists _, _. split; [reflexivity|]. split; [reflexivity|]. right.
      split; [reflexivity|]. exists code. split; [exact L|]. split; [reflexivity|].
      left. auto.
Qed.

(** Every way a request to the authorize endpoint can end. *)
Lemma handleAuthorize_outcomes config now req w :
  exists r w',
    handleAuthorize URL_parse config now req w = (Return r, w')
    /\ oauth_clients w' = oauth_clients w
    /\ ((authorization_codes w' = authorization_codes w
         /\ ((exists e d, r = sendError e d 400
                          /\ (e = "server_error" ->
                              AuthorizeRequest.session_authenticated req = true
                              /\ validateAuthorizeParams req = None)
                          /\ (e <> "server_error" -> drawn w' = drawn w))
             \/ (r = Render "login" None (AuthorizeRequest.originalUrl req)
                 /\ AuthorizeRequest.session_authenticated req = false
                 /\ validateAuthorizeParams req = None
                 /\ drawn w' = drawn w)))
        \/ (AuthorizeRequest.session_authenticated req = true
            /\ validateAuthorizeParams req = None
            /\ exists code,
                 String.length code = 43%nat
                 /\ authorization_codes w'
                    = authorization_codes w
                      ++ [StoredAuthCode.mk code
                            (as_string (AuthorizeRequest.client_id req))
                            (as_string (AuthorizeRequest.redirect_uri req))
                            (as_string (AuthorizeRequest.code_challenge req))
                            "S256"
                            (string_or_undefined (AuthorizeRequest.scope req))
                            now (now + 10 * 60 * 1000)]
                 /\ ((URL_parse (as_string (AuthorizeRequest.redirect_uri req)) = None
                      /\ r = sendError "server_error" "Internal server error" 400)
                     \/ exists u location,
                          URL_parse (as_string (AuthorizeRequest.redirect_uri req)) = Some u
                          /\ r = Redirect location
                          /\ searchParams_getAll "code" location = [code]))).
Proof.
  rewrite handleAuthorize_eq.
  destruct (validateAuthorizeParams req) as [resp|] eqn:V.
  { destruct (validateAuthorizeParams_error _ _ V) as (e & d & -> & N).
    eexists _, _. split; [reflexivity|]. split; [reflexivity|]. left.
    split; [reflexivity|]. left. exists e, d. split; [reflexivity|].
    split; [intros; contradiction|reflexivity]. }
  pose proof (validateAuthorizeParams_None req V) as (_ & _ & _ & _ & M & _).
  cbv zeta. rewrite isValidClientId_eq.
  set (client_id := as_string (AuthorizeRequest.client_id req)).
  set (redirect_uri := as_string (AuthorizeRequest.redirect_uri req)).
  assert (Q : exists known w1,
             (if (client_id =? OAuthConfig.clientId config)%string
              then (Return true, w)
              else (Return match looked_up client_id w with
                           | Some _ => true
                           | None => false
                           end, after_query (SelectClient client_id) w))
             = (Return known, w1)
             /\ authorization_codes w1 = authorization_codes w
             /\ oauth_clients w1 = oauth_clients w /\ drawn w1 = drawn w).
  { destruct (client_id =? OAuthConfig.clientId config)%string;
      eexists _, _; (split; [reflexivity|auto]). }
  destruct Q as (known & w1 & -> & T1 & T2 & T3).
  destruct known.
  2:{ eexists _, _. split; [reflexivity|]. split; [exact T2|]. left.
      split; [exact T1|]. left. eexists _, _. split; [reflexivity|].
      split; [discriminate|auto]. }
  rewrite checkRedirectUri_eq.
  assert (Q : exists ok w2,
             (if (client_id =? OAuthConfig.clientId config)%string
              then (Return (isValidRedirectUri redirect_uri
                              match OAuthConfig.allowedRedirectPrefixes config with
                              | Some l => l
                              | None => default_allowedPrefixes
                              end), w1)
              else (Return match looked_up client_id w1 with
                           | Some c => includes (RegisteredClient.redirect_uris c) redirect_uri
                           | None => false
                           end, after_query (SelectClient client_id) w1))
             = (Return ok, w2)
             /\ authorization_codes w2 = authorization_codes w
             /\ oauth_clients w2 = oauth_clients w /\ drawn w2 = drawn w).
  { destruct (client_id =? OAuthConfig.clientId config)%string;
      eexists _, _; (split; [reflexivity|auto]). }
  destruct Q as (ok & w2 & -> & U1 & U2 & U3).
  destruct ok.
  2:{ eexists _, _. split; [reflexivity|]. split; [exact U2|]. left.
      split; [exact U1|]. left. eexists _, _. split; [reflexivity|].
      split; [discriminate|auto]. }
  destruct (AuthorizeRequest.session_authenticated req) eqn:A.
  2:{ eexists _, _. split; [reflexivity|]. split; [exact U2|]. left.
      split; [exact U1|]. right. auto. }
  destruct (approveAndRedirect_outcomes now
              (AuthorizationRequest.mk client_id redirect_uri
                 (as_string (AuthorizeRequest.response_type req))
                 (as_string (AuthorizeRequest.code_challenge req))
                 (as_string (AuthorizeRequest.code_challenge_method req))
                 (string_or_undefined (AuthorizeRequest.state req))
                 (string_or_undefined (AuthorizeRequest.scope req))) w2)
    as (r & w' & -> & C & [(F & -> & T)|(F & code & L & T & R)]).
  - eexists _, _. split; [reflexivity|]. split; [congruence|]. left.
    split; [congruence|]. left. eexists _, _. split; [reflexivity|].
    split; [auto|intros N; now elim N].
  - eexists _, _. split; [reflexivity|]. split; [congruence|]. right.
    split; [reflexivity|]. split; [reflexivity|]. exists code. split; [exact L|].
    cbn [AuthorizationRequest.client_id AuthorizationRequest.redirect_uri
         AuthorizationRequest.code_challenge AuthorizationRequest.code_challenge_method
         AuthorizationRequest.scope] in T, R.
    rewrite M in T. cbn [as_string] in T. rewrite <- U1. split; [exact T|exact R].
Qed.

End AuthorizeOutcomes.

Section AuthorizeProperties.

Variable URL_parse : string -> option URL.

(** X12.  Without an authenticated session the authorize endpoint issues
    nothing: no table changes, no random bytes are drawn, and the answer
    is one of the 400 errors of the checks or the login form carrying the
    URL of the request. *)
Theorem unauthenticated_authorize_issues_nothing config now req w :
  AuthorizeRequest.session_authenticated req = false ->
  authorization_codes (snd (handleAuthorize URL_parse config now req w))
  = authorization_codes w
  /\ oauth_clients (snd (handleAuthorize URL_parse config now req w)) = oauth_clients w
  /\ drawn (snd (handleAuthorize URL_parse config now req w)) = drawn w
  /\ ((exists e d,
         fst (handleAuthorize URL_parse config now req w) = Return (sendError e d 400)
         /\ e <> "server_error")
      \/ (fst (handleAuthorize URL_parse config now req w)
          = Return (Render "login" None (AuthorizeRequest.originalUrl req))
          /\ validateAuthorizeParams req = None)).
Proof.
  intros A.
  destruct (handleAuthorize_outcomes URL_parse config now req w)
    as (r & w' & -> & C & [(T & [(e & d & -> & S & D)|(-> & _ & V & D)])|(A' & _)]);
    cbn [fst snd]; [| |congruence].
  - assert (N : e <> "server_error") by (intros E; destruct (S E); congruence).
    repeat split; auto. left. eauto.
  - repeat split; auto.
Qed.

(** X13.  A redirect means a code was stored for this very request:
    whenever the authorize endpoint redirects, the session was
    authenticated, the code table grew by exactly one row -- the code of 43
    characters that the redirect carries, bound to the request's
    client_id, redirect_uri and well-formed S256 challenge, expiring ten
    minutes after [now] -- and the clients are untouched. *)
Theorem redirect_means_code_stored config now req w location w' :
  handleAuthorize URL_parse config now req w = (Return (Redirect location), w') ->
  AuthorizeRequest.session_authenticated req = true
  /\ oauth_clients w' = oauth_clients w
  /\ validateCodeChallenge (as_string (AuthorizeRequest.code_challenge req)) = true
  /\ exists code,
       String.length code = 43%nat
       /\ searchParams_getAll "code" location = [code]
       /\ authorization_codes w'
          = authorization_codes w
            ++ [StoredAuthCode.mk code
                  (as_string (AuthorizeRequest.client_id req))
                  (as_string (AuthorizeRequest.redirect_uri req))
                  (as_string (AuthorizeRequest.code_challenge req))
                  "S256"
                  (string_or_undefined (AuthorizeRequest.scope req))
                  now (now + 10 * 60 * 1000)].
Proof.
  intros E.
  destruct (handleAuthorize_outcomes URL_parse config now req w)
    as (r & w0 & E0 & C & H).
  rewrite E in E0. injection E0 as <- <-.
  destruct H as [(_ & [(e & d & X & _)|(X & _)])|(A & V & code & L & T & R)];
    try discriminate X.
  destruct R as [(_ & X)|(u & loc & _ & X & G)]; [discriminate X|].
  injection X as <-.
  split; [exact A|]. split; [exact C|].
  split; [apply (validateAuthorizeParams_None req V)|].
  exists code. auto.
Qed.

(** X14.  A client_id that is not the static one and that the lookup
    does not yield -- unknown, or the query rejected -- is answered
    [unauthorized_client], before any redirect_uri is looked at and with
    nothing stored. *)
Theorem unknown_client_is_unauthorized config now req w :
  validateAuthorizeParams req = None ->
  as_string (AuthorizeRequest.client_id req) <> OAuthConfig.clientId config ->
  looked_up (as_string (AuthorizeRequest.client_id req)) w = None ->
  handleAuthorize URL_parse config now req w
  = (Return (sendError "unauthorized_client" "Invalid client_id" 400),
     after_query (SelectClient (as_string (AuthorizeRequest.client_id req))) w).
Proof.
  intros V N L. rewrite handleAuthorize_eq, V. cbv zeta.
  rewrite isValidClientId_eq. apply String.eqb_neq in N. now rewrite N, L.
Qed.

(** X15.  When issuance fails the answer is [server_error], sent with
    status 400: if the INSERT is rejected nothing is stored; if the
    redirect_uri does not parse as a URL, the code has been stored
    already and stays in the table. *)
Theorem issuance_failure_is_server_error config now req w w1 w2 :
  validateAuthorizeParams req = None ->
  isValidClientId (as_string (AuthorizeRequest.client_id req)) (OAuthConfig.clientId config) w
  = (Return true, w1) ->
  checkRedirectUri config (as_string (AuthorizeRequest.client_id req))
    (as_string (AuthorizeRequest.redirect_uri req)) w1 = (Return true, w2) ->
  AuthorizeRequest.session_authenticated req = true ->
  hd false (faults w2) = true
  \/ URL_parse (as_string (AuthorizeRequest.redirect_uri req)) = None ->
  fst (handleAuthorize URL_parse config now req w)
  = Return (sendError "server_error" "Internal server error" 400)
  /\ (hd false (faults w2) = true ->
      authorization_codes (snd (handleAuthorize URL_parse config now req w))
      = authorization_codes w2)
  /\ (hd false (faults w2) = false ->
      exists code,
        authorization_codes (snd (handleAuthorize URL_parse config now req w))
        = authorization_codes w2
          ++ [StoredAuthCode.mk code
                (as_string (AuthorizeRequest.client_id req))
                (as_string (AuthorizeRequest.redirect_uri req))
                (as_string (AuthorizeRequest.code_challenge req))
                (as_string (AuthorizeRequest.code_challenge_method req))
                (string_or_undefined (AuthorizeRequest.scope req))
                now (now + 10 * 60 * 1000)]).
Proof.
  intros V K C A B. rewrite handleAuthorize_eq, V. cbv zeta. rewrite K, C, A.
  destruct (approveAndRedirect_outcomes URL_parse now
              (AuthorizationRequest.mk (as_string (AuthorizeRequest.client_id req))
                 (as_string (AuthorizeRequest.redirect_uri req))
                 (as_string (AuthorizeRequest.response_type req))
                 (as_string (AuthorizeRequest.code_challenge req))
                 (as_string (AuthorizeRequest.code_challenge_method req))
                 (string_or_undefined (AuthorizeRequest.state req))
                 (string_or_undefined (AuthorizeRequest.scope req))) w2)
    as (r & w' & -> & _ & [(F & -> & T)|(F & code & L & T & R)]); cbn [fst snd].
  - split; [reflexivity|]. split; [auto|congruence].
  - cbn [AuthorizationRequest.redirect_uri] in R.
    destruct R as [(P & ->)|(u & loc & P & _)].
    + split; [reflexivity|]. split; [congruence|]. intros _. exists code. exact T.
    + destruct B as [B|B]; congruence.
Qed.

End AuthorizeProperties.

(** The sample request without a session: the login form, nothing
    stored. *)
Lemma unauthenticated_authorize_example :
  authorization_codes
    (snd (handleAuthorize plain_URL_parse example_config 5000
            (AuthorizeRequest.mk (JString "example-client-id")
               (JString "https://claude.ai/callback") (JString "code")
               (JString example_challenge) (JString "S256") JUndefined JUndefined
               false "/oauth/authorize?client_id=example-client-id") empty_world))
  = [].
Proof.
  exact (proj1 (unauthenticated_authorize_issues_nothing plain_URL_parse example_config 5000
                  (AuthorizeRequest.mk (JString "example-client-id")
                     (JString "https://claude.ai/callback") (JString "code")
                     (JString example_challenge) (JString "S256") JUndefined JUndefined
                     false "/oauth/authorize?client_id=example-client-id") empty_world
                  eq_refl)).
Defined.

(** A configuration whose prefix list holds the empty prefix lets any
    redirect_uri through; one that is no URL leaves an orphan code. *)
Lemma issuance_failure_example :
  fst (handleAuthorize plain_URL_parse
         (OAuthConfig.mk "example-client-id" "example-client-secret" "example-api-key"
            (Some [EmptyString]) None)
         5000
         (AuthorizeRequest.mk (JString "example-client-id") (JString "nowhere")
            (JString "code") (JString example_challenge) (JString "S256") JUndefined
            JUndefined true "/oauth/authorize") empty_world)
  = Return (sendError "server_error" "Internal server error" 400).
Proof.
  refine (proj1 (issuance_failure_is_server_error plain_URL_parse
                   (OAuthConfig.mk "example-client-id" "example-client-secret"
                      "example-api-key" (Some [EmptyString]) None)
                   5000
                   (AuthorizeRequest.mk (JString "example-client-id") (JString "nowhere")
                      (JString "code") (JString example_challenge) (JString "S256")
                      JUndefined JUndefined true "/oauth/authorize")
                   empty_world empty_world empty_world
                   eq_refl eq_refl eq_refl eq_refl _)).
  right. reflexivity.
Defined.

(** The sample request of an unregistered client. *)
Lemma unknown_client_example :
  handleAuthorize plain_URL_parse example_config 5000
    (AuthorizeRequest.mk (JString "mcp-client-unknown") (JString "https://claude.ai/callback")
       (JString "code") (JString example_challenge) (JString "S256") JUndefined JUndefined
       true "/oauth/authorize") empty_world
  = (Return (sendError "unauthorized_client" "Invalid client_id" 400),
     after_query (SelectClient "mcp-client-unknown") empty_world).
Proof.
  refine (unknown_client_is_unauthorized plain_URL_parse example_config 5000
            (AuthorizeRequest.mk (JString "mcp-client-unknown")
               (JString "https://claude.ai/callback") (JString "code")
               (JString example_challenge) (JString "S256") JUndefined JUndefined
               true "/oauth/authorize") empty_world eq_refl _ eq_refl).
  intros E. discriminate E.
Defined.

(** The redirect of the sample request and the row behind it. *)
Lemma redirect_means_code_stored_example :
  AuthorizeRequest.session_authenticated (example_authorize_request (JString "xyz")) = true
  /\ validateCodeChallenge
       (as_string (AuthorizeRequest.code_challenge (example_authorize_request (JString "xyz"))))
     = true.
Proof.
  destruct (redirect_means_code_stored plain_URL_parse example_config 5000
              (example_authorize_request (JString "xyz")) empty_world
              (mkURL "https:" "claude.ai" "https://claude.ai/callback"
                 [("code", "AAECAwQFBgcICQoLDA0ODxAREhMUFRYXGBkaGxwdHh8"); ("state", "xyz")]
                 EmptyString)
              (snd (handleAuthorize plain_URL_parse example_config 5000
                      (example_authorize_request (JString "xyz")) empty_world)))
    as (A & _ & V & _).
  - vm_compute. reflexivity.
  - split; [exact A|exact V].
Defined.

(* ===================================================================== *)
(** * Further properties: the registration endpoint                        *)
(* ===================================================================== *)

Lemma validateSupported_None what supported values :
  validateSupported what supported values = None ->
  forall v, In v values -> In v supported.
Proof.
  induction values as [|x rest IH]; simpl; [intros _ v []|].
  destruct (includes supported x) eqn:I; cbn [negb]; [|discriminate].
  intros H v [<-|Hv]; [now apply includes_true|now apply IH].
Qed.

Section RegisterProperties.

Variable URL_parse : string -> option URL.

Lemma validateRedirectUris_None redirectUris :
  validateRedirectUris URL_parse redirectUris = None ->
  forall uri, In uri redirectUris ->
    exists url, URL_parse uri = Some url
                /\ (protocol url = "https:" \/ hostname url = "localhost"
                    \/ hostname url = "127.0.0.1").
Proof.
  induction redirectUris as [|x rest IH]; simpl; [intros _ uri []|].
  destruct (URL_parse x) as [url|] eqn:P; [|discriminate].
  destruct (String.eqb_spec (protocol url) "https:") as [Hp|Hp];
    destruct (String.eqb_spec (hostname url) "localhost") as [Hl|Hl];
    destruct (String.eqb_spec (hostname url) "127.0.0.1") as [Hi|Hi];
    cbn [negb orb andb]; try discriminate;
    (intros H uri [<-|Hu]; [exists url; tauto|now apply IH]).
Qed.

(** Every way a registration can end: refused before anything is drawn
    or stored; validated and stored; validated and the INSERT rejected. *)
Lemma handleRegister_outcomes now registrationRequest w :
  (exists e d,
     handleRegister URL_parse now registrationRequest w = (Return (sendError e d 400), w)
     /\ (e = "invalid_redirect_uri" \/ e = "invalid_client_metadata"))
  \/ (exists r w',
        handleRegister URL_parse now registrationRequest w = (Return r, w')
        /\ authorization_codes w' = authorization_codes w
        /\ (forall uri,
              In uri (match ClientRegistrationRequest.redirect_uris registrationRequest with
                      | Some l => l
                      | None => []
                      end) ->
              exists url, URL_parse uri = Some url
                          /\ (protocol url = "https:" \/ hostname url = "localhost"
                              \/ hostname url = "127.0.0.1"))
        /\ ((hd false (faults w) = true
             /\ r = sendError "server_error" "Internal server error" 500
             /\ oauth_clients w' = oauth_clients w)
            \/ (hd false (faults w) = false
                /\ exists client body,
                     r = Json 201 body
                     /\ oauth_clients w' = oauth_clients w ++ [client]
                     /\ json_get "client_id" body
                        = Some (JString (RegisteredClient.client_id client))
                     /\ RegisteredClient.redirect_uris client
                        = match ClientRegistrationRequest.redirect_uris registrationRequest with
                          | Some l => l
                          | None => []
                          end
                     /\ In (RegisteredClient.token_endpoint_auth_method client)
                           ["client_secret_post"; "client_secret_basic"; "none"]
                     /\ (forall g, In g (RegisteredClient.grant_types client) ->
                                   In g ["authorization_code"; "refresh_token"])
                     /\ (forall t, In t (RegisteredClient.response_types client) ->
                                   In t ["code"])
                     /\ (In "authorization_code" (RegisteredClient.grant_types client) ->
                         RegisteredClient.redirect_uris client <> [])))).
Proof.
  unfold handleRegister, try_catch.
  set (redirectUris := match ClientRegistrationRequest.redirect_uris registrationRequest with
                       | Some l => l
                       | None => []
                       end).
  set (method := opt_or (ClientRegistrationRequest.token_endpoint_auth_method
                           registrationRequest) "client_secret_basic").
  set (grantTypes := match ClientRegistrationRequest.grant_types registrationRequest with
                     | Some l => l
                     | None => ["authorization_code"]
                     end).
  set (responseTypes := match ClientRegistrationRequest.response_types registrationRequest with
                        | Some l => l
                        | None => ["code"]
                        end).
  destruct (includes grantTypes "authorization_code" && (List.length redirectUris =? 0)%nat)
    eqn:Empty.
  { left. eexists _, _. split; [reflexivity|tauto]. }
  destruct (validateRedirectUris URL_parse redirectUris) as [r|] eqn:Vu.
  { left. apply validateRedirectUris_error in Vu. destruct Vu as (d & ->).
    eexists _, _. split; [reflexivity|tauto]. }
  destruct (includes ["client_secret_post"; "client_secret_basic"; "none"] method) eqn:Vm;
    cbn [negb].
  2:{ left. eexists _, _. split; [reflexivity|tauto]. }
  destruct (validateSupported "grant_type" _ grantTypes) as [r|] eqn:Vg.
  { left. apply validateSupported_error in Vg. destruct Vg as (d & ->).
    eexists _, _. split; [reflexivity|tauto]. }
  destruct (validateSupported "response_type" _ responseTypes) as [r|] eqn:Vr.
  { left. apply validateSupported_error in Vr. destruct Vr as (d & ->).
    eexists _, _. split; [reflexivity|tauto]. }
  right. unfold bind. rewrite registerClient_eq. cbv zeta.
  destruct (hd false (faults w)) eqn:F.
  - eexists _, _. split; [reflexivity|]. split; [reflexivity|].
    split; [now apply validateRedirectUris_None|]. left. auto.
  - eexists _, _. split; [reflexivity|]. split; [reflexivity|].
    split; [now apply validateRedirectUris_None|]. right. split; [reflexivity|].
    eexists _, _. split; [reflexivity|]. split; [reflexivity|].
    cbn [RegisteredClient.client_id RegisteredClient.redirect_uris
         RegisteredClient.token_endpoint_auth_method RegisteredClient.grant_types
         RegisteredClient.response_types].
    split; [reflexivity|]. split; [reflexivity|].
    split; [now apply includes_true|].
    split; [now apply (validateSupported_None "grant_type")|].
    split; [now apply (validateSupported_None "response_type")|].
    intros Hin E. apply includes_true in Hin. rewrite Hin, E in Empty. discriminate Empty.
Qed.

(** X16.  Registration of a body that has the shape of a
    [ClientRegistrationRequest] always answers, in one of three ways:
    HTTP 400 with [invalid_redirect_uri] or [invalid_client_metadata], the
    world untouched; HTTP 201, the INSERT served and exactly one client
    appended to the registry; or HTTP 500 [server_error], with the
    registry as it was.  The code table never changes. *)
Theorem handleRegister_answers now registrationRequest w :
  exists r w',
    handleRegister URL_parse now registrationRequest w = (Return r, w')
    /\ authorization_codes w' = authorization_codes w
    /\ ((exists e d, r = sendError e d 400 /\ w' = w
                     /\ (e = "invalid_redirect_uri" \/ e = "invalid_client_metadata"))
        \/ (exists body client, r = Json 201 body
                                /\ hd false (faults w) = false
                                /\ oauth_clients w' = oauth_clients w ++ [client])
        \/ (r = sendError "server_error" "Internal server error" 500
            /\ oauth_clients w' = oauth_clients w)).
Proof.
  destruct (handleRegister_outcomes now registrationRequest w)
    as [(e & d & -> & He)|(r & w' & -> & T & _ & [(F & -> & C)|(F & client & body & -> & C & _)])].
  - eexists _, _. split; [reflexivity|]. split; [reflexivity|]. left. eauto.
  - eexists _, _. split; [reflexivity|]. split; [exact T|]. right. right. auto.
  - eexists _, _. split; [reflexivity|]. split; [exact T|]. right. left. eauto.
Qed.

(** X17.  Only validated metadata is registered: behind every 201 there
    is a stored client whose redirect URIs all parse and use https or
    the host localhost or 127.0.0.1, whose auth method is
    client_secret_post, client_secret_basic or none, whose grant types
    are among authorization_code and refresh_token, whose response types
    are all "code", and which has at least one redirect URI if it may use
    the authorization_code grant. *)
Theorem registration_stores_validated_metadata now registrationRequest w body w' :
  handleRegister URL_parse now registrationRequest w = (Return (Json 201 body), w') ->
  exists client,
    oauth_clients w' = oauth_clients w ++ [client]
    /\ json_get "client_id" body = Some (JString (RegisteredClient.client_id client))
    /\ (forall uri, In uri (RegisteredClient.redirect_uris client) ->
          exists url, URL_parse uri = Some url
                      /\ (protocol url = "https:" \/ hostname url = "localhost"
                          \/ hostname url = "127.0.0.1"))
    /\ In (RegisteredClient.token_endpoint_auth_method client)
          ["client_secret_post"; "client_secret_basic"; "none"]
    /\ (forall g, In g (RegisteredClient.grant_types client) ->
                  In g ["authorization_code"; "refresh_token"])
    /\ (forall t, In t (RegisteredClient.response_types client) -> In t ["code"])
    /\ (In "authorization_code" (RegisteredClient.grant_types client) ->
        RegisteredClient.redirect_uris client <> []).
Proof.
  intros E.
  destruct (handleRegister_outcomes now registrationRequest w)
    as [(e & d & E' & _)|(r & w0 & E' & _ & U & [(_ & X & _)|(_ & client & b & X & C & I & Ru & M & G & R & N)])];
    rewrite E in E'.
  - discriminate E'.
  - subst r. discriminate E'.
  - subst r. injection E' as <- <-. exists client.
    rewrite Ru.
    split; [exact C|]. split; [exact I|]. split; [exact U|]. split; [exact M|].
    split; [exact G|]. split; [exact R|]. rewrite <- Ru. exact N.
Qed.

(** X18.  A registration without redirect URIs that asks for the
    authorization_code grant, or names no grant at all, is refused with
    [invalid_redirect_uri] before anything else is looked at; nothing is
    drawn or stored. *)
Theorem registration_needs_redirect_uris now registrationRequest w :
  ClientRegistrationRequest.redirect_uris registrationRequest = None
  \/ ClientRegistrationRequest.redirect_uris registrationRequest = Some [] ->
  ClientRegistrationRequest.grant_types registrationRequest = None
  \/ (exists l, ClientRegistrationRequest.grant_types registrationRequest = Some l
                /\ In "authorization_code" l) ->
  handleRegister URL_parse now registrationRequest w
  = (Return (sendError "invalid_redirect_uri"
               "redirect_uris is required for authorization_code grant" 400), w).
Proof.
  intros U G. unfold handleRegister, try_catch.
  assert (L : List.length (match ClientRegistrationRequest.redirect_uris registrationRequest with
                           | Some l => l
                           | None => []
                           end) = 0%nat) by (destruct U as [-> | ->]; reflexivity).
  assert (I : includes (match ClientRegistrationRequest.grant_types registrationRequest with
                        | Some l => l
                        | None => ["authorization_code"]
                        end) "authorization_code" = true).
  { destruct G as [-> |(l & -> & Hin)]; [reflexivity|now apply includes_true]. }
  rewrite I, L. reflexivity.
Qed.

End RegisterProperties.

(** The sample registration, which is accepted. *)
Lemma registration_stores_validated_metadata_example :
  exists client,
    oauth_clients (snd (handleRegister plain_URL_parse 1000 example_registration empty_world))
    = [] ++ [client]
    /\ RegisteredClient.token_endpoint_auth_method client = "none".
Proof.
  destruct (registration_stores_validated_metadata plain_URL_parse 1000 example_registration
              empty_world
              [("client_id", JString "mcp-client-AAECAwQFBgcICQoLDA0ODw");
               ("client_secret", JString "EBESExQVFhcYGRobHB0eHyAhIiMkJSYnKCkqKywtLi8");
               ("client_id_issued_at", JNumber 1);
               ("client_secret_expires_at", JNumber 0);
               ("redirect_uris", JArray [JString "http://localhost:9999/cb"]);
               ("token_endpoint_auth_method", JString "none");
               ("grant_types", JArray [JString "authorization_code"]);
               ("response_types", JArray [JString "code"])]
              (snd (handleRegister plain_URL_parse 1000 example_registration empty_world))
              ltac:(vm_compute; reflexivity))
    as (client & C & _).
  exists client. split; [exact C|].
  cbv in C. injection C as <-. reflexivity.
Defined.

(** A registration that names no redirect URI and no grant type. *)
Lemma registration_needs_redirect_uris_example :
  handleRegister plain_URL_parse 1000
    (ClientRegistrationRequest.mk (Some "app") None None None None None) empty_world
  = (Return (sendError "invalid_redirect_uri"
               "redirect_uris is required for authorization_code grant" 400), empty_world).
Proof.
  apply (registration_needs_redirect_uris plain_URL_parse 1000
           (ClientRegistrationRequest.mk (Some "app") None None None None None) empty_world);
    left; reflexivity.
Defined.

(* ===================================================================== *)
(** * Further properties: bearer middleware, login, audit log, invariant   *)
(* ===================================================================== *)

Lemma substring_all s : substring 0 (String.length s) s = s.
Proof. induction s as [|a s IH]; simpl; [reflexivity|now rewrite IH]. Qed.

Lemma slice_append p s : slice (String.length p) (p ++ s)%string = s.
Proof.
  unfold slice. induction p as [|a p IH]; simpl.
  - rewrite Nat.sub_0_r. apply substring_all.
  - exact IH.
Qed.

Lemma prefix_slice p s :
  String.prefix p s = true -> s = (p ++ slice (String.length p) s)%string.
Proof.
  revert s. induction p as [|a p IH]; intros s H.
  - unfold slice. simpl. rewrite Nat.sub_0_r. now rewrite substring_all.
  - destruct s as [|b s]; simpl in H; [discriminate|].
    destruct (ascii_dec a b) as [<-|]; [|discriminate].
    simpl. f_equal. exact (IH s H).
Qed.

Lemma handleToken_token_body config now req body w tokens w' :
  handleToken config now req body w = (Return (Json 200 tokens), w') ->
  json_get "access_token" tokens = Some (JString (OAuthConfig.apiKey config)).
Proof.
  destruct body as [body|]; [|discriminate].
  rewrite handleToken_eq.
  destruct (validateTokenRequest_returns config now body w) as (r & w1 & -> & _ & Hr).
  destruct r as [resp|grant].
  - destruct Hr as (e & d & -> & _). discriminate.
  - destruct (redeemCode_effect config now req (TokenGrant.code grant)
                (TokenGrant.redirect_uri grant) (TokenGrant.code_verifier grant)
                (TokenGrant.client_id grant) w1)
      as (r & w2 & -> & _ & _ & _ & [(d & ->)|(sc & _ & _ & _ & _ & -> & _)]).
    + discriminate.
    + intros [= <- _]. reflexivity.
Qed.

(** X19.  The middleware lets a request through exactly when its
    Authorization header is "Bearer " followed by the configured API key;
    every other request is answered 401 with the WWW-Authenticate header,
    as [unauthorized] when the header is missing, empty or has no
    "Bearer " prefix, as [invalid_token] otherwise. *)
Theorem authMiddleware_admits_exactly serverUrl config authorization :
  (authMiddleware serverUrl config authorization = Next
   <-> authorization = Some ("Bearer " ++ OAuthConfig.apiKey config)%string)
  /\ (forall status header body,
        authMiddleware serverUrl config authorization = Reject status header body ->
        status = 401 /\ header = wwwAuthenticateHeader serverUrl config
        /\ ((json_get "error" body = Some (JString "unauthorized")
             /\ forall token, authorization <> Some ("Bearer " ++ token)%string)
            \/ (json_get "error" body = Some (JString "invalid_token")
                /\ exists token, authorization = Some ("Bearer " ++ token)%string
                                 /\ token <> OAuthConfig.apiKey config))).
Proof.
  unfold authMiddleware, startsWith.
  destruct authorization as [h|]; cbn [opt_truthy negb orb].
  2:{ split; [split; discriminate|].
      intros status header body [= <- <- <-]. split; [reflexivity|]. split; [reflexivity|].
      left. split; [reflexivity|]. discriminate. }
  destruct (String.prefix "Bearer " h) eqn:P.
  - pose proof (prefix_slice "Bearer " h P) as Eh. change (String.length "Bearer ") with 7%nat in Eh.
    assert (T : str_truthy h = true) by (rewrite Eh; reflexivity).
    rewrite T. cbn [negb orb].
    destruct (String.eqb_spec (slice 7 h) (OAuthConfig.apiKey config)) as [K|K]; cbn [negb].
    + split; [|discriminate]. split; [intros _; now rewrite <- K, <- Eh|reflexivity].
    + split.
      * split; [discriminate|]. intros [= ->]. elim K.
        exact (slice_append "Bearer " (OAuthConfig.apiKey config)).
      * intros status header body [= <- <- <-]. split; [reflexivity|]. split; [reflexivity|].
        right. split; [reflexivity|]. exists (slice 7 h). split; [now rewrite <- Eh|exact K].
  - rewrite orb_true_r.
    assert (N : forall token, Some h <> Some ("Bearer " ++ token)%string).
    { intros token [= ->].
      change (String.prefix "Bearer " ("Bearer " ++ token)%string = false) in P.
      rewrite prefix_append in P. discriminate P. }
    split; [split; [discriminate|intros E; elim (N _ E)]|].
    intros status header body [= <- <- <-]. split; [reflexivity|]. split; [reflexivity|].
    left. split; [reflexivity|exact N].
Qed.

(** X20.  What the token endpoint issues, the middleware of the same
    configuration admits: the [access_token] of any 200 answer, sent as
    "Bearer <token>", passes. *)
Theorem issued_token_passes_middleware serverUrl config now req body w tokens w' token :
  handleToken config now req body w = (Return (Json 200 tokens), w') ->
  json_get "access_token" tokens = Some (JString token) ->
  authMiddleware serverUrl config (Some ("Bearer " ++ token)%string) = Next.
Proof.
  intros E G. rewrite (handleToken_token_body _ _ _ _ _ _ _ E) in G. injection G as <-.
  unfold authMiddleware, startsWith. cbn [opt_truthy].
  rewrite prefix_append.
  change (str_truthy ("Bearer " ++ OAuthConfig.apiKey config)) with true.
  cbn [negb orb].
  change 7%nat with (String.length "Bearer ").
  rewrite slice_append, String.eqb_refl. reflexivity.
Qed.

(** The scenario's token answer, presented to the middleware. *)
Lemma issued_token_passes_middleware_example :
  authMiddleware "https://mcp.example" example_config (Some "Bearer example-api-key") = Next.
Proof.
  exact (issued_token_passes_middleware "https://mcp.example" example_config 2000 example_peer
           (Some example_token_request) example_world
           [("access_token", JString "example-api-key");
            ("token_type", JString "Bearer");
            ("scope", JString "mcp:tools:* mcp:resources:* mcp:prompts:*")]
           (snd (handleToken example_config 2000 example_peer (Some example_token_request)
                   example_world))
           "example-api-key"
           ltac:(vm_compute; reflexivity) eq_refl).
Defined.

Section LoginProperties.

Variable bcrypt_compare : string -> string -> option bool.

(** X21.  Login marks the session authenticated only when bcrypt
    accepts the submitted password against the configured hash, and then
    redirects to [original_url] as submitted; a session that was not
    authenticated stays so in every other case, and no case clears an
    authenticated session. *)
Theorem handleLogin_authenticates_exactly passwordHash password original_url authenticated :
  snd (handleLogin bcrypt_compare passwordHash password original_url authenticated)
  = authenticated || password_accepted bcrypt_compare passwordHash password original_url
  /\ (password_accepted bcrypt_compare passwordHash password original_url = true <->
      exists url,
        fst (handleLogin bcrypt_compare passwordHash password original_url authenticated)
        = LoginRedirect url)
  /\ (forall url,
        fst (handleLogin bcrypt_compare passwordHash password original_url authenticated)
        = LoginRedirect url ->
        original_url = JString url).
Proof.
  unfold password_accepted, handleLogin. rewrite !missing_or_not_string_present.
  destruct (present_string password) eqn:Pp; cbn [negb andb fst snd].
  2:{ rewrite orb_false_r. split; [reflexivity|].
      split; [split; [discriminate|intros (u & H); discriminate H]|discriminate]. }
  destruct (present_string original_url) eqn:Po; cbn [negb andb fst snd].
  2:{ rewrite orb_false_r. split; [reflexivity|].
      split; [split; [discriminate|intros (u & H); discriminate H]|discriminate]. }
  destruct (str_truthy passwordHash); cbn [negb andb fst snd].
  2:{ rewrite orb_false_r. split; [reflexivity|].
      split; [split; [discriminate|intros (u & H); discriminate H]|discriminate]. }
  destruct (bcrypt_compare (as_string password) passwordHash) as [[|]|];
    cbn [negb andb fst snd].
  - rewrite orb_true_r. split; [reflexivity|]. split; [split; [eauto|reflexivity]|].
    intros url [= <-]. now apply present_string_as_string in Po.
  - rewrite orb_false_r. split; [reflexivity|].
    split; [split; [discriminate|intros (u & H); discriminate H]|discriminate].
  - rewrite orb_false_r. split; [reflexivity|].
    split; [split; [discriminate|intros (u & H); discriminate H]|discriminate].
Qed.

End LoginProperties.

(** X22.  Writing the audit log never fails the caller: it returns
    whether the INSERT is served or rejected, appends exactly the one row
    (empty client id and message stored as NULL) when served and nothing
    when rejected, and leaves codes and clients alone. *)
Theorem logAuthEvent_never_fails event req success clientId errorMessage w :
  exists w',
    logAuthEvent event req success clientId errorMessage w = (Return tt, w')
    /\ authorization_codes w' = authorization_codes w
    /\ oauth_clients w' = oauth_clients w
    /\ auth_logs w'
       = if hd false (faults w) then auth_logs w
         else auth_logs w
              ++ [AuthLog.mk event (ip req) (user_agent req)
                    (if opt_truthy clientId then clientId else None) success
                    (if opt_truthy errorMessage then errorMessage else None)].
Proof.
  unfold logAuthEvent, try_catch, ret.
  destruct (hd false (faults w)) eqn:F.
  - rewrite pool_query_rejected by assumption. eexists. repeat split.
  - rewrite pool_query_served by assumption. eexists. repeat split.
Qed.

(** X23.  Every code the server ever holds is bound: in any world reached
    from an empty code table by authorize, token and register requests,
    DELETEs settled by the store and changes of the store's health, each
    stored row has a non-empty
    client id and redirect URI, method S256, a well-formed challenge and
    a 43-character code. *)
Theorem reachable_codes_wellformed w :
  reachable w -> codes_wellformed w.
Proof.
  induction 1 as [w E|w w' _ IH S].
  - intros row Hin. rewrite E in Hin. destruct Hin.
  - destruct S as [URL_parse config now req w|config now req body w|URL_parse now req w
                  |code w|schedule w].
    + destruct (handleAuthorize_outcomes URL_parse config now req w)
        as (r & w' & E & _ & [(C & _)|(_ & V & code & L & C & _)]);
        rewrite E; cbn [snd]; intros row Hin; rewrite C in Hin; [now apply IH|].
      apply in_app_or in Hin. destruct Hin as [Hin|[<-|[]]]; [now apply IH|].
      destruct (validateAuthorizeParams_None req V) as (Pc & Pr & _ & _ & _ & Vc).
      cbn [StoredAuthCode.clientId StoredAuthCode.redirectUri
           StoredAuthCode.codeChallengeMethod StoredAuthCode.codeChallenge
           StoredAuthCode.code].
      split; [exact (proj2 (present_string_as_string _ Pc))|].
      split; [exact (proj2 (present_string_as_string _ Pr))|].
      split; [reflexivity|]. split; [exact Vc|exact L].
    + intros row Hin. apply IH. exact (handleToken_rows _ _ _ _ _ _ Hin).
    + intros row Hin. rewrite handleRegister_codes in Hin. now apply IH.
    + intros row Hin. apply IH. now apply (settle_tables code w).
    + exact IH.
Qed.

(** A password accepted by the stand-in comparison. *)
Lemma handleLogin_example :
  handleLogin example_compare "terces" (JString "secret") (JString "/oauth/authorize?x=1") false
  = (LoginRedirect "/oauth/authorize?x=1", true).
Proof. reflexivity. Qed.

(** The world after one successful authorization request. *)
Lemma reachable_codes_wellformed_example :
  List.length (authorization_codes
                 (snd (handleAuthorize plain_URL_parse example_config 1000
                         (example_authorize_request JUndefined) empty_world))) = 1%nat
  /\ codes_wellformed
       (snd (handleAuthorize plain_URL_parse example_config 1000
               (example_authorize_request JUndefined) empty_world)).
Proof.
  split; [vm_compute; reflexivity|].
  apply (reachable_codes_wellformed
           (snd (handleAuthorize plain_URL_parse example_config 1000
                   (example_authorize_request JUndefined) empty_world))).
  apply (reachable_step empty_world); [apply reachable_init; reflexivity|].
  apply step_authorize.
Defined.

(* ===================================================================== *)
(** * Further properties: the authorization code flow, end to end          *)
(* ===================================================================== *)



Section RoundTrip.

Variable URL_parse : string -> option URL.


End RoundTrip.

